(** * Invoice comparison: the product matching engine

    A shallow embedding of the matching code of [invoice_comparison]
    ([matching/similarity_scorer.py], [matching/product_matcher.py],
    [matching/fuzzy_matcher.py], [database/operations.py]) and the
    properties of it that the specification states.

    Conventions of the embedding.
    - A Python [str] is a [string]; a character is one of the 256 code
      points of [ascii], classified as Python classifies the code points
      below 256.
    - A Python [float] is a rational number of [Q]; arithmetic is exact.
    - A table of the database is the list of its rows; a query without
      ORDER BY returns rows in table order, [first()] the first of them.
    - What the code takes from other packages ([rapidfuzz.fuzz.ratio],
      [rapidfuzz.fuzz.token_sort_ratio], [hashlib.md5]) is a variable of
      the section that uses it.
    - The text normalizer is given a second time over an arbitrary
      alphabet ([Normalizer]), with [str.lower] and the classes of
      characters as variables; the normalizer of the strings is its
      instance at the 256 code points. *)

From Stdlib Require Import ZArith QArith Qabs Lqa String Ascii List Lia.
From stdpp Require Import base option gmap strings list.

Open Scope string_scope.
Open Scope Z_scope.

(** ** Characters *)

Module Char.

Definition code (c : ascii) : N := N_of_ascii c.

Definition between (lo hi : N) (c : ascii) : bool :=
  ((lo <=? code c) && (code c <=? hi))%N.

(** [str.isupper] on one code point: A-Z and the capital letters of the
    range 192..222 (215 is the multiplication sign). *)
Definition is_upper (c : ascii) : bool :=
  between 65 90 c || between 192 214 c || between 216 222 c.

(** [str.lower] on one code point. *)
Definition lower (c : ascii) : ascii :=
  if is_upper c then ascii_of_N (code c + 32) else c.

(** [\s] and [str.isspace]. *)
Definition is_space (c : ascii) : bool :=
  between 9 13 c || between 28 32 c || (code c =? 133)%N || (code c =? 160)%N.

(** [\d]. *)
Definition is_digit (c : ascii) : bool := between 48 57 c.

(** [\w]: alphanumeric code points and the underscore. *)
Definition is_word (c : ascii) : bool :=
  is_digit c || between 65 90 c || between 97 122 c || (code c =? 95)%N
  || (code c =? 170)%N || between 178 179 c || (code c =? 181)%N
  || between 185 186 c || between 188 190 c
  || between 192 214 c || between 216 246 c || between 248 255 c.

Definition is_period (c : ascii) : bool := (code c =? 46)%N.

(** Comparison of two characters under [re.IGNORECASE]. *)
Definition eqb_nocase (a b : ascii) : bool := Ascii.eqb (lower a) (lower b).

End Char.

(** ** Strings *)

Fixpoint str_map (f : ascii -> ascii) (s : string) : string :=
  match s with
  | EmptyString => EmptyString
  | String c s' => String (f c) (str_map f s')
  end.

(** [str.lower] *)
Definition lower (s : string) : string := str_map Char.lower s.

Fixpoint lstrip (s : string) : string :=
  match s with
  | EmptyString => EmptyString
  | String c s' => if Char.is_space c then lstrip s' else s
  end.

Fixpoint rstrip (s : string) : string :=
  match s with
  | EmptyString => EmptyString
  | String c s' =>
      match rstrip s' with
      | EmptyString => if Char.is_space c then EmptyString else String c EmptyString
      | t => String c t
      end
  end.

(** [str.strip] *)
Definition strip (s : string) : string := rstrip (lstrip s).

(** [re.sub(r'[^\w\s\.]', ' ', text)] *)
Definition sub_special (s : string) : string :=
  str_map (fun c =>
    if Char.is_word c || Char.is_space c || Char.is_period c then c else " "%char) s.

(** [re.sub(r'\s+', ' ', text)]: every maximal run of white space becomes
    one space; [in_run] tells that the previous character was white space. *)
Fixpoint sub_spaces_from (in_run : bool) (s : string) : string :=
  match s with
  | EmptyString => EmptyString
  | String c s' =>
      if Char.is_space c
      then (if in_run then sub_spaces_from true s'
            else String " "%char (sub_spaces_from true s'))
      else String c (sub_spaces_from false s')
  end.

Definition sub_spaces (s : string) : string := sub_spaces_from false s.

(** Truth value of a [str]. *)
Definition truthy (s : string) : bool :=
  match s with EmptyString => false | _ => true end.

(** [SimilarityScorer.normalize_text] *)
Definition normalize_text (text : string) : string :=
  if negb (truthy text) then ""
  else sub_spaces (sub_special (strip (lower text))).

(** The characters of a string, and two neighbours in it. *)
Fixpoint chars (s : string) : list ascii :=
  match s with
  | EmptyString => []
  | String c s' => c :: chars s'
  end.

Fixpoint no_double_space (s : string) : Prop :=
  match s with
  | String a ((String b _) as s') =>
      ~ (Char.is_space a = true /\ Char.is_space b = true) /\ no_double_space s'
  | _ => True
  end.

(** ** Regular expressions

    The fragment of [re] that the scorer's patterns are written in, with
    the search order of a backtracking matcher: alternatives left to
    right, optional parts and repetitions greedy. Repetition applies to
    character classes only, as in the patterns. *)

Inductive regex : Type :=
| Eps
| Lit (c : ascii)
| Cls (p : ascii -> bool)
| Cat (r1 r2 : regex)
| Alt (r1 r2 : regex)
| Opt (r : regex)
| Star (p : ascii -> bool)
| Plus (p : ascii -> bool)
| Grp (i : nat) (r : regex).

(** The part of [s] that lies before its suffix [rest]. *)
Definition consumed (s rest : string) : string :=
  substring 0 (String.length s - String.length rest) s.

Fixpoint star_match {A : Type} (p : ascii -> bool) (s : string)
    (k : string -> option A) : option A :=
  match s with
  | String c s' =>
      if p c
      then match star_match p s' k with
           | Some r => Some r
           | None => k s
           end
      else k s
  | EmptyString => k s
  end.

Fixpoint rmatch {A : Type} (r : regex) (s : string) (g : gmap nat string)
    (k : string -> gmap nat string -> option A) : option A :=
  match r with
  | Eps => k s g
  | Lit c =>
      match s with
      | String a s' => if Char.eqb_nocase a c then k s' g else None
      | EmptyString => None
      end
  | Cls p =>
      match s with
      | String a s' => if p a then k s' g else None
      | EmptyString => None
      end
  | Cat r1 r2 => rmatch r1 s g (fun s' g' => rmatch r2 s' g' k)
  | Alt r1 r2 =>
      match rmatch r1 s g k with
      | Some x => Some x
      | None => rmatch r2 s g k
      end
  | Opt r1 =>
      match rmatch r1 s g k with
      | Some x => Some x
      | None => k s g
      end
  | Star p => star_match p s (fun s' => k s' g)
  | Plus p =>
      match s with
      | String a s' => if p a then star_match p s' (fun s'' => k s'' g) else None
      | EmptyString => None
      end
  | Grp i r1 => rmatch r1 s g (fun s' g' => k s' (<[i := consumed s s']> g'))
  end.

(** [re.match]: a match that starts at the first character. *)
Definition re_match (r : regex) (s : string) : option (gmap nat string) :=
  rmatch r s ∅ (fun _ g => Some g).

(** [re.search]: the match at the leftmost position that has one. *)
Fixpoint re_search (r : regex) (s : string) : option (gmap nat string) :=
  match re_match r s with
  | Some g => Some g
  | None =>
      match s with
      | String _ s' => re_search r s'
      | EmptyString => None
      end
  end.

(** A literal word, and an alternation of literal words. *)
Fixpoint lits (w : string) : regex :=
  match w with
  | EmptyString => Eps
  | String c EmptyString => Lit c
  | String c w' => Cat (Lit c) (lits w')
  end.

Fixpoint alts (ws : list string) : regex :=
  match ws with
  | [] => Eps
  | [w] => lits w
  | w :: ws' => Alt (lits w) (alts ws')
  end.

(** ** The Format Unit Extractor *)

(** [\d+(?:\.\d+)?] and [\d+] *)
Definition re_decimal : regex :=
  Cat (Plus Char.is_digit) (Opt (Cat (Lit ".") (Plus Char.is_digit))).
Definition re_integer : regex := Plus Char.is_digit.

(** The shape of the five patterns, written with blanks between the parts:
    [(num) \s* (?: x \s* )? (num)? \s* (?: u1 | u2 | ... )] *)
Definition format_pattern (num : regex) (units : list string) : regex :=
  Cat (Grp 1 num)
  (Cat (Star Char.is_space)
  (Cat (Opt (Cat (Lit "x") (Star Char.is_space)))
  (Cat (Opt (Grp 2 num))
  (Cat (Star Char.is_space)
       (alts units))))).

(** [SimilarityScorer.FORMAT_PATTERNS], in the order of the dict. *)
Definition FORMAT_PATTERNS : list (string * regex) :=
  [ ("kg", format_pattern re_decimal ["kg"; "kilo"; "kilogram"]);
    ("g", format_pattern re_decimal ["g"; "gram"]);
    ("l", format_pattern re_decimal ["l"; "liter"; "litre"]);
    ("ml", format_pattern re_decimal ["ml"; "milliliter"]);
    ("units", format_pattern re_integer ["un"; "unit"; "piece"; "pce"]) ].

Fixpoint digits_value (acc : N) (s : string) : option N :=
  match s with
  | EmptyString => Some acc
  | String c s' =>
      if Char.is_digit c
      then digits_value (acc * 10 + (Char.code c - 48)) s'
      else None
  end.

Fixpoint pow10 (n : nat) : positive :=
  match n with
  | O => 1%positive
  | S n' => (10 * pow10 n')%positive
  end.

Fixpoint split_period (s : string) : string * option string :=
  match s with
  | EmptyString => (EmptyString, None)
  | String c s' =>
      if Char.is_period c then (EmptyString, Some s')
      else let '(a, b) := split_period s' in (String c a, b)
  end.

(** [float(s)] for the numerals a pattern can capture: digits with an
    optional fraction. [None] is the ValueError of any other string. *)
Definition float_of_str (s : string) : option Q :=
  let '(ip, fp) := split_period s in
  let frac := default EmptyString fp in
  if truthy ip || truthy frac then
    i ← digits_value 0 ip;
    d ← digits_value 0 frac;
    Some (inject_Z (Z.of_N i) + Qmake (Z.of_N d) (pow10 (String.length frac)))%Q
  else None.

(** [count] and [size] of a match, by its two groups; [None] where the
    loop goes on to the next pattern. *)
Definition count_and_size (groups : gmap nat string) : option (Q * Q) :=
  match groups !! 1%nat with
  | Some g0 =>
      if truthy g0 then
        if truthy (default EmptyString (groups !! 2%nat)) then
          count ← float_of_str g0;
          size ← float_of_str (default EmptyString (groups !! 2%nat));
          Some (count, size)
        else
          size ← float_of_str g0;
          Some (1%Q, size)
      else None
  | None => None
  end.

Definition total_grams (unit_type : string) (count size : Q) : Q :=
  (if String.eqb unit_type "kg" then count * size * 1000
   else if String.eqb unit_type "g" then count * size
   else if String.eqb unit_type "l" then count * size * 1000
   else if String.eqb unit_type "ml" then count * size
   else count * (if Qeq_bool size 0 then 1 else size))%Q.

Fixpoint extract_format_from (patterns : list (string * regex)) (text : string)
    : Q * string :=
  match patterns with
  | [] => (0%Q, "unknown")
  | (unit_type, pattern) :: rest =>
      match re_search pattern text with
      | Some groups =>
          match count_and_size groups with
          | Some (count, size) => (total_grams unit_type count size, unit_type)
          | None => extract_format_from rest text
          end
      | None => extract_format_from rest text
      end
  end.

(** [SimilarityScorer.extract_format] *)
Definition extract_format (format_field product_name : string) : Q * string :=
  let text := normalize_text (format_field ++ " " ++ product_name) in
  extract_format_from FORMAT_PATTERNS text.

(** Python's [max(a, b)] and [min(a, b)]: the first argument on a tie. *)
Definition py_max (a b : Q) : Q :=
  match (a ?= b)%Q with Lt => b | _ => a end.
Definition py_min (a b : Q) : Q :=
  match (a ?= b)%Q with Gt => b | _ => a end.

(** ** The Similarity Scorer *)

(** [str.split()] *)
Fixpoint split (s : string) : list string :=
  match s with
  | EmptyString => []
  | String c s' =>
      if Char.is_space c then split s'
      else
        match s' with
        | EmptyString => [String c EmptyString]
        | String c' _ =>
            if Char.is_space c' then String c EmptyString :: split s'
            else
              match split s' with
              | w :: ws => String c w :: ws
              | [] => [String c EmptyString]
              end
        end
  end.

(** [sep.join(words)] *)
Fixpoint join (sep : string) (words : list string) : string :=
  match words with
  | [] => EmptyString
  | [w] => w
  | w :: ws => w ++ sep ++ join sep ws
  end.

(** [needle in text] *)
Fixpoint contains (needle text : string) : bool :=
  String.prefix needle text
  || match text with
     | String _ t => contains needle t
     | EmptyString => false
     end.

Definition member (w : string) (ws : list string) : bool :=
  existsb (String.eqb w) ws.

Module SimilarityScore.
Record t : Type := mk {
  total_score : Q;
  brand_score : Q;
  product_type_score : Q;
  format_score : Q;
  packaging_score : Q
}.
End SimilarityScore.

(** [SimilarityScorer.WEIGHTS] *)
Definition WEIGHTS (key : string) : Q :=
  if String.eqb key "brand" then 25 # 100
  else if String.eqb key "product_type" then 40 # 100
  else if String.eqb key "format" then 25 # 100
  else if String.eqb key "packaging" then 10 # 100
  else 0.

(** [SimilarityScorer.BRAND_SYNONYMS] *)
Definition BRAND_SYNONYMS : list (string * list string) :=
  [ ("olimel", ["olymel"]);
    ("maple leaf", ["maple"; "mapleleaf"]);
    ("coca cola", ["coca-cola"; "coke"]);
    ("pepsi", ["pepsi-cola"]) ].

Definition descriptor_stop_words : list string :=
  ["bio"; "organic"; "naturel"; "nature"; "original"; "orig"].

Definition packaging_types : list string :=
  ["box"; "boite"; "case"; "caisse"; "bag"; "sac"; "bottle"; "bouteille";
   "can"; "canne"; "jar"; "pot"; "tray"; "plateau"].

(** [SimilarityScorer.extract_product_type] *)
Definition extract_product_type (product_name : string) : string :=
  let normalized := normalize_text product_name in
  let words := split normalized in
  let product_words :=
    List.filter (fun word =>
      negb (bool_decide (is_Some (re_match re_integer word)))
      && (2 <? String.length word)%nat
      && negb (member word descriptor_stop_words)) words in
  join " " (take 3 product_words).

(** [SimilarityScorer.extract_packaging] *)
Definition extract_packaging (packaging_field product_name : string) : string :=
  let text := normalize_text (packaging_field ++ " " ++ product_name) in
  default "unknown" (List.find (fun pkg => contains pkg text) packaging_types).

(** A product descriptor: the dict with the keys [product_name], [brand],
    [format], [packaging] (and [supplier_code] for a query). *)
Abbreviation descriptor := (gmap string string).

(** [d.get(key, '')] *)
Definition get (d : descriptor) (key : string) : string :=
  default EmptyString (d !! key).

Section Scorer.

(** [rapidfuzz.fuzz.ratio] and [rapidfuzz.fuzz.token_sort_ratio] *)
Variable ratio : string -> string -> Q.
Variable token_sort_ratio : string -> string -> Q.

(** [SimilarityScorer.compare_formats] *)
Definition compare_formats (format1 format2 name1 name2 : string) : Q :=
  let '(qty1, unit1) := extract_format format1 name1 in
  let '(qty2, unit2) := extract_format format2 name2 in
  if Qeq_bool qty1 0 || Qeq_bool qty2 0 then
    let norm1 := normalize_text format1 in
    let norm2 := normalize_text format2 in
    if negb (truthy norm1) && negb (truthy norm2) then 50%Q
    else ratio norm1 norm2
  else
    let diff_percent := (Qabs (qty1 - qty2) / py_max qty1 qty2 * 100)%Q in
    let similarity := py_max 0 (100 - diff_percent)%Q in
    if String.eqb unit1 unit2 then py_min 100 (similarity * (11 # 10))%Q
    else similarity.

Fixpoint synonym_match (table : list (string * list string)) (b1 b2 : string) : bool :=
  match table with
  | [] => false
  | (canonical, synonyms) :: rest =>
      if member b1 synonyms && String.eqb b2 canonical then true
      else if member b2 synonyms && String.eqb b1 canonical then true
      else if member b1 synonyms && member b2 synonyms then true
      else synonym_match rest b1 b2
  end.

(** [SimilarityScorer.compare_brands] *)
Definition compare_brands (brand1 brand2 : string) : Q :=
  let b1 := normalize_text brand1 in
  let b2 := normalize_text brand2 in
  if negb (truthy b1) && negb (truthy b2) then 50%Q
  else if negb (truthy b1) || negb (truthy b2) then 0%Q
  else if String.eqb b1 b2 then 100%Q
  else if synonym_match BRAND_SYNONYMS b1 b2 then 95%Q
  else ratio b1 b2.

(** [SimilarityScorer.calculate_similarity] *)
Definition calculate_similarity (product1 product2 : descriptor) : SimilarityScore.t :=
  let name1 := get product1 "product_name" in
  let name2 := get product2 "product_name" in
  let brand1 := get product1 "brand" in
  let brand2 := get product2 "brand" in
  let format1 := get product1 "format" in
  let format2 := get product2 "format" in
  let pkg1 := get product1 "packaging" in
  let pkg2 := get product2 "packaging" in
  let brand_score := compare_brands brand1 brand2 in
  let type1 := extract_product_type name1 in
  let type2 := extract_product_type name2 in
  let product_type_score :=
    if negb (truthy type1) && negb (truthy type2) then 50%Q
    else token_sort_ratio type1 type2 in
  let format_score := compare_formats format1 format2 name1 name2 in
  let pkg_type1 := extract_packaging pkg1 name1 in
  let pkg_type2 := extract_packaging pkg2 name2 in
  let packaging_score :=
    if String.eqb pkg_type1 "unknown" && String.eqb pkg_type2 "unknown" then 50%Q
    else if String.eqb pkg_type1 pkg_type2 then 100%Q
    else ratio pkg_type1 pkg_type2 in
  let total_score :=
    (brand_score * WEIGHTS "brand"
     + product_type_score * WEIGHTS "product_type"
     + format_score * WEIGHTS "format"
     + packaging_score * WEIGHTS "packaging")%Q in
  SimilarityScore.mk total_score brand_score product_type_score
    format_score packaging_score.

End Scorer.

(** ** The database

    The tables of [database/schema.py] with the columns the matching code
    reads or writes. Nullable text columns are [option string]; a
    [DateTime] is a number. *)

Module Product.
Record t : Type := mk {
  id : Z;
  gtin : string;
  product_name : string;
  brand : option string;
  format : option string;
  packaging : option string;
  category : option string
}.
End Product.

Module Supplier.
Record t : Type := mk {
  id : Z;
  name : string;
  code : string
}.
End Supplier.

Module SupplierCode.
Record t : Type := mk {
  id : Z;
  supplier_id : Z;
  product_id : Z;
  supplier_code : string;
  price : option Q;
  active : bool
}.
End SupplierCode.

Module UserCorrection.
Record t : Type := mk {
  id : Z;
  original_supplier_id : Z;
  original_supplier_code : string;
  matched_product_id : Z;
  target_supplier_id : Z;
  target_supplier_code : string;
  user_confirmed : bool
}.
End UserCorrection.

Module MatchingCache.
Record t : Type := mk {
  search_text : string;
  search_hash : string;
  matched_product_id : Z;
  similarity_score : Q;
  match_method : string;
  created_at : Z;
  hit_count : Z;
  last_used : Z
}.
End MatchingCache.

Record Database : Type := mkDatabase {
  products : list Product.t;
  suppliers : list Supplier.t;
  supplier_codes : list SupplierCode.t;
  user_corrections : list UserCorrection.t;
  matching_cache : list MatchingCache.t
}.

(** Calls on the database, in the order they are made. *)
Inductive Event : Type :=
| FindProductBySupplierCode (supplier_code supplier : string)
| GetSupplierCodeForProduct (product_id : Z) (supplier : string)
| GetUserCorrections (supplier_code supplier : string)
| GetCachedMatch (search_text : string)
| CacheMatch (search_text : string) (product_id : Z) (similarity_score : Q)
| QueryProduct (id : Z)
| QuerySupplier (code : string)
| ScanCandidates.

(** The state a call runs in: the database, the clock of
    [datetime.utcnow], and the calls made so far. *)
Record World : Type := mkWorld {
  db : Database;
  clock : Z;
  log : list Event
}.

Inductive Result (A : Type) : Type :=
| Return (a : A)
| Raise (exception : string).
Arguments Return {A} a.
Arguments Raise {A} exception.

(** Computations that read and write the world and may raise. *)
Definition M (A : Type) : Type := World -> Result A * World.

Definition ret {A : Type} (a : A) : M A := fun w => (Return a, w).

Definition raise {A : Type} (exception : string) : M A :=
  fun w => (Raise exception, w).

Definition bind {A B : Type} (m : M A) (f : A -> M B) : M B :=
  fun w =>
    match m w with
    | (Return a, w') => f a w'
    | (Raise e, w') => (Raise e, w')
    end.

Notation "'let*' x ':=' m 'in' k" := (bind m (fun x => k))
  (at level 10, x name, m at level 100, k at level 200).
Notation "m ';;' k" := (bind m (fun _ => k))
  (at level 100, k at level 200, right associativity).

Definition emit (e : Event) : M unit :=
  fun w => (Return tt, mkWorld (db w) (clock w) (log w ++ [e])).

Definition read {A : Type} (q : Database -> A) : M A :=
  fun w => (Return (q (db w)), w).

Definition utcnow : M Z := fun w => (Return (clock w), w).

Definition write (f : Database -> Database) : M unit :=
  fun w => (Return tt, mkWorld (f (db w)) (clock w) (log w)).

(** [for x in xs: body], the results collected. *)
Fixpoint for_each {A B : Type} (xs : list A) (body : A -> M (list B)) : M (list B) :=
  match xs with
  | [] => ret []
  | x :: xs' =>
      let* ys := body x in
      let* zs := for_each xs' body in
      ret (ys ++ zs)%list
  end.

(** *** Queries *)

Definition supplier_by_code (code : string) (d : Database) : option Supplier.t :=
  List.find (fun s => String.eqb (Supplier.code s) code) (suppliers d).

Definition product_by_id (id : Z) (d : Database) : option Product.t :=
  List.find (fun p => Product.id p =? id) (products d).

(** [first()] of the active supplier codes of a supplier with a given code. *)
Definition mapping_by_code (supplier_id : Z) (supplier_code : string) (d : Database)
    : option SupplierCode.t :=
  List.find (fun m =>
    (SupplierCode.supplier_id m =? supplier_id)
    && String.eqb (SupplierCode.supplier_code m) supplier_code
    && SupplierCode.active m) (supplier_codes d).

(** [first()] of the active supplier codes of a product at a supplier. *)
Definition mapping_by_product (product_id supplier_id : Z) (d : Database)
    : option SupplierCode.t :=
  List.find (fun m =>
    (SupplierCode.product_id m =? product_id)
    && (SupplierCode.supplier_id m =? supplier_id)
    && SupplierCode.active m) (supplier_codes d).

Definition cache_by_hash (search_hash : string) (d : Database) : option MatchingCache.t :=
  List.find (fun c => String.eqb (MatchingCache.search_hash c) search_hash)
    (matching_cache d).

(** The rows of [Product JOIN SupplierCode] that are active at a
    supplier, product by product, for the products [ps]. *)
Definition active_listings (ps : list Product.t) (supplier_id : Z) (d : Database)
    : list (Product.t * SupplierCode.t) :=
  flat_map (fun p =>
    List.map (fun m => (p, m))
      (List.filter (fun m =>
         (SupplierCode.product_id m =? Product.id p)
         && (SupplierCode.supplier_id m =? supplier_id)
         && SupplierCode.active m) (supplier_codes d)))
    ps.

(** The first occurrence of every key, in order: the entities of a query
    on one class, and the loop over [seen_ids] of [find_matches]. *)
Fixpoint unique_from {A : Type} (key : A -> Z) (seen : list Z) (l : list A) : list A :=
  match l with
  | [] => []
  | x :: l' =>
      if existsb (Z.eqb (key x)) seen then unique_from key seen l'
      else x :: unique_from key (key x :: seen) l'
  end.

Definition unique {A : Type} (key : A -> Z) (l : list A) : list A :=
  unique_from key [] l.

(** [l\[:n\]] *)
Definition slice_to {A : Type} (n : Z) (l : list A) : list A :=
  if 0 <=? n then take (Z.to_nat n) l
  else take (length l - Z.to_nat (- n)) l.

(** [l.sort(key=score, reverse=True)]: a stable sort, larger scores first. *)
Fixpoint insert_desc {A : Type} (score : A -> Q) (x : A) (l : list A) : list A :=
  match l with
  | [] => [x]
  | y :: l' =>
      if Qle_bool (score y) (score x) then x :: y :: l'
      else y :: insert_desc score x l'
  end.

Definition sort_desc {A : Type} (score : A -> Q) (l : list A) : list A :=
  foldr (insert_desc score) [] l.

(** [row \[0 if x is None else x\]]: [x or ''] *)
Definition or_empty (x : option string) : string := default EmptyString x.

(** The dict built from a product row for the scorer. *)
Definition target_product (p : Product.t) : descriptor :=
  {[ "product_name" := Product.product_name p;
     "brand" := or_empty (Product.brand p);
     "format" := or_empty (Product.format p);
     "packaging" := or_empty (Product.packaging p) ]}.

(** ** Match results *)

Inductive MatchType : Type := gtin | user_correction | fuzzy.

Module MatchResult.
Record t : Type := mk {
  product : Product.t;
  similarity_score : Q;
  match_type : MatchType;
  supplier_code : option string;
  price : option Q;
  brand_score : Q;
  product_type_score : Q;
  format_score : Q;
  packaging_score : Q
}.
Definition product_id (r : t) : Z := Product.id (product r).
End MatchResult.

Module FuzzyMatchResult.
Record t : Type := mk {
  product : Product.t;
  similarity_score : Q;
  detailed_scores : SimilarityScore.t;
  supplier_code : option string;
  price : option Q
}.
End FuzzyMatchResult.


Definition truthy_opt (x : option string) : bool :=
  match x with Some s => truthy s | None => false end.

Definition is_none {A : Type} (x : option A) : bool :=
  match x with Some _ => false | None => true end.

Section Engine.

Variable ratio : string -> string -> Q.
Variable token_sort_ratio : string -> string -> Q.

(** [hashlib.md5(text.encode()).hexdigest()] *)
Variable md5_hexdigest : string -> string.

(** ** DatabaseOperations *)

(** The query of [DatabaseOperations.find_product_by_supplier_code]; the
    product of the pair is [mapping.product], [None] when no product row
    has the mapping's product id. *)
Definition product_by_supplier_code (supplier_code supplier : string) (d : Database)
    : option (option Product.t * SupplierCode.t) :=
  match supplier_by_code supplier d with
  | None => None
  | Some supplier_obj =>
      match mapping_by_code (Supplier.id supplier_obj) supplier_code d with
      | Some mapping =>
          Some (product_by_id (SupplierCode.product_id mapping) d, mapping)
      | None => None
      end
  end.

(** [DatabaseOperations.find_product_by_supplier_code] *)
Definition find_product_by_supplier_code (supplier_code supplier : string)
    : M (option (option Product.t * SupplierCode.t)) :=
  emit (FindProductBySupplierCode supplier_code supplier) ;;
  read (product_by_supplier_code supplier_code supplier).

(** The query of [DatabaseOperations.get_supplier_code_for_product]. *)
Definition supplier_code_for_product (product_id : Z) (supplier : string) (d : Database)
    : option SupplierCode.t :=
  match supplier_by_code supplier d with
  | None => None
  | Some supplier_obj => mapping_by_product product_id (Supplier.id supplier_obj) d
  end.

(** [DatabaseOperations.get_supplier_code_for_product] *)
Definition get_supplier_code_for_product (product_id : Z) (supplier : string)
    : M (option SupplierCode.t) :=
  emit (GetSupplierCodeForProduct product_id supplier) ;;
  read (supplier_code_for_product product_id supplier).

(** The query of [DatabaseOperations.get_user_corrections]. *)
Definition user_corrections_for (supplier_code supplier : string) (d : Database)
    : list UserCorrection.t :=
  match supplier_by_code supplier d with
  | None => []
  | Some supplier_obj =>
      List.filter (fun c =>
        (UserCorrection.original_supplier_id c =? Supplier.id supplier_obj)
        && String.eqb (UserCorrection.original_supplier_code c) supplier_code
        && UserCorrection.user_confirmed c) (user_corrections d)
  end.

(** [DatabaseOperations.get_user_corrections] *)
Definition get_user_corrections (supplier_code supplier : string)
    : M (list UserCorrection.t) :=
  emit (GetUserCorrections supplier_code supplier) ;;
  read (user_corrections_for supplier_code supplier).

(** The update of [cache_match] on the row it found. *)
Definition touch (now : Z) (c : MatchingCache.t) : MatchingCache.t :=
  MatchingCache.mk (MatchingCache.search_text c) (MatchingCache.search_hash c)
    (MatchingCache.matched_product_id c) (MatchingCache.similarity_score c)
    (MatchingCache.match_method c) (MatchingCache.created_at c)
    (MatchingCache.hit_count c + 1) now.

Fixpoint touch_first (search_hash : string) (now : Z) (rows : list MatchingCache.t)
    : list MatchingCache.t :=
  match rows with
  | [] => []
  | c :: rest =>
      if String.eqb (MatchingCache.search_hash c) search_hash
      then touch now c :: rest
      else c :: touch_first search_hash now rest
  end.

Definition set_cache (rows : list MatchingCache.t) (d : Database) : Database :=
  mkDatabase (products d) (suppliers d) (supplier_codes d) (user_corrections d) rows.

(** The database after [cache_match] committed at time [now]: the hit
    count and the time of last use of the row of the hash, or a new row. *)
Definition cache_written (search_text : string) (product_id : Z)
    (similarity_score : Q) (method : string) (now : Z) (d : Database) : Database :=
  let search_hash := md5_hexdigest (lower search_text) in
  match cache_by_hash search_hash d with
  | Some _ => set_cache (touch_first search_hash now (matching_cache d)) d
  | None =>
      set_cache (matching_cache d ++
        [MatchingCache.mk search_text search_hash product_id similarity_score
           method now 1 now])%list d
  end.

(** [DatabaseOperations.cache_match] *)
Definition cache_match (search_text : string) (product_id : Z)
    (similarity_score : Q) (method : string) : M unit :=
  emit (CacheMatch search_text product_id similarity_score) ;;
  let* now := utcnow in
  write (cache_written search_text product_id similarity_score method now).

(** The query of [DatabaseOperations.get_cached_match]: the entry of the
    hash, unless its product is gone. *)
Definition cached_match (search_text : string) (d : Database) : option (Product.t * Q) :=
  match cache_by_hash (md5_hexdigest (lower search_text)) d with
  | Some cache =>
      match product_by_id (MatchingCache.matched_product_id cache) d with
      | Some product => Some (product, MatchingCache.similarity_score cache)
      | None => None
      end
  | None => None
  end.

(** [DatabaseOperations.get_cached_match] *)
Definition get_cached_match (search_text : string) : M (option (Product.t * Q)) :=
  emit (GetCachedMatch search_text) ;;
  read (cached_match search_text).

(** ** ProductMatcher *)

(** The result [_try_gtin_match] builds, and the one of
    [_try_user_corrections]. *)
Definition gtin_result (product : Product.t) (target_mapping : SupplierCode.t)
    : MatchResult.t :=
  MatchResult.mk product 100 gtin
    (Some (SupplierCode.supplier_code target_mapping))
    (SupplierCode.price target_mapping) 0 0 0 0.

Definition correction_result (product : Product.t) (target_mapping : SupplierCode.t)
    : MatchResult.t :=
  MatchResult.mk product 95 user_correction
    (Some (SupplierCode.supplier_code target_mapping))
    (SupplierCode.price target_mapping) 0 0 0 0.

(** [ProductMatcher._try_gtin_match] *)
Definition _try_gtin_match (supplier_code source_supplier target_supplier : string)
    : M (option MatchResult.t) :=
  let* result := find_product_by_supplier_code supplier_code source_supplier in
  match result with
  | None => ret None
  | Some (None, _) => raise "AttributeError"
  | Some (Some product, _) =>
      let* target_mapping :=
        get_supplier_code_for_product (Product.id product) target_supplier in
      match target_mapping with
      | None => ret None
      | Some target_mapping => ret (Some (gtin_result product target_mapping))
      end
  end.

(** [ProductMatcher._try_user_corrections] *)
Definition _try_user_corrections (supplier_code source_supplier target_supplier : string)
    : M (list MatchResult.t) :=
  let* corrections := get_user_corrections supplier_code source_supplier in
  for_each corrections (fun correction =>
    emit (QueryProduct (UserCorrection.matched_product_id correction)) ;;
    let* product :=
      read (product_by_id (UserCorrection.matched_product_id correction)) in
    match product with
    | Some product =>
        let* target_mapping :=
          get_supplier_code_for_product (Product.id product) target_supplier in
        match target_mapping with
        | Some target_mapping => ret [correction_result product target_mapping]
        | None => ret []
        end
    | None => ret []
    end).

(** The dict [search_product] of [_try_fuzzy_match]. *)
Definition search_product_of (product_info : descriptor) : descriptor :=
  {[ "product_name" := get product_info "product_name";
     "brand" := get product_info "brand";
     "format" := get product_info "format";
     "packaging" := get product_info "packaging" ]}.

(** The body of the scoring loop of [_try_fuzzy_match]. *)
Definition fuzzy_result (search_product : descriptor) (min_similarity : Q)
    (row : Product.t * SupplierCode.t) : list MatchResult.t :=
  let '(product, supplier_code_obj) := row in
  let similarity :=
    calculate_similarity ratio token_sort_ratio search_product (target_product product) in
  if Qle_bool min_similarity (SimilarityScore.total_score similarity) then
    [MatchResult.mk product (SimilarityScore.total_score similarity) fuzzy
       (Some (SupplierCode.supplier_code supplier_code_obj))
       (SupplierCode.price supplier_code_obj)
       (SimilarityScore.brand_score similarity)
       (SimilarityScore.product_type_score similarity)
       (SimilarityScore.format_score similarity)
       (SimilarityScore.packaging_score similarity)]
  else [].

(** [ProductMatcher._try_fuzzy_match] *)
Definition _try_fuzzy_match (product_info : descriptor) (target_supplier : string)
    (min_similarity : Q) (max_results : Z) : M (list MatchResult.t) :=
  emit (QuerySupplier target_supplier) ;;
  let* supplier := read (supplier_by_code target_supplier) in
  match supplier with
  | None => ret []
  | Some supplier =>
      emit ScanCandidates ;;
      let* products_with_codes :=
        read (fun d => take (Z.to_nat 10000) (active_listings (products d) (Supplier.id supplier) d)) in
      let search_product := search_product_of product_info in
      let results :=
        flat_map (fuzzy_result search_product min_similarity) products_with_codes in
      let results := sort_desc MatchResult.similarity_score results in
      ret (slice_to max_results results)
  end.

(** Strategy 1 and strategy 2 of [find_matches], each behind its test
    ['supplier_code' in product_info]. *)
Definition exact_strategy (product_info : descriptor)
    (source_supplier target_supplier : string) : M (option MatchResult.t) :=
  match product_info !! "supplier_code" with
  | Some supplier_code =>
      _try_gtin_match supplier_code source_supplier target_supplier
  | None => ret None
  end.

Definition correction_strategy (product_info : descriptor)
    (source_supplier target_supplier : string) : M (list MatchResult.t) :=
  match product_info !! "supplier_code" with
  | Some supplier_code =>
      _try_user_corrections supplier_code source_supplier target_supplier
  | None => ret []
  end.

(** [ProductMatcher.find_matches] *)
Definition find_matches (product_info : descriptor)
    (source_supplier target_supplier : string)
    (min_similarity : Q) (max_results : Z) : M (list MatchResult.t) :=
  let* gtin_match := exact_strategy product_info source_supplier target_supplier in
  match gtin_match with
  | Some gtin_match => ret [gtin_match]
  | None =>
      let* correction_matches :=
        correction_strategy product_info source_supplier target_supplier in
      let* fuzzy_matches :=
        _try_fuzzy_match product_info target_supplier min_similarity max_results in
      let results := (correction_matches ++ fuzzy_matches)%list in
      let unique_results := unique MatchResult.product_id results in
      let unique_results := sort_desc MatchResult.similarity_score unique_results in
      ret (slice_to max_results unique_results)
  end.

(** ** FuzzyMatcher *)

(** The products the query of [search_similar_products] returns: the
    category filter, the join with the active codes of the supplier
    found, the limit, and the distinct entities of the rows. *)
Definition candidate_products (category : option string) (supplier_id : option Z)
    (d : Database) : list Product.t :=
  let in_category :=
    if truthy_opt category then
      List.filter (fun p =>
        match Product.category p with
        | Some c => String.eqb c (or_empty category)
        | None => false
        end) (products d)
    else products d in
  match supplier_id with
  | Some supplier_id =>
      unique Product.id
        (List.map fst (take (Z.to_nat 100000) (active_listings in_category supplier_id d)))
  | None => take (Z.to_nat 100000) in_category
  end.

(** The body of the scoring loop of [search_similar_products]. *)
Definition similar_result (search_product : descriptor) (target_supplier : option string)
    (min_similarity : Q) (product : Product.t) : M (list FuzzyMatchResult.t) :=
  let similarity :=
    calculate_similarity ratio token_sort_ratio search_product (target_product product) in
  if Qle_bool min_similarity (SimilarityScore.total_score similarity) then
    let* mapping :=
      if truthy_opt target_supplier then
        get_supplier_code_for_product (Product.id product) (or_empty target_supplier)
      else ret None in
    ret [FuzzyMatchResult.mk product (SimilarityScore.total_score similarity) similarity
           (option_map SupplierCode.supplier_code mapping)
           (mapping ≫= SupplierCode.price)]
  else ret [].

(** The text under which [search_similar_products] caches a search. *)
Definition search_text_of (search_product : descriptor) : string :=
  get search_product "product_name" ++ " " ++ get search_product "brand"
  ++ " " ++ get search_product "format".

(** [FuzzyMatcher.search_similar_products] *)
Definition search_similar_products (search_product : descriptor)
    (target_supplier : option string) (min_similarity : Q) (max_results : Z)
    (category : option string) : M (list FuzzyMatchResult.t) :=
  let search_text := search_text_of search_product in
  let* cached := get_cached_match search_text in
  match cached, target_supplier with
  | Some (product, score), None =>
      let detailed :=
        calculate_similarity ratio token_sort_ratio search_product
          (target_product product) in
      ret [FuzzyMatchResult.mk product score detailed None None]
  | _, _ =>
      let* supplier :=
        if truthy_opt target_supplier then
          emit (QuerySupplier (or_empty target_supplier)) ;;
          read (supplier_by_code (or_empty target_supplier))
        else ret None in
      emit ScanCandidates ;;
      let* products :=
        read (candidate_products category (option_map Supplier.id supplier)) in
      let* results :=
        for_each products
          (similar_result search_product target_supplier min_similarity) in
      let results := sort_desc FuzzyMatchResult.similarity_score results in
      let results := slice_to max_results results in
      match results with
      | best :: _ =>
          if Qle_bool 85 (FuzzyMatchResult.similarity_score best)
             && is_none target_supplier
          then cache_match search_text (Product.id (FuzzyMatchResult.product best))
                 (FuzzyMatchResult.similarity_score best) "fuzzy_name"
          else ret tt
      | [] => ret tt
      end ;;
      ret results
  end.

End Engine.

(** ** What the strategies return, as functions of the database *)

(** The candidates of one confirmed correction. *)
Definition correction_candidates (target_supplier : string) (d : Database)
    (correction : UserCorrection.t) : list MatchResult.t :=
  match product_by_id (UserCorrection.matched_product_id correction) d with
  | Some product =>
      match supplier_code_for_product (Product.id product) target_supplier d with
      | Some target_mapping => [correction_result product target_mapping]
      | None => []
      end
  | None => []
  end.

(** The candidates of the fuzzy strategy of the orchestrator. *)
Definition fuzzy_candidates (ratio token_sort_ratio : string -> string -> Q)
    (product_info : descriptor) (target_supplier : string)
    (min_similarity : Q) (max_results : Z) (d : Database) : list MatchResult.t :=
  match supplier_by_code target_supplier d with
  | None => []
  | Some supplier =>
      slice_to max_results
        (sort_desc MatchResult.similarity_score
           (flat_map
              (fuzzy_result ratio token_sort_ratio
                 (search_product_of product_info) min_similarity)
              (take (Z.to_nat 10000)
                 (active_listings (products d) (Supplier.id supplier) d))))
  end.

(** The candidates the scan of [search_similar_products] returns. *)
Definition similar_candidates (ratio token_sort_ratio : string -> string -> Q)
    (search_product : descriptor) (target_supplier : option string)
    (min_similarity : Q) (d : Database) (product : Product.t)
    : list FuzzyMatchResult.t :=
  let similarity :=
    calculate_similarity ratio token_sort_ratio search_product (target_product product) in
  if Qle_bool min_similarity (SimilarityScore.total_score similarity) then
    let mapping :=
      if truthy_opt target_supplier then
        supplier_code_for_product (Product.id product) (or_empty target_supplier) d
      else None in
    [FuzzyMatchResult.mk product (SimilarityScore.total_score similarity) similarity
       (option_map SupplierCode.supplier_code mapping)
       (mapping ≫= SupplierCode.price)]
  else [].

Definition scanned_products (target_supplier category : option string)
    (d : Database) : list Product.t :=
  candidate_products category
    (option_map Supplier.id
       (if truthy_opt target_supplier
        then supplier_by_code (or_empty target_supplier) d else None)) d.

Definition scanned_candidates (ratio token_sort_ratio : string -> string -> Q)
    (search_product : descriptor) (target_supplier : option string)
    (min_similarity : Q) (max_results : Z) (category : option string)
    (d : Database) : list FuzzyMatchResult.t :=
  slice_to max_results
    (sort_desc FuzzyMatchResult.similarity_score
       (flat_map
          (similar_candidates ratio token_sort_ratio search_product target_supplier
             min_similarity d)
          (scanned_products target_supplier category d))).

(** ** Predicates of the statements *)

(** Every scan of candidates in the events comes after a read of the
    result cache; [read] tells that one was seen already. *)
Fixpoint cache_read_before_scan (read : bool) (events : list Event) : bool :=
  match events with
  | [] => true
  | GetCachedMatch _ :: rest => cache_read_before_scan true rest
  | ScanCandidates :: rest => read && cache_read_before_scan read rest
  | _ :: rest => cache_read_before_scan read rest
  end.

(** The events a run added to the log. *)
Definition new_events {A : Type} (w : World) (run : Result A * World) : list Event :=
  drop (length (log w)) (log (snd run)).

(** Every candidate of the list reaches the threshold. *)
Definition threshold_respected (min_similarity : Q) (l : list FuzzyMatchResult.t)
    : Prop :=
  Forall (fun r => (min_similarity <= FuzzyMatchResult.similarity_score r)%Q) l.


(** Scores do not increase along the list. *)
Fixpoint sorted_desc {A : Type} (score : A -> Q) (l : list A) : Prop :=
  match l with
  | x :: ((y :: _) as l') => (score y <= score x)%Q /\ sorted_desc score l'
  | _ => True
  end.

(** [x] is in [l], and no element before it has its key. *)
Definition first_occurrence {A : Type} (key : A -> Z) (x : A) (l : list A) : Prop :=
  exists l1 l2, l = (l1 ++ x :: l2)%list /\ forall y, In y l1 -> key y <> key x.

(** The list a run returned, empty when it raised. *)
Definition results_of {A : Type} (run : Result (list A) * World) : list A :=
  match fst run with
  | Return l => l
  | Raise _ => []
  end.


(** Two databases with the same catalogue: they differ in the result
    cache at most. *)
Definition same_catalogue (d' d : Database) : Prop :=
  products d' = products d /\ suppliers d' = suppliers d
  /\ supplier_codes d' = supplier_codes d
  /\ user_corrections d' = user_corrections d.

(** The world after more calls were logged. *)
Definition logged (w : World) (events : list Event) : World :=
  mkWorld (db w) (clock w) (log w ++ events).

(** An occurrence of [x] stands before an occurrence of [y] in [l]. *)
Fixpoint before {A : Type} (x y : A) (l : list A) : Prop :=
  match l with
  | [] => False
  | a :: l' => (a = x /\ In y l') \/ before x y l'
  end.

(** The events of a list that read or write the result cache. *)
Definition is_cache_event (e : Event) : bool :=
  match e with
  | GetCachedMatch _ | CacheMatch _ _ _ => true
  | _ => false
  end.

(** No event of the list is a call on the result cache. *)
Definition no_cache_event (events : list Event) : Prop :=
  Forall (fun e => is_cache_event e = false) events.

(** ** A small catalogue for the examples *)

Module Demo.

Definition ratio (a b : string) : Q := if String.eqb a b then 100%Q else 0%Q.

Definition md5_hexdigest (s : string) : string := s.

Definition yogourt_vanille : Product.t :=
  Product.mk 1 "00055872001013" "YOGOURT VANILLE IOGO" (Some "IOGO") (Some "4X2 KG")
    None None.
Definition yogourt_fraise : Product.t :=
  Product.mk 2 "00055872001020" "YOGOURT FRAISE IOGO" (Some "IOGO") (Some "4X2KG")
    None None.
Definition tofu_ferme : Product.t :=
  Product.mk 3 "00061954000126" "TOFU FERME" None (Some "12X454 G") None None.

Definition dube_loiselle : Supplier.t := Supplier.mk 1 "Dube Loiselle" "dube_loiselle".
Definition colabor : Supplier.t := Supplier.mk 2 "Colabor" "colabor".

Definition catalogue : Database :=
  mkDatabase
    [yogourt_vanille; yogourt_fraise; tofu_ferme]
    [dube_loiselle; colabor]
    [ SupplierCode.mk 1 1 1 "325141" None true;
      SupplierCode.mk 2 2 1 "C-100" (Some (25 # 2)) true;
      SupplierCode.mk 3 2 2 "C-200" (Some 13%Q) true;
      SupplierCode.mk 4 2 3 "C-300" (Some 4%Q) true ]
    [ UserCorrection.mk 1 1 "777" 2 2 "C-200" true;
      UserCorrection.mk 2 1 "777" 3 2 "C-300" true;
      UserCorrection.mk 3 1 "325141" 2 2 "C-200" true ]
    [].

Definition world : World := mkWorld catalogue 1000 [].

(** The line of an invoice that carries the code 325141, and one with a
    code only the correction store knows. *)
Definition line_325141 : descriptor :=
  {[ "supplier_code" := "325141"; "product_name" := "YOGOURT VANILLE 1.5% ORIG IOGO";
     "brand" := "IOGO"; "format" := "4X2 KG"; "packaging" := "" ]}.

Definition line_777 : descriptor :=
  {[ "supplier_code" := "777"; "product_name" := "SAUCE SOYA";
     "brand" := ""; "format" := ""; "packaging" := "" ]}.

(** A search for the exact description of a catalogued product. *)
Definition search_vanille : descriptor :=
  {[ "product_name" := "YOGOURT VANILLE IOGO"; "brand" := "IOGO";
     "format" := "4X2 KG"; "packaging" := "" ]}.

(** The catalogue with a cache entry for that search whose product, 99,
    does not exist. *)
Definition stale_entry : MatchingCache.t :=
  MatchingCache.mk "YOGOURT VANILLE IOGO IOGO 4X2 KG" "yogourt vanille iogo iogo 4x2 kg"
    99 (97 # 1) "fuzzy_name" 10 1 10.

Definition stale_world : World :=
  mkWorld (set_cache [stale_entry] catalogue) 1000 [].

(** A catalogue of one product, which the search scores at 55. *)
Definition fraise_only : World :=
  mkWorld (mkDatabase [yogourt_fraise] [dube_loiselle; colabor] [] [] []) 1000 [].

End Demo.


(** ** Further functions of the scorer and of [utils.py] *)

(** [SimilarityScorer.extract_brand]; [brand_field] is [None] by default. *)
Definition extract_brand (product_name : string) (brand_field : option string)
    : string :=
  if truthy_opt brand_field && truthy (strip (or_empty brand_field)) then
    normalize_text (or_empty brand_field)
  else
    let normalized := normalize_text product_name in
    let words := split normalized in
    if (0 <? length words)%nat then List.last words EmptyString else EmptyString.

(** [sanitize_excel_value] on a [str]; a value of another type is returned
    as it is. *)
Definition dangerous_chars : list ascii :=
  ["="%char; "+"%char; "-"%char; "@"%char; "|"%char].

Definition sanitize_excel_value (value : string) : string :=
  match value with
  | EmptyString => value
  | String c _ =>
      if existsb (Ascii.eqb c) dangerous_chars then String "'"%char value
      else value
  end.

(** [str.isdigit] on one code point: the decimal digits and the
    superscript digits of the range, and on a string. *)
Definition char_isdigit (c : ascii) : bool :=
  Char.is_digit c || Char.between 178 179 c || (Char.code c =? 185)%N.

Fixpoint all_chars (p : ascii -> bool) (s : string) : bool :=
  match s with
  | EmptyString => true
  | String c s' => p c && all_chars p s'
  end.

Definition isdigit (s : string) : bool := truthy s && all_chars char_isdigit s.

(** [len(s) in \[8, 12, 13, 14\]] *)
Definition gtin_length (s : string) : bool :=
  existsb (Nat.eqb (String.length s)) [8; 12; 13; 14]%nat.

(** Seven decimal digits and the superscript two (code point 178). *)
Definition superscript_gtin : string :=
  "1234567" ++ String (ascii_of_N 178) EmptyString.

Section Gtin.

(** [str(int(float(s)))]: the text of the integer part of the number [s]
    reads as; [Return None] where [float] or [int] raises ValueError, and
    [Raise] where [int] raises OverflowError. *)
Variable int_of_float_str : string -> Result (option string).

(** The two validations that end [normalize_gtin]. *)
Definition validated_gtin (gtin_str : string) : Result (option string) :=
  if negb (isdigit gtin_str) then Return None
  else if negb (gtin_length gtin_str) then Return None
  else Return (Some gtin_str).

(** [normalize_gtin] on [None] or a [str]. *)
Definition normalize_gtin (gtin_value : option string) : Result (option string) :=
  match gtin_value with
  | None => Return None
  | Some value =>
      let gtin_str := strip value in
      if member (lower gtin_str) ["nan"; "none"; ""] then Return None
      else if contains "." gtin_str then
        let integer_part := fst (split_period gtin_str) in
        if isdigit integer_part && gtin_length integer_part then
          validated_gtin integer_part
        else
          match int_of_float_str gtin_str with
          | Return (Some converted) => validated_gtin converted
          | Return None => Return None
          | Raise e => Raise e
          end
      else validated_gtin gtin_str
  end.

End Gtin.

(** A word as [str.split] returns them: not empty and free of white space. *)
Definition is_token (w : string) : bool :=
  truthy w && all_chars (fun c => negb (Char.is_space c)) w.

Definition starts_with_digit (w : string) : bool :=
  match w with
  | String c _ => Char.is_digit c
  | EmptyString => false
  end.

(** ** GTINMatcher and the rest of DatabaseOperations and FuzzyMatcher *)

Section OtherMatchers.

Variable ratio : string -> string -> Q.
Variable token_sort_ratio : string -> string -> Q.
Variable md5_hexdigest : string -> string.

(** [GTINMatcher.find_by_supplier_code] *)
Definition find_by_supplier_code (supplier_code supplier : string)
    : M (option (option Product.t * SupplierCode.t)) :=
  find_product_by_supplier_code supplier_code supplier.

(** [GTINMatcher.find_cross_supplier_match] *)
Definition find_cross_supplier_match
    (supplier_code source_supplier target_supplier : string)
    : M (option (Product.t * SupplierCode.t)) :=
  let* result := find_by_supplier_code supplier_code source_supplier in
  match result with
  | None => ret None
  | Some (None, _) => raise "AttributeError"
  | Some (Some product, _) =>
      let* target_mapping :=
        get_supplier_code_for_product (Product.id product) target_supplier in
      match target_mapping with
      | Some target_mapping => ret (Some (product, target_mapping))
      | None => ret None
      end
  end.

(** [FuzzyMatcher.find_alternatives]; [brand] and [format] are [None] by
    default. *)
Definition find_alternatives (product_name : string) (brand format : option string)
    (target_supplier : option string) (min_similarity : Q)
    : M (list FuzzyMatchResult.t) :=
  let search_product : descriptor :=
    {[ "product_name" := product_name;
       "brand" := or_empty brand;
       "format" := or_empty format;
       "packaging" := "" ]} in
  search_similar_products ratio token_sort_ratio md5_hexdigest search_product
    target_supplier min_similarity 5 None.

End OtherMatchers.

(** The candidate carries a listing of its product that is active at the
    supplier, and its product is a row of the catalogue. *)
Definition listed_at (d : Database) (supplier : string) (r : MatchResult.t) : Prop :=
  exists supplier_obj mapping,
    supplier_by_code supplier d = Some supplier_obj
    /\ In mapping (supplier_codes d)
    /\ SupplierCode.active mapping = true
    /\ SupplierCode.supplier_id mapping = Supplier.id supplier_obj
    /\ SupplierCode.product_id mapping = MatchResult.product_id r
    /\ MatchResult.supplier_code r = Some (SupplierCode.supplier_code mapping)
    /\ MatchResult.price r = SupplierCode.price mapping
    /\ In (MatchResult.product r) (products d).

(** What [_try_gtin_match] makes of the pair [find_cross_supplier_match]
    returns. *)
Definition as_gtin_match (r : Result (option (Product.t * SupplierCode.t)))
    : Result (option MatchResult.t) :=
  match r with
  | Return (Some (product, target_mapping)) =>
      Return (Some (gtin_result product target_mapping))
  | Return None => Return None
  | Raise e => Raise e
  end.

(** ** The comparison engine ([comparison_engine.py], [utils.py]) *)

(** [utils.MatchStatus] *)
Module MatchStatus.
Definition EXACT_MATCH : string := "exact_match".
Definition FUZZY_MATCH : string := "fuzzy_match".
Definition LOW_CONFIDENCE : string := "low_confidence".
Definition NO_MATCH : string := "no_match".
End MatchStatus.

Module InvoiceItem.
Record t : Type := mk {
  supplier_code : string;
  product_name : string;
  brand : string;
  format : string;
  packaging : string;
  category : string;
  price : Q;
  quantity : Q
}.

(** [InvoiceItem.line_total] *)
Definition line_total (item : t) : Q := (price item * quantity item)%Q.

(** [InvoiceItem.to_dict] *)
Definition to_dict (item : t) : descriptor :=
  {[ "supplier_code" := supplier_code item;
     "product_name" := product_name item;
     "brand" := brand item;
     "format" := format item;
     "packaging" := packaging item ]}.
End InvoiceItem.

(** [a > 0] on floats *)
Definition Qpositive (a : Q) : bool := negb (Qle_bool a 0).

Module ComparisonResult.
Record t : Type := mk {
  original_item : InvoiceItem.t;
  source_product : option Product.t;
  matches : list MatchResult.t;
  best_match : option MatchResult.t;
  price_difference : option Q;
  savings_amount : option Q;
  savings_percent : option Q;
  match_status : string
}.

(** The status [__post_init__] gives for a best match. *)
Definition status_of (best : MatchResult.t) : string :=
  match MatchResult.match_type best with
  | gtin => MatchStatus.EXACT_MATCH
  | _ =>
      if Qle_bool 80 (MatchResult.similarity_score best)
      then MatchStatus.FUZZY_MATCH
      else MatchStatus.LOW_CONFIDENCE
  end.

(** [ComparisonResult(original_item, source_product, matches)]: the
    defaults of the other fields and [__post_init__]. *)
Definition new (original_item : InvoiceItem.t) (source_product : option Product.t)
    (matches : list MatchResult.t) : t :=
  match matches with
  | [] =>
      mk original_item source_product matches None None None None MatchStatus.NO_MATCH
  | best :: _ =>
      match MatchResult.price best with
      | Some target_price =>
          if Qpositive target_price && Qpositive (InvoiceItem.price original_item)
          then
            let original_price := InvoiceItem.price original_item in
            let difference := (original_price - target_price)%Q in
            mk original_item source_product matches (Some best)
              (Some difference)
              (Some (difference * InvoiceItem.quantity original_item)%Q)
              (Some (difference / original_price * 100)%Q)
              (status_of best)
          else
            mk original_item source_product matches (Some best) None None None
              (status_of best)
      | None =>
          mk original_item source_product matches (Some best) None None None
            (status_of best)
      end
  end.
End ComparisonResult.

Module ComparisonReport.
Record t : Type := mk {
  source_supplier : string;
  target_supplier : string;
  results : list ComparisonResult.t;
  total_items : Z;
  matched_items : Z;
  exact_matches : Z;
  fuzzy_matches : Z;
  low_confidence_matches : Z;
  no_matches : Z;
  original_total : Q;
  target_total : Q;
  potential_savings : Q;
  savings_percent : Q
}.

(** Truth value of an optional float: not [None] and not zero. *)
Definition truthy_float (x : option Q) : bool :=
  match x with
  | Some q => negb (Qeq_bool q 0)
  | None => false
  end.

(** One round of the loop of [__post_init__] over the results. *)
Definition count (report : t) (result : ComparisonResult.t) : t :=
  let status := ComparisonResult.match_status result in
  let item := ComparisonResult.original_item result in
  let is_exact := String.eqb status MatchStatus.EXACT_MATCH in
  let is_fuzzy := negb is_exact && String.eqb status MatchStatus.FUZZY_MATCH in
  let is_low :=
    negb is_exact && negb is_fuzzy && String.eqb status MatchStatus.LOW_CONFIDENCE in
  let is_none :=
    negb is_exact && negb is_fuzzy && negb is_low
    && String.eqb status MatchStatus.NO_MATCH in
  let best_price :=
    match ComparisonResult.best_match result with
    | Some best => MatchResult.price best
    | None => None
    end in
  let priced := truthy_float best_price in
  mk (source_supplier report) (target_supplier report) (results report)
    (total_items report)
    (matched_items report + if is_exact || is_fuzzy || is_low then 1 else 0)
    (exact_matches report + if is_exact then 1 else 0)
    (fuzzy_matches report + if is_fuzzy then 1 else 0)
    (low_confidence_matches report + if is_low then 1 else 0)
    (no_matches report + if is_none then 1 else 0)
    (original_total report + InvoiceItem.line_total item)%Q
    (if priced
     then (target_total report
           + default 0%Q best_price * InvoiceItem.quantity item)%Q
     else target_total report)
    (if priced && truthy_float (ComparisonResult.savings_amount result)
     then (potential_savings report
           + default 0%Q (ComparisonResult.savings_amount result))%Q
     else potential_savings report)
    (savings_percent report).

(** [ComparisonReport(source_supplier, target_supplier, results)]: the
    defaults of the other fields and [__post_init__]. *)
Definition new (source_supplier target_supplier : string)
    (results : list ComparisonResult.t) : t :=
  let start :=
    mk source_supplier target_supplier results (Z.of_nat (length results))
      0 0 0 0 0 0%Q 0%Q 0%Q 0%Q in
  let counted := fold_left count results start in
  if Qpositive (original_total counted) then
    mk (ComparisonReport.source_supplier counted) (ComparisonReport.target_supplier counted)
      (ComparisonReport.results counted) (total_items counted) (matched_items counted)
      (exact_matches counted) (fuzzy_matches counted)
      (low_confidence_matches counted) (no_matches counted)
      (original_total counted) (target_total counted) (potential_savings counted)
      (potential_savings counted / original_total counted * 100)%Q
  else counted.
End ComparisonReport.

(** What [find_matches] returns, as a function of the database. *)
Definition matches_of (ratio token_sort_ratio : string -> string -> Q)
    (product_info : descriptor) (source_supplier target_supplier : string)
    (min_similarity : Q) (max_results : Z) (d : Database)
    : Result (list MatchResult.t) :=
  let merged (_ : unit) :=
    let corrections :=
      match product_info !! "supplier_code" with
      | Some supplier_code =>
          flat_map (correction_candidates target_supplier d)
            (user_corrections_for supplier_code source_supplier d)
      | None => []
      end in
    let fuzzies :=
      fuzzy_candidates ratio token_sort_ratio product_info target_supplier
        min_similarity max_results d in
    Return
      (slice_to max_results
         (sort_desc MatchResult.similarity_score
            (unique MatchResult.product_id (corrections ++ fuzzies)%list))) in
  match product_info !! "supplier_code" with
  | Some supplier_code =>
      match product_by_supplier_code supplier_code source_supplier d with
      | Some (None, _) => Raise "AttributeError"
      | Some (Some product, _) =>
          match supplier_code_for_product (Product.id product) target_supplier d with
          | Some target_mapping => Return [gtin_result product target_mapping]
          | None => merged tt
          end
      | None => merged tt
      end
  | None => merged tt
  end.

(** The product [compare_invoice] looks up for an item. *)
Definition source_product_of (item : InvoiceItem.t) (source_supplier : string)
    (d : Database) : option Product.t :=
  if truthy (InvoiceItem.supplier_code item) then
    match product_by_supplier_code (InvoiceItem.supplier_code item) source_supplier d with
    | Some (product, _) => product
    | None => None
    end
  else None.

Section ComparisonEngine.

Variable ratio : string -> string -> Q.
Variable token_sort_ratio : string -> string -> Q.

(** [ComparisonEngine.parse_csv], which reads the text with the [csv]
    module: the items of the rows it keeps, or the error that leaves it.
    The loop over the rows catches what the handling of a row raises; the
    reader is advanced outside that [try], so an error of the reader
    ([_csv.Error]) leaves [parse_csv]. *)
Variable parse_csv : string -> Result (list InvoiceItem.t).

(** The body of the loop of [compare_invoice]: the lines from the look-up
    of the source product to [results.append(result)]. *)
Definition compare_item (item : InvoiceItem.t)
    (source_supplier target_supplier : string)
    (min_similarity : Q) (max_alternatives : Z) : M (list ComparisonResult.t) :=
  let* source_product :=
    if truthy (InvoiceItem.supplier_code item) then
      let* source_result :=
        find_product_by_supplier_code (InvoiceItem.supplier_code item)
          source_supplier in
      match source_result with
      | Some (product, _) => ret product
      | None => ret None
      end
    else ret None in
  let* matches :=
    find_matches ratio token_sort_ratio (InvoiceItem.to_dict item)
      source_supplier target_supplier min_similarity max_alternatives in
  ret [ComparisonResult.new item source_product matches].

(** [ComparisonEngine.compare_invoice] *)
Definition compare_invoice (csv_content : string)
    (source_supplier target_supplier : string)
    (min_similarity : Q) (max_alternatives : Z) : M ComparisonReport.t :=
  match parse_csv csv_content with
  | Raise e => raise e
  | Return [] => raise "ValueError"
  | Return items =>
      let* results :=
        for_each items (fun item =>
          compare_item item source_supplier target_supplier min_similarity
            max_alternatives) in
      ret (ComparisonReport.new source_supplier target_supplier results)
  end.

End ComparisonEngine.

(** The results the loop of [compare_invoice] builds, as a function of the
    database: the first line whose matching raises ends the loop. *)
Fixpoint compared_items (ratio token_sort_ratio : string -> string -> Q)
    (items : list InvoiceItem.t) (source_supplier target_supplier : string)
    (min_similarity : Q) (max_alternatives : Z) (d : Database)
    : Result (list ComparisonResult.t) :=
  match items with
  | [] => Return []
  | item :: rest =>
      match matches_of ratio token_sort_ratio (InvoiceItem.to_dict item)
              source_supplier target_supplier min_similarity max_alternatives d with
      | Raise e => Raise e
      | Return matches =>
          match compared_items ratio token_sort_ratio rest source_supplier
                  target_supplier min_similarity max_alternatives d with
          | Raise e => Raise e
          | Return results =>
              Return
                (ComparisonResult.new item (source_product_of item source_supplier d)
                   matches :: results)
          end
      end
  end.

(** The source look-up and the target look-up of the exact strategy both
    succeed for a supplier code. *)
Definition exactly_listed (supplier_code source_supplier target_supplier : string)
    (d : Database) : Prop :=
  exists product mapping target_mapping,
    product_by_supplier_code supplier_code source_supplier d
      = Some (Some product, mapping)
    /\ supplier_code_for_product (Product.id product) target_supplier d
       = Some target_mapping.

(** The number of results with a given status. *)
Definition with_status (status : string) (results : list ComparisonResult.t) : Z :=
  Z.of_nat
    (length
       (List.filter (fun r => String.eqb (ComparisonResult.match_status r) status)
          results)).

(** An invoice of two lines for the catalogue of [Demo]. *)
Module DemoInvoice.
Definition yogourt : InvoiceItem.t :=
  InvoiceItem.mk "325141" "YOGOURT VANILLE 1.5% ORIG IOGO" "IOGO" "4X2 KG" "" "dairy"
    15 2.
Definition sauce : InvoiceItem.t :=
  InvoiceItem.mk "777" "SAUCE SOYA" "" "" "" "" 3 1.
Definition parse_csv (csv_content : string) : Result (list InvoiceItem.t) :=
  if truthy csv_content then Return [yogourt; sauce] else Return [].
(** The comparison of the invoice on the catalogue of [Demo]. *)
Definition outcome : Result ComparisonReport.t * World :=
  compare_invoice Demo.ratio Demo.ratio parse_csv "invoice" "dube_loiselle" "colabor"
    60 5 Demo.world.
Definition report : ComparisonReport.t :=
  match fst outcome with
  | Return report => report
  | Raise _ => ComparisonReport.new "dube_loiselle" "colabor" []
  end.
End DemoInvoice.

(** ** The Text Normalizer over any alphabet

    [SimilarityScorer.normalize_text] once more, over an arbitrary set of
    characters: what Python supplies, [str.lower], the white space of
    [str.strip] and of [\s], and the class [\w], is a variable. The
    [normalize_text] of the strings above is the instance of the 256 code
    points. *)

Module Normalizer.

Section Alphabet.

Context {char : Type}.
Variable lower : list char -> list char.
Variable is_space is_word is_period : char -> bool.
Variable space : char.

Fixpoint lstrip (s : list char) : list char :=
  match s with
  | [] => []
  | c :: s' => if is_space c then lstrip s' else s
  end.

Fixpoint rstrip (s : list char) : list char :=
  match s with
  | [] => []
  | c :: s' =>
      match rstrip s' with
      | [] => if is_space c then [] else [c]
      | t => c :: t
      end
  end.

(** [str.strip] *)
Definition strip (s : list char) : list char := rstrip (lstrip s).

(** [re.sub(r'[^\w\s\.]', ' ', text)] *)
Definition sub_special (s : list char) : list char :=
  List.map (fun c => if is_word c || is_space c || is_period c then c else space) s.

(** [re.sub(r'\s+', ' ', text)] *)
Fixpoint sub_spaces_from (in_run : bool) (s : list char) : list char :=
  match s with
  | [] => []
  | c :: s' =>
      if is_space c
      then (if in_run then sub_spaces_from true s'
            else space :: sub_spaces_from true s')
      else c :: sub_spaces_from false s'
  end.

Definition sub_spaces (s : list char) : list char := sub_spaces_from false s.

(** [SimilarityScorer.normalize_text] *)
Definition normalize_text (text : list char) : list char :=
  match text with
  | [] => []
  | _ => sub_spaces (sub_special (strip (lower text)))
  end.

(** The characters the normalizer passes on: word characters and periods. *)
Definition kept (c : char) : bool := negb (is_space c) && (is_word c || is_period c).

Definition not_space (c : char) : bool := negb (is_space c).

(** Every character but these is replaced by a space or is white space. *)
Definition special (c : char) : bool := negb (kept c).

(** The first and the last character of a string satisfy [p]. *)
Definition starts (p : char -> bool) (s : list char) : bool :=
  match s with
  | c :: _ => p c
  | [] => false
  end.

Fixpoint ends (p : char -> bool) (s : list char) : bool :=
  match s with
  | [] => false
  | [c] => p c
  | _ :: s' => ends p s'
  end.

(** The maximal runs of characters that satisfy [p], in their order. *)
Fixpoint runs (p : char -> bool) (s : list char) : list (list char) :=
  match s with
  | [] => []
  | c :: s' =>
      if p c then
        if starts p s' then
          match runs p s' with
          | w :: ws => (c :: w) :: ws
          | [] => [[c]]
          end
        else [c] :: runs p s'
      else runs p s'
  end.

Fixpoint no_double_space (s : list char) : Prop :=
  match s with
  | a :: ((b :: _) as s') =>
      ~ (is_space a = true /\ is_space b = true) /\ no_double_space s'
  | _ => True
  end.

End Alphabet.

(** The result of a normalizer is lower case throughout: it has no
    upper-case character, whatever the input. *)
Definition lower_case_output {char : Type} (is_upper : char -> bool)
    (normalize : list char -> list char) : Prop :=
  forall text, Forall (fun c => is_upper c = false) (normalize text).

End Normalizer.

(** The 256 code points and U+03D2, the Greek upsilon with hook: an
    upper-case letter ([str.isupper]) of the class [\w] that has no
    lower-case form, so that [str.lower] leaves it as it is. *)
Module Wide.

Inductive char : Type :=
| Latin1 (c : ascii)
| UpsilonHook.

Definition lower_char (c : char) : char :=
  match c with
  | Latin1 a => Latin1 (Char.lower a)
  | UpsilonHook => UpsilonHook
  end.

Definition lower (s : list char) : list char := List.map lower_char s.

Definition is_space (c : char) : bool :=
  match c with Latin1 a => Char.is_space a | UpsilonHook => false end.

Definition is_word (c : char) : bool :=
  match c with Latin1 a => Char.is_word a | UpsilonHook => true end.

Definition is_period (c : char) : bool :=
  match c with Latin1 a => Char.is_period a | UpsilonHook => false end.

Definition is_upper (c : char) : bool :=
  match c with Latin1 a => Char.is_upper a | UpsilonHook => true end.

Definition space : char := Latin1 " ".

Definition normalize_text : list char -> list char :=
  Normalizer.normalize_text lower is_space is_word is_period space.

End Wide.

(** * Properties *)

(** ** Evaluations of the text functions *)

Example normalize_text_ex1 : normalize_text "  4X2   KG, Yogourt!" = "4x2 kg yogourt ".
Proof. reflexivity. Qed.

Example normalize_text_ex2 : normalize_text "Coca-Cola 1.5L" = "coca cola 1.5l".
Proof. reflexivity. Qed.

Example extract_format_ex1 : extract_format "12X454 G" "" = (5448%Q, "g").
Proof. vm_compute. reflexivity. Qed.

Example extract_format_ex2 : extract_format "" "pack 6 x 330ml cola" = (1980%Q, "ml").
Proof. vm_compute. reflexivity. Qed.

Example extract_format_ex3 : extract_format "loose" "" = (0%Q, "unknown").
Proof. vm_compute. reflexivity. Qed.

(** ** The Text Normalizer *)

Lemma chars_str_map (f : ascii -> ascii) (s : string) :
  chars (str_map f s) = List.map f (chars s).
Proof. induction s as [|c s IH]; simpl; [reflexivity | now rewrite IH]. Qed.

Lemma lower_not_upper (c : ascii) : Char.is_upper (Char.lower c) = false.
Proof. destruct c as [[] [] [] [] [] [] [] []]; vm_compute; reflexivity. Qed.

Lemma In_chars_lstrip (c : ascii) (s : string) :
  In c (chars (lstrip s)) -> In c (chars s).
Proof.
  induction s as [|a s IH]; simpl; [tauto|].
  destruct (Char.is_space a); simpl; tauto.
Qed.

Lemma In_chars_rstrip (c : ascii) (s : string) :
  In c (chars (rstrip s)) -> In c (chars s).
Proof.
  induction s as [|a s IH]; simpl; [tauto|].
  destruct (rstrip s) as [|b t] eqn:E.
  - destruct (Char.is_space a); simpl; tauto.
  - simpl in *. tauto.
Qed.

Lemma In_chars_sub_spaces (b : bool) (c : ascii) (s : string) :
  In c (chars (sub_spaces_from b s)) ->
  c = " "%char \/ (In c (chars s) /\ Char.is_space c = false).
Proof.
  revert b. induction s as [|a s IH]; intros b; simpl; [tauto|].
  destruct (Char.is_space a) eqn:Ea.
  - destruct b; simpl; intros H.
    + apply IH in H. tauto.
    + destruct H as [H|H]; [now left | apply IH in H; tauto].
  - simpl. intros [H|H].
    + subst. right. tauto.
    + apply IH in H. tauto.
Qed.

Lemma sub_spaces_no_double (b : bool) (s : string) :
  no_double_space (sub_spaces_from b s) /\
  (b = true ->
   match sub_spaces_from b s with
   | String a _ => Char.is_space a = false
   | EmptyString => True
   end).
Proof.
  revert b. induction s as [|a s IH]; intros b; simpl; [tauto|].
  destruct (Char.is_space a) eqn:Ea.
  - destruct b.
    + apply IH.
    + split; [|discriminate].
      destruct (IH true) as [H1 H2]. specialize (H2 eq_refl).
      simpl. destruct (sub_spaces_from true s) as [|x t]; [exact I|].
      split; [|exact H1]. intros [_ Hx]. congruence.
  - split; [|intros _; exact Ea].
    destruct (IH false) as [H1 _].
    simpl. destruct (sub_spaces_from false s) as [|x t]; [exact I|].
    split; [|exact H1]. intros [Hx _]. congruence.
Qed.

Section NormalizerFacts.

Variable char : Type.
Variable lower : list char -> list char.
Variable is_space is_word is_period is_upper : char -> bool.
Variable space : char.
Hypothesis lower_nil : lower [] = [].
Hypothesis space_is_space : is_space space = true.
Hypothesis space_not_upper : is_upper space = false.

Lemma lstrip_not_space (s : list char) :
  List.filter (Normalizer.not_space is_space) (Normalizer.lstrip is_space s)
  = List.filter (Normalizer.not_space is_space) s.
Proof.
  induction s as [|a s IH]; [reflexivity|].
  cbn [Normalizer.lstrip]. destruct (is_space a) eqn:Ea.
  - rewrite IH. cbn [List.filter]. unfold Normalizer.not_space at 2.
    rewrite Ea. reflexivity.
  - reflexivity.
Qed.

Lemma rstrip_not_space (s : list char) :
  List.filter (Normalizer.not_space is_space) (Normalizer.rstrip is_space s)
  = List.filter (Normalizer.not_space is_space) s.
Proof.
  induction s as [|a s IH]; [reflexivity|].
  cbn [Normalizer.rstrip].
  destruct (Normalizer.rstrip is_space s) as [|b t].
  - cbn [List.filter] in *. rewrite <- IH.
    unfold Normalizer.not_space.
    destruct (is_space a) eqn:Ea; cbn [List.filter]; rewrite ?Ea; reflexivity.
  - cbn [List.filter] in *. now rewrite IH.
Qed.

Lemma sub_special_not_space (s : list char) :
  List.filter (Normalizer.not_space is_space)
    (Normalizer.sub_special is_space is_word is_period space s)
  = List.filter (Normalizer.kept is_space is_word is_period) s.
Proof.
  induction s as [|a s IH]; [reflexivity|].
  unfold Normalizer.sub_special in *. cbn [List.map List.filter]. rewrite IH.
  unfold Normalizer.not_space, Normalizer.kept.
  destruct (is_word a), (is_space a) eqn:Ea, (is_period a); cbn [orb andb negb];
    rewrite ?Ea, ?space_is_space; reflexivity.
Qed.

Lemma sub_spaces_not_space (b : bool) (s : list char) :
  List.filter (Normalizer.not_space is_space)
    (Normalizer.sub_spaces_from is_space space b s)
  = List.filter (Normalizer.not_space is_space) s.
Proof.
  revert b. induction s as [|a s IH]; intros b; [reflexivity|].
  cbn [Normalizer.sub_spaces_from List.filter].
  unfold Normalizer.not_space at 2. destruct (is_space a) eqn:Ea; cbn [negb].
  - destruct b; [apply IH|]. cbn [List.filter]. unfold Normalizer.not_space at 1.
    rewrite space_is_space. apply IH.
  - cbn [List.filter]. unfold Normalizer.not_space at 1. rewrite Ea. cbn [negb].
    now rewrite IH.
Qed.

Lemma In_sub_spaces (b : bool) (c : char) (s : list char) :
  In c (Normalizer.sub_spaces_from is_space space b s) ->
  c = space \/ (In c s /\ is_space c = false).
Proof.
  revert b. induction s as [|a s IH]; intros b; cbn; [tauto|].
  destruct (is_space a) eqn:Ea.
  - destruct b; cbn; intros H.
    + apply IH in H. tauto.
    + destruct H as [H|H]; [now left | apply IH in H; tauto].
  - cbn. intros [H|H].
    + subst. right. tauto.
    + apply IH in H. tauto.
Qed.

Lemma sub_spaces_single (b : bool) (s : list char) :
  Normalizer.no_double_space is_space (Normalizer.sub_spaces_from is_space space b s)
  /\ (b = true ->
      match Normalizer.sub_spaces_from is_space space b s with
      | a :: _ => is_space a = false
      | [] => True
      end).
Proof.
  revert b. induction s as [|a s IH]; intros b; cbn; [tauto|].
  destruct (is_space a) eqn:Ea.
  - destruct b.
    + apply IH.
    + split; [|discriminate].
      destruct (IH true) as [H1 H2]. specialize (H2 eq_refl).
      cbn. destruct (Normalizer.sub_spaces_from is_space space true s) as [|x t];
        [exact I|].
      split; [|exact H1]. intros [_ Hx]. congruence.
  - split; [|intros _; exact Ea].
    destruct (IH false) as [H1 _].
    cbn. destruct (Normalizer.sub_spaces_from is_space space false s) as [|x t];
      [exact I|].
    split; [|exact H1]. intros [Hx _]. congruence.
Qed.

(** *** The first character *)

Lemma rstrip_head (s : list char) (b : char) (t : list char) :
  Normalizer.rstrip is_space s = b :: t -> exists s', s = b :: s'.
Proof.
  destruct s as [|a s]; [discriminate|]. cbn [Normalizer.rstrip].
  destruct (Normalizer.rstrip is_space s) as [|x u].
  - destruct (is_space a); [discriminate|]. intros [= <- _]. eauto.
  - intros [= <- _]. eauto.
Qed.

Lemma rstrip_nil (s : list char) :
  Normalizer.rstrip is_space s = [] ->
  List.filter (Normalizer.not_space is_space) s = [].
Proof. intros H. rewrite <- rstrip_not_space, H. reflexivity. Qed.

Lemma lstrip_head (s : list char) :
  Normalizer.starts is_space (Normalizer.lstrip is_space s) = false.
Proof.
  induction s as [|a s IH]; [reflexivity|]. cbn [Normalizer.lstrip].
  destruct (is_space a) eqn:Ea; [exact IH | exact Ea].
Qed.

Lemma starts_strip (g : char -> bool) (s : list char) :
  Normalizer.starts g (Normalizer.strip is_space s)
  = Normalizer.starts g (List.filter (Normalizer.not_space is_space) s).
Proof.
  unfold Normalizer.strip.
  rewrite <- (lstrip_not_space s).
  pose proof (lstrip_head s) as Hh.
  set (y := Normalizer.lstrip is_space s) in *.
  destruct (Normalizer.rstrip is_space y) as [|b t] eqn:Er.
  - now rewrite (rstrip_nil _ Er).
  - destruct (rstrip_head _ _ _ Er) as [y' ->].
    cbn [Normalizer.starts List.filter] in *.
    unfold Normalizer.not_space at 1. now rewrite Hh.
Qed.

Lemma starts_sub_spaces (s : list char) :
  Normalizer.starts is_space (Normalizer.sub_spaces_from is_space space false s)
  = Normalizer.starts is_space s.
Proof.
  destruct s as [|a s]; [reflexivity|]. cbn [Normalizer.sub_spaces_from].
  destruct (is_space a) eqn:Ea; cbn [Normalizer.starts]; congruence.
Qed.

Lemma sub_special_space (c : char) :
  is_space (if is_word c || is_space c || is_period c then c else space)
  = Normalizer.special is_space is_word is_period c.
Proof.
  unfold Normalizer.special, Normalizer.kept.
  destruct (is_word c), (is_space c) eqn:Ec, (is_period c); cbn [orb andb negb];
    rewrite ?Ec, ?space_is_space; reflexivity.
Qed.

Lemma starts_sub_special (s : list char) :
  Normalizer.starts is_space
    (Normalizer.sub_special is_space is_word is_period space s)
  = Normalizer.starts (Normalizer.special is_space is_word is_period) s.
Proof.
  destruct s as [|a s]; [reflexivity|]. cbn [Normalizer.sub_special List.map
    Normalizer.starts]. apply sub_special_space.
Qed.

(** *** The last character *)

Lemma ends_cons (g : char -> bool) (a : char) (s : list char) :
  s <> [] -> Normalizer.ends g (a :: s) = Normalizer.ends g s.
Proof. destruct s; [congruence | reflexivity]. Qed.

Lemma rstrip_some (s : list char) :
  Normalizer.rstrip is_space s <> [] ->
  List.filter (Normalizer.not_space is_space) (Normalizer.rstrip is_space s) <> [].
Proof.
  induction s as [|x s IH]; [intros H; exfalso; now apply H|].
  cbn [Normalizer.rstrip].
  destruct (Normalizer.rstrip is_space s) as [|y v].
  - destruct (is_space x) eqn:Ex; [intros H; exfalso; now apply H|]. intros _.
    cbn [List.filter]. unfold Normalizer.not_space. rewrite Ex. discriminate.
  - intros _. cbn [List.filter] in *.
    destruct (Normalizer.not_space is_space x); [discriminate|].
    apply IH. discriminate.
Qed.

Lemma ends_rstrip (g : char -> bool) (s : list char) :
  Normalizer.ends g (Normalizer.rstrip is_space s)
  = Normalizer.ends g (List.filter (Normalizer.not_space is_space) s).
Proof.
  induction s as [|a s IH]; [reflexivity|].
  cbn [Normalizer.rstrip].
  destruct (Normalizer.rstrip is_space s) as [|b t] eqn:Er.
  - cbn [List.filter]. rewrite (rstrip_nil _ Er). unfold Normalizer.not_space.
    destruct (is_space a); reflexivity.
  - rewrite ends_cons by discriminate. rewrite IH.
    assert (List.filter (Normalizer.not_space is_space) s <> []) as Hne
      by (rewrite <- rstrip_not_space; apply rstrip_some; rewrite Er; discriminate).
    cbn [List.filter]. destruct (Normalizer.not_space is_space a);
      [now rewrite ends_cons | reflexivity].
Qed.

Lemma ends_strip (g : char -> bool) (s : list char) :
  Normalizer.ends g (Normalizer.strip is_space s)
  = Normalizer.ends g (List.filter (Normalizer.not_space is_space) s).
Proof. unfold Normalizer.strip. now rewrite ends_rstrip, lstrip_not_space. Qed.

Lemma ends_sub_special (s : list char) :
  Normalizer.ends is_space
    (Normalizer.sub_special is_space is_word is_period space s)
  = Normalizer.ends (Normalizer.special is_space is_word is_period) s.
Proof.
  induction s as [|a s IH]; [reflexivity|].
  destruct s as [|b s]; [apply sub_special_space|].
  unfold Normalizer.sub_special in *. cbn [List.map] in *.
  rewrite !ends_cons by discriminate. exact IH.
Qed.

Lemma sub_spaces_nil (b : bool) (s : list char) :
  Normalizer.sub_spaces_from is_space space b s = [] ->
  existsb (Normalizer.not_space is_space) s = false /\ (b = true \/ s = []).
Proof.
  revert b. induction s as [|a s IH]; intros b; [auto|].
  cbn [Normalizer.sub_spaces_from existsb]. unfold Normalizer.not_space at 1.
  destruct (is_space a) eqn:Ea; [|discriminate].
  destruct b; [|discriminate]. intros H. apply IH in H. cbn [negb orb]. tauto.
Qed.

Lemma all_space_ends (s : list char) :
  existsb (Normalizer.not_space is_space) s = false -> s <> [] ->
  Normalizer.ends is_space s = true.
Proof.
  induction s as [|a s IH]; [congruence|]. cbn [existsb]. intros H _.
  apply orb_false_elim in H. destruct H as [Ha Hs].
  unfold Normalizer.not_space in Ha. apply negb_false_iff in Ha.
  destruct s as [|b s]; [exact Ha|]. rewrite ends_cons by discriminate.
  apply IH; [exact Hs | discriminate].
Qed.

Lemma ends_sub_spaces (b : bool) (s : list char) :
  Normalizer.ends is_space (Normalizer.sub_spaces_from is_space space b s)
  = Normalizer.ends is_space s
    && (negb b || existsb (Normalizer.not_space is_space) s).
Proof.
  revert b. induction s as [|a s IH]; intros b; [reflexivity|].
  cbn [Normalizer.sub_spaces_from existsb]. unfold Normalizer.not_space at 1.
  destruct (is_space a) eqn:Ea; cbn [negb orb].
  - destruct b; cbn [negb orb].
    + rewrite IH. cbn [negb orb].
      destruct s as [|c s]; [cbn; now rewrite andb_false_r|].
      now rewrite (ends_cons _ a (c :: s)) by discriminate.
    + rewrite andb_true_r.
      destruct (Normalizer.sub_spaces_from is_space space true s) as [|x t] eqn:Et.
      * apply sub_spaces_nil in Et. destruct Et as [Hall _].
        destruct s as [|c s].
        -- cbn [Normalizer.ends]. now rewrite space_is_space, Ea.
        -- rewrite (ends_cons _ a (c :: s)) by discriminate.
           rewrite (all_space_ends (c :: s)); [|exact Hall | discriminate].
           cbn [Normalizer.ends]. exact space_is_space.
      * rewrite (ends_cons _ space (x :: t)) by discriminate.
        rewrite <- Et, IH. cbn [negb orb].
        destruct s as [|c s]; [discriminate Et|].
        rewrite (ends_cons _ a (c :: s)) by discriminate.
        destruct (existsb (Normalizer.not_space is_space) (c :: s)) eqn:Eex;
          [now rewrite andb_true_r|].
        assert (Normalizer.sub_spaces_from is_space space true (c :: s) = []) as Hn.
        { clear -Eex. induction (c :: s) as [|y u IHu]; [reflexivity|].
          cbn [existsb] in Eex. apply orb_false_elim in Eex.
          destruct Eex as [Hy Hu]. unfold Normalizer.not_space in Hy.
          apply negb_false_iff in Hy. cbn [Normalizer.sub_spaces_from].
          rewrite Hy. now apply IHu. }
        rewrite Hn in Et. discriminate Et.
  - rewrite orb_true_r, andb_true_r.
    destruct s as [|c s]; [reflexivity|].
    rewrite (ends_cons _ a (c :: s)) by discriminate.
    assert (Normalizer.sub_spaces_from is_space space false (c :: s) <> []) as Hne.
    { cbn [Normalizer.sub_spaces_from]. destruct (is_space c); discriminate. }
    rewrite (ends_cons _ a _ Hne). rewrite IH. cbn [negb orb].
    now rewrite andb_true_r.
Qed.

(** *** The runs *)

Lemma runs_drop (q : char -> bool) (a : char) (s : list char) :
  q a = false -> Normalizer.runs q (a :: s) = Normalizer.runs q s.
Proof. intros H. cbn [Normalizer.runs]. now rewrite H. Qed.

Section Runs.

Variable q : char -> bool.
Hypothesis q_not_space : forall c, q c = true -> is_space c = false.

Lemma q_space (c : char) : is_space c = true -> q c = false.
Proof.
  intros Hc. destruct (q c) eqn:E; [|reflexivity].
  apply q_not_space in E. congruence.
Qed.

Lemma runs_lstrip (s : list char) :
  Normalizer.runs q (Normalizer.lstrip is_space s) = Normalizer.runs q s.
Proof.
  induction s as [|a s IH]; [reflexivity|]. cbn [Normalizer.lstrip].
  destruct (is_space a) eqn:Ea; [|reflexivity].
  rewrite IH. symmetry. apply runs_drop. now apply q_space.
Qed.

Lemma runs_all_space (s : list char) :
  List.filter (Normalizer.not_space is_space) s = [] -> Normalizer.runs q s = [].
Proof.
  induction s as [|a s IH]; [reflexivity|]. cbn [List.filter].
  unfold Normalizer.not_space at 1. destruct (is_space a) eqn:Ea; cbn [negb];
    [|discriminate].
  intros H. rewrite runs_drop by now apply q_space. now apply IH.
Qed.

Lemma runs_rstrip (s : list char) :
  Normalizer.runs q (Normalizer.rstrip is_space s) = Normalizer.runs q s.
Proof.
  induction s as [|a s IH]; [reflexivity|].
  cbn [Normalizer.rstrip].
  destruct (Normalizer.rstrip is_space s) as [|b t] eqn:Er.
  - pose proof (runs_all_space _ (rstrip_nil _ Er)) as Hnil.
    cbn [Normalizer.runs]. rewrite Hnil.
    destruct (is_space a) eqn:Ea.
    + now rewrite (q_space _ Ea).
    + cbn [Normalizer.runs Normalizer.starts].
      destruct (q a); [|reflexivity]. destruct (Normalizer.starts q s); reflexivity.
  - destruct (rstrip_head _ _ _ Er) as [s' ->].
    cbn [Normalizer.runs Normalizer.starts] in *. now rewrite IH.
Qed.

End Runs.

Lemma starts_sub_spaces_not_space (s : list char) :
  Normalizer.starts (Normalizer.not_space is_space)
    (Normalizer.sub_spaces_from is_space space false s)
  = Normalizer.starts (Normalizer.not_space is_space) s.
Proof.
  destruct s as [|a s]; [reflexivity|]. cbn [Normalizer.sub_spaces_from].
  unfold Normalizer.not_space.
  destruct (is_space a) eqn:Ea; cbn [Normalizer.starts]; congruence.
Qed.

Lemma runs_sub_spaces (b : bool) (s : list char) :
  Normalizer.runs (Normalizer.not_space is_space)
    (Normalizer.sub_spaces_from is_space space b s)
  = Normalizer.runs (Normalizer.not_space is_space) s.
Proof.
  revert b. induction s as [|a s IH]; intros b; [reflexivity|].
  cbn [Normalizer.sub_spaces_from].
  destruct (is_space a) eqn:Ea.
  - rewrite (runs_drop _ a) by (unfold Normalizer.not_space; now rewrite Ea).
    destruct b; [apply IH|].
    rewrite runs_drop by (unfold Normalizer.not_space; now rewrite space_is_space).
    apply IH.
  - cbn [Normalizer.runs]. now rewrite starts_sub_spaces_not_space, IH.
Qed.

Lemma sub_special_kept (c : char) :
  Normalizer.not_space is_space
    (if is_word c || is_space c || is_period c then c else space)
  = Normalizer.kept is_space is_word is_period c
  /\ (Normalizer.kept is_space is_word is_period c = true ->
      (if is_word c || is_space c || is_period c then c else space) = c).
Proof.
  unfold Normalizer.not_space, Normalizer.kept.
  destruct (is_word c), (is_space c) eqn:Ec, (is_period c); cbn [orb andb negb];
    rewrite ?Ec, ?space_is_space; split; try reflexivity; discriminate.
Qed.

Lemma runs_sub_special (s : list char) :
  Normalizer.runs (Normalizer.not_space is_space)
    (Normalizer.sub_special is_space is_word is_period space s)
  = Normalizer.runs (Normalizer.kept is_space is_word is_period) s.
Proof.
  unfold Normalizer.sub_special.
  induction s as [|a s IH]; [reflexivity|].
  cbn [List.map Normalizer.runs].
  destruct (sub_special_kept a) as [-> Hfix].
  destruct (Normalizer.kept is_space is_word is_period a) eqn:Ea; [|exact IH].
  rewrite (Hfix eq_refl), IH.
  destruct s as [|b s]; [reflexivity|].
  cbn [List.map Normalizer.starts].
  destruct (sub_special_kept b) as [-> _]. reflexivity.
Qed.

(** What the normalizer returns, on any alphabet. *)
Lemma normalize_text_generic (text : list char) :
  let normalize :=
    Normalizer.normalize_text lower is_space is_word is_period space in
  let kept := Normalizer.kept is_space is_word is_period in
  let special := Normalizer.special is_space is_word is_period in
  let not_space := Normalizer.not_space is_space in
  normalize [] = []
  /\ Forall (fun c => c = space
                      \/ (is_space c = false
                          /\ (is_word c = true \/ is_period c = true)))
       (normalize text)
  /\ Normalizer.no_double_space is_space (normalize text)
  /\ Normalizer.runs not_space (normalize text) = Normalizer.runs kept (lower text)
  /\ List.filter not_space (normalize text) = List.filter kept (lower text)
  /\ Normalizer.starts is_space (normalize text)
     = Normalizer.starts special (List.filter not_space (lower text))
  /\ Normalizer.ends is_space (normalize text)
     = Normalizer.ends special (List.filter not_space (lower text))
  /\ (Forall (fun c => is_upper c = false) (lower text) ->
      Forall (fun c => is_upper c = false) (normalize text)).
Proof.
  cbv zeta.
  assert (forall c, Normalizer.kept is_space is_word is_period c = true ->
                    is_space c = false) as Hkept_ns.
  { intros c. unfold Normalizer.kept. destruct (is_space c); [discriminate | auto]. }
  assert (List.filter (Normalizer.not_space is_space)
            (Normalizer.normalize_text lower is_space is_word is_period space text)
          = List.filter (Normalizer.kept is_space is_word is_period) (lower text))
    as Hkept.
  { unfold Normalizer.normalize_text. destruct text as [|a text].
    - now rewrite lower_nil.
    - unfold Normalizer.sub_spaces, Normalizer.strip.
      rewrite sub_spaces_not_space, sub_special_not_space.
      unfold Normalizer.kept.
      assert (forall l,
                List.filter (fun c => negb (is_space c) && (is_word c || is_period c)) l
                = List.filter (fun c => is_word c || is_period c)
                    (List.filter (Normalizer.not_space is_space) l)) as Hl.
      { induction l as [|x l IH]; [reflexivity|].
        cbn [List.filter]. unfold Normalizer.not_space at 1.
        destruct (is_space x); cbn [negb andb List.filter]; [exact IH|].
        destruct (is_word x || is_period x); now rewrite IH. }
      now rewrite Hl, rstrip_not_space, lstrip_not_space, <- Hl. }
  assert (forall c,
            In c (Normalizer.normalize_text lower is_space is_word is_period space text) ->
            c = space
            \/ (is_space c = false /\ (is_word c = true \/ is_period c = true)))
    as Hchars.
  { intros c Hc. unfold Normalizer.normalize_text in Hc.
    destruct text as [|a text]; [destruct Hc|].
    unfold Normalizer.sub_spaces in Hc. apply In_sub_spaces in Hc.
    destruct Hc as [->|[Hc Hsp]]; [now left|].
    unfold Normalizer.sub_special in Hc. apply in_map_iff in Hc.
    destruct Hc as [c0 [Hc0 _]].
    destruct (is_word c0) eqn:Ew; cbn [orb] in Hc0.
    - subst c0. right. tauto.
    - destruct (is_space c0) eqn:Es; cbn [orb] in Hc0.
      + subst c0. congruence.
      + destruct (is_period c0) eqn:Ep; subst c; [right; tauto | now left]. }
  split; [reflexivity|]. split; [|split; [|split; [|split; [exact Hkept|]]]].
  - apply Forall_forall. intros c Hc. apply Hchars. now apply list_elem_of_In.
  - unfold Normalizer.normalize_text. destruct text as [|a text]; [exact I|].
    apply (sub_spaces_single false).
  - unfold Normalizer.normalize_text. destruct text as [|a text].
    + now rewrite lower_nil.
    + unfold Normalizer.sub_spaces, Normalizer.strip.
      rewrite runs_sub_spaces, runs_sub_special.
      now rewrite (runs_rstrip _ Hkept_ns), (runs_lstrip _ Hkept_ns).
  - split; [|split].
    + unfold Normalizer.normalize_text. destruct text as [|a text].
      * now rewrite lower_nil.
      * unfold Normalizer.sub_spaces.
        now rewrite starts_sub_spaces, starts_sub_special, starts_strip.
    + unfold Normalizer.normalize_text. destruct text as [|a text].
      * now rewrite lower_nil.
      * unfold Normalizer.sub_spaces.
        rewrite ends_sub_spaces. cbn [negb orb]. rewrite andb_true_r.
        now rewrite ends_sub_special, ends_strip.
    + intros Hlower. apply Forall_forall. intros c Hc. apply list_elem_of_In in Hc.
      destruct (Hchars c Hc) as [->|[Hsp _]]; [exact space_not_upper|].
      assert (In c (List.filter (Normalizer.not_space is_space)
                      (Normalizer.normalize_text lower is_space is_word is_period
                         space text))) as Hin
        by (apply filter_In; unfold Normalizer.not_space; now rewrite Hsp).
      rewrite Hkept in Hin. apply filter_In in Hin. destruct Hin as [Hin _].
      rewrite Forall_forall in Hlower. apply Hlower. now apply list_elem_of_In.
Qed.

End NormalizerFacts.

(** The strings of this development are the instance of the 256 code
    points. *)
Lemma normalize_text_latin1 (text : string) :
  chars (normalize_text text)
  = Normalizer.normalize_text (List.map Char.lower) Char.is_space Char.is_word
      Char.is_period " "%char (chars text).
Proof.
  assert (forall s, chars (lstrip s) = Normalizer.lstrip Char.is_space (chars s))
    as Hl.
  { induction s as [|a s IH]; [reflexivity|]. cbn [lstrip chars Normalizer.lstrip].
    destruct (Char.is_space a); [exact IH | reflexivity]. }
  assert (forall s, chars (rstrip s) = Normalizer.rstrip Char.is_space (chars s))
    as Hr.
  { induction s as [|a s IH]; [reflexivity|]. cbn [rstrip chars Normalizer.rstrip].
    rewrite <- IH. destruct (rstrip s) as [|b t]; cbn [chars];
      [destruct (Char.is_space a)|]; reflexivity. }
  assert (forall b s,
            chars (sub_spaces_from b s)
            = Normalizer.sub_spaces_from Char.is_space " "%char b (chars s)) as Hs.
  { intros b s. revert b. induction s as [|a s IH]; intros b; [reflexivity|].
    cbn [sub_spaces_from chars Normalizer.sub_spaces_from].
    destruct (Char.is_space a); [destruct b|]; cbn [chars]; now rewrite IH. }
  unfold normalize_text, Normalizer.normalize_text.
  destruct text as [|a text]; [reflexivity|].
  change (negb (truthy (String a text))) with false. cbn iota.
  change (chars (String a text)) with (a :: chars text).
  unfold sub_spaces, Normalizer.sub_spaces. rewrite Hs. f_equal.
  unfold sub_special, Normalizer.sub_special. rewrite chars_str_map. f_equal.
  unfold strip, Normalizer.strip. rewrite Hr, Hl. f_equal. f_equal.
  unfold lower. now rewrite chars_str_map.
Qed.

(** C8, amended. Whatever the alphabet and whatever [str.lower] does on
    it, [normalize_text] is a function on all strings that maps the empty
    string to the empty string. Every character of its result is the
    space, a word character or a period, and no two white-space
    characters of the result are neighbours. The words of the result, its
    maximal runs of characters other than spaces, are the maximal runs of
    word characters and periods of the lower-cased input, in their order;
    the result begins (ends) with a space exactly when the first (last)
    character of the lower-cased input that is not white space is neither
    a word character nor a period. So the result has an upper-case
    character only where the lower-cased input has one; on the 256 code
    points, where the strings of this development live, it has none. *)
Theorem normalize_text_spec (char : Type) (lower : list char -> list char)
    (is_space is_word is_period is_upper : char -> bool) (space : char)
    (text : list char) :
  lower [] = [] ->
  is_space space = true ->
  is_upper space = false ->
  let normalize :=
    Normalizer.normalize_text lower is_space is_word is_period space in
  let kept := Normalizer.kept is_space is_word is_period in
  let special := Normalizer.special is_space is_word is_period in
  let not_space := Normalizer.not_space is_space in
  normalize [] = []
  /\ Forall (fun c => c = space
                      \/ (is_space c = false
                          /\ (is_word c = true \/ is_period c = true)))
       (normalize text)
  /\ Normalizer.no_double_space is_space (normalize text)
  /\ Normalizer.runs not_space (normalize text) = Normalizer.runs kept (lower text)
  /\ List.filter not_space (normalize text) = List.filter kept (lower text)
  /\ Normalizer.starts is_space (normalize text)
     = Normalizer.starts special (List.filter not_space (lower text))
  /\ Normalizer.ends is_space (normalize text)
     = Normalizer.ends special (List.filter not_space (lower text))
  /\ (Forall (fun c => is_upper c = false) (lower text) ->
      Forall (fun c => is_upper c = false) (normalize text))
  /\ (forall s : string,
        chars (normalize_text s)
        = Normalizer.normalize_text (List.map Char.lower) Char.is_space
            Char.is_word Char.is_period " "%char (chars s)
        /\ Forall (fun c => Char.is_upper c = false) (chars (normalize_text s))).
Proof.
  intros Hnil Hspace Hupper. cbv zeta.
  pose proof (normalize_text_generic char lower is_space is_word is_period is_upper
                space Hnil Hspace Hupper text) as H.
  cbv zeta in H.
  destruct H as [H1 [H2 [H3 [H4 [H5 [H6 [H7 H8]]]]]]].
  repeat (split; [assumption|]).
  intros s. split; [apply normalize_text_latin1|].
  rewrite normalize_text_latin1.
  pose proof (normalize_text_generic ascii (List.map Char.lower) Char.is_space
                Char.is_word Char.is_period Char.is_upper " "%char eq_refl eq_refl
                eq_refl (chars s)) as L.
  cbv zeta in L. apply L.
  apply Forall_forall. intros c Hc. apply list_elem_of_In in Hc.
  apply in_map_iff in Hc. destruct Hc as [c0 [<- _]]. apply lower_not_upper.
Qed.

Lemma normalize_text_spec_witness :
  Normalizer.runs (Normalizer.not_space Wide.is_space)
    (Wide.normalize_text
       [Wide.Latin1 " "; Wide.Latin1 "A"; Wide.Latin1 "-"; Wide.UpsilonHook;
        Wide.Latin1 "!"])
  = [[Wide.Latin1 "a"]; [Wide.UpsilonHook]].
Proof.
  change [[Wide.Latin1 "a"%char]; [Wide.UpsilonHook]]
    with (Normalizer.runs (Normalizer.kept Wide.is_space Wide.is_word Wide.is_period)
            (Wide.lower
               [Wide.Latin1 " "%char; Wide.Latin1 "A"%char; Wide.Latin1 "-"%char;
                Wide.UpsilonHook; Wide.Latin1 "!"%char])).
  apply (normalize_text_spec Wide.char Wide.lower Wide.is_space Wide.is_word
           Wide.is_period Wide.is_upper Wide.space
           [Wide.Latin1 " "%char; Wide.Latin1 "A"%char; Wide.Latin1 "-"%char;
            Wide.UpsilonHook; Wide.Latin1 "!"%char]
           eq_refl eq_refl eq_refl).
Defined.

(** C8, as stated, fails. The upsilon with hook is a word character that
    [str.lower] leaves as it is: the normalizer returns it, an upper-case
    letter, in a result that is therefore not lower case. *)
Lemma lower_case_output_counterexample :
  Wide.normalize_text [Wide.Latin1 "a"; Wide.UpsilonHook]
  = [Wide.Latin1 "a"; Wide.UpsilonHook]
  /\ Wide.is_upper Wide.UpsilonHook = true
  /\ ~ Normalizer.lower_case_output Wide.is_upper Wide.normalize_text.
Proof.
  split; [reflexivity|]. split; [reflexivity|].
  intros H. specialize (H [Wide.Latin1 "a"%char; Wide.UpsilonHook]).
  apply Forall_cons in H. destruct H as [_ H].
  apply Forall_cons in H. destruct H as [H _]. discriminate H.
Qed.

(** ** The Format Unit Extractor and the format score *)

(** C7. The formats "4X2 KG" and "4X2KG" both have magnitude 8000 (grams)
    and unit class kg, and whatever the string similarity is, comparing
    them gives the format score 100: the base similarity 100 with the
    bonus of the same unit class, capped at 100. *)
Theorem format_scenario_4x2kg :
  extract_format "4X2 KG" "" = (8000%Q, "kg")
  /\ extract_format "4X2KG" "" = (8000%Q, "kg")
  /\ (forall ratio : string -> string -> Q,
        compare_formats ratio "4X2 KG" "4X2KG" "" "" = 100%Q).
Proof.
  split; [vm_compute; reflexivity|].
  split; [vm_compute; reflexivity|].
  intros ratio. vm_compute. reflexivity.
Qed.

Lemma py_max_cases (a b : Q) :
  (py_max a b = a /\ (b <= a)%Q) \/ (py_max a b = b /\ (a < b)%Q).
Proof.
  unfold py_max. destruct (a ?= b)%Q eqn:E.
  - left. split; [reflexivity|]. apply Qeq_alt in E. rewrite E. apply Qle_refl.
  - right. split; [reflexivity|]. now apply Qlt_alt.
  - left. split; [reflexivity|]. apply Qgt_alt in E. now apply Qlt_le_weak.
Qed.

Lemma py_min_cases (a b : Q) :
  (py_min a b = a /\ (a <= b)%Q) \/ (py_min a b = b /\ (b < a)%Q).
Proof.
  unfold py_min. destruct (a ?= b)%Q eqn:E.
  - left. split; [reflexivity|]. apply Qeq_alt in E. rewrite E. apply Qle_refl.
  - left. split; [reflexivity|]. apply Qlt_alt in E. now apply Qlt_le_weak.
  - right. split; [reflexivity|]. now apply Qgt_alt.
Qed.

Lemma float_of_str_nonneg (s : string) (q : Q) :
  float_of_str s = Some q -> (0 <= q)%Q.
Proof.
  unfold float_of_str. destruct (split_period s) as [ip fp].
  destruct (truthy ip || truthy (default "" fp)); [|discriminate].
  destruct (digits_value 0 ip) as [i|]; [|discriminate]. simpl.
  destruct (digits_value 0 (default "" fp)) as [d|]; [|discriminate]. simpl.
  intros [= <-].
  assert (0 <= inject_Z (Z.of_N i))%Q by (unfold Qle; simpl; lia).
  assert (0 <= Z.of_N d # pow10 (String.length (default "" fp)))%Q
    by (unfold Qle; simpl; lia).
  lra.
Qed.

Lemma count_and_size_nonneg (groups : gmap nat string) (count size : Q) :
  count_and_size groups = Some (count, size) -> (0 <= count)%Q /\ (0 <= size)%Q.
Proof.
  unfold count_and_size.
  destruct (groups !! 1%nat) as [g0|]; [|discriminate].
  destruct (truthy g0); [|discriminate].
  destruct (truthy (default "" (groups !! 2%nat))).
  - destruct (float_of_str g0) as [c|] eqn:Ec; [|discriminate]. simpl.
    destruct (float_of_str (default "" (groups !! 2%nat))) as [z|] eqn:Ez;
      [|discriminate]. simpl.
    intros [= <- <-]. eauto using float_of_str_nonneg.
  - destruct (float_of_str g0) as [z|] eqn:Ez; [|discriminate]. simpl.
    intros [= <- <-]. split; [lra | eauto using float_of_str_nonneg].
Qed.

Lemma total_grams_nonneg (unit_type : string) (count size : Q) :
  (0 <= count)%Q -> (0 <= size)%Q -> (0 <= total_grams unit_type count size)%Q.
Proof.
  intros Hc Hs. unfold total_grams.
  assert (0 <= count * size)%Q by now apply Qmult_le_0_compat.
  assert (0 <= count * size * 1000)%Q by (apply Qmult_le_0_compat; [assumption | lra]).
  repeat (match goal with |- context [if ?b then _ else _] => destruct b end);
    try assumption; apply Qmult_le_0_compat; lra.
Qed.

Lemma extract_format_from_nonneg (patterns : list (string * regex)) (text : string) :
  (0 <= fst (extract_format_from patterns text))%Q.
Proof.
  induction patterns as [|[unit_type pattern] rest IH]; simpl; [lra|].
  destruct (re_search pattern text) as [groups|]; [|exact IH].
  destruct (count_and_size groups) as [[count size]|] eqn:E; [|exact IH].
  simpl. apply count_and_size_nonneg in E. now apply total_grams_nonneg.
Qed.

Lemma extract_format_nonneg (format_field product_name : string) :
  (0 <= fst (extract_format format_field product_name))%Q.
Proof. apply extract_format_from_nonneg. Qed.

Section ScorerRange.

Variable ratio : string -> string -> Q.
Variable token_sort_ratio : string -> string -> Q.
Hypothesis ratio_range : forall a b, (0 <= ratio a b <= 100)%Q.
Hypothesis token_sort_ratio_range : forall a b, (0 <= token_sort_ratio a b <= 100)%Q.

Lemma compare_formats_range (format1 format2 name1 name2 : string) :
  (0 <= compare_formats ratio format1 format2 name1 name2 <= 100)%Q.
Proof.
  unfold compare_formats.
  pose proof (extract_format_nonneg format1 name1) as H1.
  pose proof (extract_format_nonneg format2 name2) as H2.
  destruct (extract_format format1 name1) as [qty1 unit1].
  destruct (extract_format format2 name2) as [qty2 unit2]. simpl in H1, H2.
  destruct (Qeq_bool qty1 0) eqn:E1; cbn [orb].
  { destruct (negb _ && negb _); [lra | apply ratio_range]. }
  destruct (Qeq_bool qty2 0) eqn:E2; cbn [orb].
  { destruct (negb _ && negb _); [lra | apply ratio_range]. }
  apply Qeq_bool_neq in E1. apply Qeq_bool_neq in E2.
  assert (0 < qty1)%Q as P1 by (apply Qle_lteq in H1; destruct H1 as [|H1]; [assumption | symmetry in H1; contradiction]).
  assert (0 < py_max qty1 qty2)%Q as Pm by (destruct (py_max_cases qty1 qty2) as [[-> _]|[-> ?]]; lra).
  set (m := py_max qty1 qty2) in *.
  assert (0 <= Qabs (qty1 - qty2) / m * 100)%Q as Pd.
  { apply Qmult_le_0_compat; [|lra].
    unfold Qdiv. apply Qmult_le_0_compat; [apply Qabs_nonneg|].
    apply Qlt_le_weak, Qinv_lt_0_compat, Pm. }
  set (dp := (Qabs (qty1 - qty2) / m * 100)%Q) in *.
  assert (0 <= py_max 0 (100 - dp) <= 100)%Q as Ps
    by (destruct (py_max_cases 0 (100 - dp)) as [[-> ?]|[-> ?]]; lra).
  destruct (String.eqb unit1 unit2); [|exact Ps].
  destruct (py_min_cases 100 (py_max 0 (100 - dp) * (11 # 10))) as [[-> ?]|[-> ?]]; lra.
Qed.

Lemma compare_brands_range (brand1 brand2 : string) :
  (0 <= compare_brands ratio brand1 brand2 <= 100)%Q.
Proof.
  unfold compare_brands.
  repeat (match goal with |- context [if ?b then _ else _] => destruct b end);
    try lra; apply ratio_range.
Qed.

(** C2. Whatever strings the two descriptors hold, each of the four
    sub-scores of [calculate_similarity] and its weighted total lie
    between 0 and 100, given that the two string similarity ratios of
    rapidfuzz do. *)
Theorem calculate_similarity_range (product1 product2 : descriptor) :
  let s := calculate_similarity ratio token_sort_ratio product1 product2 in
  (0 <= SimilarityScore.brand_score s <= 100)%Q
  /\ (0 <= SimilarityScore.product_type_score s <= 100)%Q
  /\ (0 <= SimilarityScore.format_score s <= 100)%Q
  /\ (0 <= SimilarityScore.packaging_score s <= 100)%Q
  /\ (0 <= SimilarityScore.total_score s <= 100)%Q.
Proof.
  unfold calculate_similarity; cbn [SimilarityScore.brand_score
    SimilarityScore.product_type_score SimilarityScore.format_score
    SimilarityScore.packaging_score SimilarityScore.total_score].
  pose proof (compare_brands_range (get product1 "brand") (get product2 "brand")) as Hb.
  pose proof (compare_formats_range (get product1 "format") (get product2 "format")
                (get product1 "product_name") (get product2 "product_name")) as Hf.
  set (b := compare_brands _ _ _) in *.
  set (f := compare_formats _ _ _ _ _) in *.
  set (t := if negb _ && negb _ then 50%Q else token_sort_ratio _ _).
  set (p := if String.eqb _ "unknown" && _ then 50%Q else _).
  assert (0 <= t <= 100)%Q as Ht
    by (subst t; destruct (negb _ && negb _); [lra | apply token_sort_ratio_range]).
  assert (0 <= p <= 100)%Q as Hp.
  { subst p. destruct (String.eqb _ "unknown" && _); [lra|].
    destruct (String.eqb _ _); [lra | apply ratio_range]. }
  change (WEIGHTS "brand") with (25 # 100).
  change (WEIGHTS "product_type") with (40 # 100).
  change (WEIGHTS "format") with (25 # 100).
  change (WEIGHTS "packaging") with (10 # 100).
  repeat split; try tauto; lra.
Qed.

End ScorerRange.

(** ** Lists: first occurrences, the stable sort, slices *)

Section Slices.

Context {A : Type}.

Lemma take_In (n : nat) (l : list A) (x : A) : In x (take n l) -> In x l.
Proof.
  revert l. induction n as [|n IH]; intros l; [intros []|].
  destruct l as [|y l]; [intros []|]. simpl. intros [?|?]; [now left | right; now apply IH].
Qed.

Lemma slice_to_In (n : Z) (l : list A) (x : A) : In x (slice_to n l) -> In x l.
Proof. unfold slice_to. destruct (0 <=? n); apply take_In. Qed.

Lemma slice_to_length (n : Z) (l : list A) :
  0 <= n -> Z.of_nat (length (slice_to n l)) <= n.
Proof.
  intros Hn. unfold slice_to. destruct (0 <=? n) eqn:E; [|lia].
  rewrite length_take. lia.
Qed.


End Slices.

Section FirstOccurrences.

Context {A : Type}.
Variable key : A -> Z.

Lemma existsb_eqb_In (k : Z) (seen : list Z) :
  existsb (Z.eqb k) seen = true <-> In k seen.
Proof.
  rewrite existsb_exists. split.
  - intros [x [Hx E]]. apply Z.eqb_eq in E. now subst.
  - intros H. exists k. split; [assumption | apply Z.eqb_refl].
Qed.

Lemma unique_from_In (seen : list Z) (l : list A) (x : A) :
  In x (unique_from key seen l) -> In x l /\ ~ In (key x) seen.
Proof.
  revert seen. induction l as [|a l IH]; intros seen; simpl; [tauto|].
  destruct (existsb (Z.eqb (key a)) seen) eqn:E.
  - intros H. apply IH in H. tauto.
  - intros [<-|H].
    + split; [now left|]. intros Hin. apply existsb_eqb_In in Hin. congruence.
    + apply IH in H. simpl in H. tauto.
Qed.

Lemma unique_from_NoDup (seen : list Z) (l : list A) :
  NoDup (List.map key (unique_from key seen l)).
Proof.
  revert seen. induction l as [|a l IH]; intros seen; simpl; [constructor|].
  destruct (existsb (Z.eqb (key a)) seen); [apply IH|].
  simpl. apply NoDup_cons. split; [|apply IH].
  intros Hin. apply list_elem_of_In, in_map_iff in Hin. destruct Hin as [y [Hy Hin]].
  apply unique_from_In in Hin. destruct Hin as [_ Hn]. apply Hn. left. congruence.
Qed.

Lemma unique_from_first (seen : list Z) (l : list A) (x : A) :
  In x (unique_from key seen l) -> first_occurrence key x l.
Proof.
  revert seen. induction l as [|a l IH]; intros seen; simpl; [tauto|].
  destruct (existsb (Z.eqb (key a)) seen) eqn:E.
  - intros H. pose proof (unique_from_In _ _ _ H) as [_ Hn].
    apply IH in H. destruct H as [l1 [l2 [-> Hl1]]].
    exists (a :: l1), l2. split; [reflexivity|].
    intros y [<-|Hy]; [|now apply Hl1].
    intros Heq. apply Hn. rewrite <- Heq. now apply existsb_eqb_In.
  - intros [<-|H].
    + exists [], l. split; [reflexivity|]. intros y [].
    + pose proof (unique_from_In _ _ _ H) as [_ Hn].
      apply IH in H. destruct H as [l1 [l2 [-> Hl1]]].
      exists (a :: l1), l2. split; [reflexivity|].
      intros y [<-|Hy]; [|now apply Hl1].
      intros Heq. apply Hn. left. assumption.
Qed.

(** Every key of the list is the key of a kept element. *)
Lemma unique_from_complete (seen : list Z) (l : list A) (x : A) :
  In x l -> ~ In (key x) seen ->
  exists y, In y (unique_from key seen l) /\ key y = key x.
Proof.
  revert seen. induction l as [|a l IH]; intros seen; simpl; [tauto|].
  intros [<-|Hin] Hn.
  - destruct (existsb (Z.eqb (key a)) seen) eqn:E.
    + apply existsb_eqb_In in E. contradiction.
    + exists a. split; [now left | reflexivity].
  - destruct (existsb (Z.eqb (key a)) seen) eqn:E; [now apply IH|].
    destruct (Z.eq_dec (key a) (key x)) as [Heq|Hne].
    + exists a. split; [now left | assumption].
    + destruct (IH (key a :: seen) Hin) as [y [Hy Hk]].
      * simpl. intros [?|?]; [congruence | contradiction].
      * exists y. split; [now right | assumption].
Qed.

Lemma unique_from_app (seen : list Z) (l1 l2 : list A) :
  unique_from key seen (l1 ++ l2)
  = (unique_from key seen l1
     ++ unique_from key (rev (List.map key (unique_from key seen l1)) ++ seen) l2)%list.
Proof.
  revert seen. induction l1 as [|a l1 IH]; intros seen; [reflexivity|].
  simpl. destruct (existsb (Z.eqb (key a)) seen); [apply IH|].
  rewrite IH. simpl. now rewrite <- app_assoc.
Qed.

Lemma take_NoDup_map (n : nat) (l : list A) :
  NoDup (List.map key l) -> NoDup (List.map key (take n l)).
Proof.
  revert l. induction n as [|n IH]; intros l Hn; [constructor|].
  destruct l as [|y l]; [constructor|]. simpl in *.
  apply NoDup_cons in Hn. destruct Hn as [Hy Hn].
  apply NoDup_cons. split; [|now apply IH].
  intros Hin. apply Hy. apply list_elem_of_In, in_map_iff in Hin.
  destruct Hin as [z [Hz Hin]].
  apply list_elem_of_In, in_map_iff. exists z. split; [assumption | now apply take_In in Hin].
Qed.

Lemma slice_to_NoDup_map (n : Z) (l : list A) :
  NoDup (List.map key l) -> NoDup (List.map key (slice_to n l)).
Proof. unfold slice_to. destruct (0 <=? n); apply take_NoDup_map. Qed.

End FirstOccurrences.

Section StableSort.

Context {A : Type}.
Variable score : A -> Q.

Lemma insert_desc_Permutation (x : A) (l : list A) :
  Permutation (insert_desc score x l) (x :: l).
Proof.
  induction l as [|y l IH]; simpl; [reflexivity|].
  destruct (Qle_bool (score y) (score x)); [reflexivity|].
  rewrite IH. apply perm_swap.
Qed.

Lemma sort_desc_Permutation (l : list A) : Permutation (sort_desc score l) l.
Proof.
  induction l as [|x l IH]; simpl; [reflexivity|].
  change (foldr (insert_desc score) [] l) with (sort_desc score l).
  rewrite insert_desc_Permutation. now constructor.
Qed.

Lemma sorted_desc_cons (x : A) (l : list A) :
  sorted_desc score (x :: l) <->
  match l with y :: _ => (score y <= score x)%Q | [] => True end
  /\ sorted_desc score l.
Proof. destruct l; simpl; tauto. Qed.

Lemma insert_desc_sorted (x : A) (l : list A) :
  sorted_desc score l -> sorted_desc score (insert_desc score x l).
Proof.
  induction l as [|y l IH]; intros Hs; [exact I|].
  cbn [insert_desc]. destruct (Qle_bool (score y) (score x)) eqn:E.
  - apply Qle_bool_iff in E. apply sorted_desc_cons. split; assumption.
  - assert (score x < score y)%Q as Hlt.
    { apply Qnot_le_lt. intros H. apply Qle_bool_iff in H. congruence. }
    apply sorted_desc_cons in Hs. destruct Hs as [Hh Hs].
    apply sorted_desc_cons. split; [|now apply IH].
    destruct l as [|z l]; cbn [insert_desc].
    + now apply Qlt_le_weak.
    + destruct (Qle_bool (score z) (score x)); [now apply Qlt_le_weak | exact Hh].
Qed.

Lemma sort_desc_sorted (l : list A) : sorted_desc score (sort_desc score l).
Proof.
  induction l as [|x l IH]; [exact I|]. now apply insert_desc_sorted.
Qed.

Lemma take_sorted (n : nat) (l : list A) :
  sorted_desc score l -> sorted_desc score (take n l).
Proof.
  revert l. induction n as [|n IH]; intros l Hs; [exact I|].
  destruct l as [|x l]; [exact I|].
  apply sorted_desc_cons in Hs. destruct Hs as [Hh Hs].
  change (take (S n) (x :: l)) with (x :: take n l).
  apply sorted_desc_cons. split; [|now apply IH].
  destruct l as [|y l]; [destruct n; exact I|]. destruct n; [exact I | exact Hh].
Qed.

Lemma slice_to_sorted (n : Z) (l : list A) :
  sorted_desc score l -> sorted_desc score (slice_to n l).
Proof. unfold slice_to. destruct (0 <=? n); apply take_sorted. Qed.

End StableSort.

(** ** Runs of the database calls and of the strategies *)

Lemma logged_nil (w : World) : logged w [] = w.
Proof. destruct w. unfold logged. simpl. now rewrite app_nil_r. Qed.

Lemma logged_app (w : World) (e1 e2 : list Event) :
  logged (logged w e1) e2 = logged w (e1 ++ e2).
Proof. unfold logged. simpl. now rewrite app_assoc. Qed.

Lemma find_product_by_supplier_code_run (supplier_code supplier : string) (w : World) :
  find_product_by_supplier_code supplier_code supplier w =
  (Return (product_by_supplier_code supplier_code supplier (db w)),
   logged w [FindProductBySupplierCode supplier_code supplier]).
Proof. reflexivity. Qed.

Lemma get_supplier_code_for_product_run (product_id : Z) (supplier : string) (w : World) :
  get_supplier_code_for_product product_id supplier w =
  (Return (supplier_code_for_product product_id supplier (db w)),
   logged w [GetSupplierCodeForProduct product_id supplier]).
Proof. reflexivity. Qed.

Lemma try_gtin_match_run (supplier_code source_supplier target_supplier : string)
    (w : World) :
  _try_gtin_match supplier_code source_supplier target_supplier w =
  match product_by_supplier_code supplier_code source_supplier (db w) with
  | None =>
      (Return None, logged w [FindProductBySupplierCode supplier_code source_supplier])
  | Some (None, _) =>
      (Raise "AttributeError",
       logged w [FindProductBySupplierCode supplier_code source_supplier])
  | Some (Some product, _) =>
      (Return (option_map (gtin_result product)
                 (supplier_code_for_product (Product.id product) target_supplier (db w))),
       logged w [FindProductBySupplierCode supplier_code source_supplier;
                 GetSupplierCodeForProduct (Product.id product) target_supplier])
  end.
Proof.
  unfold _try_gtin_match, bind. rewrite find_product_by_supplier_code_run.
  destruct (product_by_supplier_code _ _ _) as [[[product|] mapping]|]; try reflexivity.
  rewrite get_supplier_code_for_product_run.
  change (db (logged w _)) with (db w).
  destruct (supplier_code_for_product _ _ _); unfold ret; rewrite logged_app;
    reflexivity.
Qed.

Lemma corrections_loop_run (target_supplier : string) (cs : list UserCorrection.t)
    (w : World) :
  exists events,
    for_each cs (fun correction =>
      emit (QueryProduct (UserCorrection.matched_product_id correction)) ;;
      let* product :=
        read (product_by_id (UserCorrection.matched_product_id correction)) in
      match product with
      | Some product =>
          let* target_mapping :=
            get_supplier_code_for_product (Product.id product) target_supplier in
          match target_mapping with
          | Some target_mapping => ret [correction_result product target_mapping]
          | None => ret []
          end
      | None => ret []
      end) w
    = (Return (flat_map (correction_candidates target_supplier (db w)) cs),
       logged w events)
    /\ no_cache_event events.
Proof.
  revert w. induction cs as [|c cs IH]; intros w.
  - exists []. rewrite logged_nil. split; [reflexivity | constructor].
  - cbn [for_each flat_map]. unfold bind at 1. unfold bind at 1.
    unfold emit at 1. unfold bind at 1. unfold read at 1. cbn [db].
    unfold correction_candidates at 1.
    destruct (product_by_id (UserCorrection.matched_product_id c) (db w)) as [p|].
    + unfold bind at 1. rewrite get_supplier_code_for_product_run. cbn [db].
      set (w1 := logged _ _).
      destruct (IH w1) as [events [Hrun Hev]].
      assert (db w1 = db w) as Hdb by reflexivity.
      destruct (supplier_code_for_product (Product.id p) target_supplier (db w)) as [tm|];
        unfold ret at 1; unfold bind at 1; rewrite Hrun, Hdb;
        (eexists; split; [unfold ret; subst w1;
           change (mkWorld (db w) (clock w) (log w ++ [QueryProduct (UserCorrection.matched_product_id c)]))
             with (logged w [QueryProduct (UserCorrection.matched_product_id c)]);
           rewrite !logged_app; reflexivity|]);
        (repeat constructor; assumption).
    + set (w1 := mkWorld _ _ _).
      destruct (IH w1) as [events [Hrun Hev]].
      assert (db w1 = db w) as Hdb by reflexivity.
      unfold ret at 1. unfold bind at 1. rewrite Hrun, Hdb.
      eexists; split; [unfold ret; subst w1;
           change (mkWorld (db w) (clock w) (log w ++ [QueryProduct (UserCorrection.matched_product_id c)]))
             with (logged w [QueryProduct (UserCorrection.matched_product_id c)]);
           rewrite !logged_app; reflexivity|].
      repeat constructor; assumption.
Qed.

Lemma try_user_corrections_run (supplier_code source_supplier target_supplier : string)
    (w : World) :
  exists events,
    _try_user_corrections supplier_code source_supplier target_supplier w
    = (Return (flat_map (correction_candidates target_supplier (db w))
                 (user_corrections_for supplier_code source_supplier (db w))),
       logged w events)
    /\ no_cache_event events.
Proof.
  unfold _try_user_corrections, get_user_corrections.
  unfold bind at 1. unfold bind at 1. unfold emit at 1. unfold read at 1. cbn [db].
  set (w1 := mkWorld _ _ _).
  destruct (corrections_loop_run target_supplier
              (user_corrections_for supplier_code source_supplier (db w)) w1)
    as [events [Hrun Hev]].
  rewrite Hrun.
  exists (GetUserCorrections supplier_code source_supplier :: events).
  split; [|constructor; [reflexivity | assumption]].
  subst w1.
  change (mkWorld (db w) (clock w) (log w ++ [GetUserCorrections supplier_code source_supplier]))
    with (logged w [GetUserCorrections supplier_code source_supplier]).
  now rewrite logged_app.
Qed.

Section OrchestratorRuns.

Variable ratio : string -> string -> Q.
Variable token_sort_ratio : string -> string -> Q.

Lemma try_fuzzy_match_run (product_info : descriptor) (target_supplier : string)
    (min_similarity : Q) (max_results : Z) (w : World) :
  exists events,
    _try_fuzzy_match ratio token_sort_ratio product_info target_supplier
      min_similarity max_results w
    = (Return (fuzzy_candidates ratio token_sort_ratio product_info target_supplier
                 min_similarity max_results (db w)),
       logged w events)
    /\ no_cache_event events.
Proof.
  unfold _try_fuzzy_match, fuzzy_candidates.
  unfold bind at 1. unfold emit at 1. unfold bind at 1. unfold read at 1. cbn [db].
  destruct (supplier_by_code target_supplier (db w)) as [supplier|].
  - exists [QuerySupplier target_supplier; ScanCandidates].
    split; [|repeat constructor].
    unfold bind, emit, read, ret, logged. cbn [db clock log].
    now rewrite <- app_assoc.
  - exists [QuerySupplier target_supplier]. split; [reflexivity | repeat constructor].
Qed.

Lemma correction_strategy_run (product_info : descriptor)
    (source_supplier target_supplier : string) (w : World) :
  exists events,
    correction_strategy product_info source_supplier target_supplier w
    = (Return
         (match product_info !! "supplier_code" with
          | Some supplier_code =>
              flat_map (correction_candidates target_supplier (db w))
                (user_corrections_for supplier_code source_supplier (db w))
          | None => []
          end),
       logged w events)
    /\ no_cache_event events.
Proof.
  unfold correction_strategy.
  destruct (product_info !! "supplier_code") as [code|].
  - apply try_user_corrections_run.
  - exists []. rewrite logged_nil. split; [reflexivity | constructor].
Qed.

Lemma exact_strategy_db (product_info : descriptor)
    (source_supplier target_supplier : string) (w w1 : World)
    (r : Result (option MatchResult.t)) :
  exact_strategy product_info source_supplier target_supplier w = (r, w1) ->
  exists events, w1 = logged w events /\ no_cache_event events.
Proof.
  unfold exact_strategy.
  destruct (product_info !! "supplier_code") as [code|].
  - rewrite try_gtin_match_run.
    destruct (product_by_supplier_code _ _ _) as [[[product|] mapping]|];
      intros [= _ <-]; eexists; (split; [reflexivity | repeat constructor]).
  - intros [= _ <-]. exists []. rewrite logged_nil. split; [reflexivity | constructor].
Qed.

(** The candidates of the correction strategy: each is the result built
    from a product the database holds under its own id and from the
    listing of that product at the target supplier. *)
Lemma correction_candidates_spec (target_supplier : string) (d : Database)
    (cs : list UserCorrection.t) (r : MatchResult.t) :
  In r (flat_map (correction_candidates target_supplier d) cs) ->
  exists product target_mapping,
    product_by_id (Product.id product) d = Some product
    /\ supplier_code_for_product (Product.id product) target_supplier d
       = Some target_mapping
    /\ r = correction_result product target_mapping.
Proof.
  intros H. apply in_flat_map in H. destruct H as [c [_ H]].
  unfold correction_candidates in H.
  destruct (product_by_id (UserCorrection.matched_product_id c) d) as [p|] eqn:Ep;
    [|destruct H].
  destruct (supplier_code_for_product (Product.id p) target_supplier d) as [tm|] eqn:Em;
    [|destruct H].
  destruct H as [<-|[]]. exists p, tm. split; [|split; [assumption | reflexivity]].
  unfold product_by_id in *.
  pose proof (find_some _ _ Ep) as [_ Hid]. apply Z.eqb_eq in Hid.
  now rewrite Hid.
Qed.

Lemma fuzzy_result_spec (search_product : descriptor) (min_similarity : Q)
    (rows : list (Product.t * SupplierCode.t)) (r : MatchResult.t) :
  In r (flat_map (fuzzy_result ratio token_sort_ratio search_product min_similarity) rows) ->
  MatchResult.match_type r = fuzzy
  /\ (min_similarity <= MatchResult.similarity_score r)%Q.
Proof.
  intros H. apply in_flat_map in H. destruct H as [[p m] [_ H]].
  unfold fuzzy_result in H.
  destruct (Qle_bool _ _) eqn:E; [|destruct H].
  destruct H as [<-|[]]. split; [reflexivity|]. now apply Qle_bool_iff in E.
Qed.

Lemma fuzzy_candidates_spec (product_info : descriptor) (target_supplier : string)
    (min_similarity : Q) (max_results : Z) (d : Database) (r : MatchResult.t) :
  In r (fuzzy_candidates ratio token_sort_ratio product_info target_supplier
          min_similarity max_results d) ->
  MatchResult.match_type r = fuzzy
  /\ (min_similarity <= MatchResult.similarity_score r)%Q.
Proof.
  unfold fuzzy_candidates. destruct (supplier_by_code target_supplier d); [|intros []].
  intros H. apply slice_to_In in H.
  apply (Permutation_in _ (sort_desc_Permutation _ _)) in H.
  now apply fuzzy_result_spec in H.
Qed.

End OrchestratorRuns.

(** ** The orchestrator: the exact strategy *)

(** C1. When the query carries a source supplier code that resolves to a
    product at the source supplier, and that product has an active
    listing at the target supplier, [find_matches] returns the list of
    exactly one candidate, of score 100 and kind gtin, and the only calls
    it made are the two look-ups of the exact strategy: neither the
    correction strategy nor the fuzzy strategy ran. *)
Theorem find_matches_exact (ratio token_sort_ratio : string -> string -> Q)
    (product_info : descriptor) (source_supplier target_supplier : string)
    (min_similarity : Q) (max_results : Z) (w : World)
    (supplier_code : string) (product : Product.t)
    (source_mapping target_mapping : SupplierCode.t) :
  product_info !! "supplier_code" = Some supplier_code ->
  product_by_supplier_code supplier_code source_supplier (db w)
    = Some (Some product, source_mapping) ->
  supplier_code_for_product (Product.id product) target_supplier (db w)
    = Some target_mapping ->
  exists candidate,
    find_matches ratio token_sort_ratio product_info source_supplier target_supplier
      min_similarity max_results w
    = (Return [candidate],
       logged w [FindProductBySupplierCode supplier_code source_supplier;
                 GetSupplierCodeForProduct (Product.id product) target_supplier])
    /\ MatchResult.similarity_score candidate = 100%Q
    /\ MatchResult.match_type candidate = gtin
    /\ MatchResult.product candidate = product.
Proof.
  intros Hcode Hsrc Htgt. exists (gtin_result product target_mapping).
  split; [|repeat split].
  unfold find_matches, exact_strategy. rewrite Hcode.
  unfold bind at 1. rewrite try_gtin_match_run, Hsrc, Htgt. reflexivity.
Qed.

Lemma find_matches_exact_witness :
  exists candidate,
    find_matches Demo.ratio Demo.ratio Demo.line_325141 "dube_loiselle" "colabor"
      60 3 Demo.world
    = (Return [candidate],
       logged Demo.world
         [FindProductBySupplierCode "325141" "dube_loiselle";
          GetSupplierCodeForProduct 1 "colabor"])
    /\ MatchResult.similarity_score candidate = 100%Q
    /\ MatchResult.match_type candidate = gtin
    /\ MatchResult.product candidate = Demo.yogourt_vanille.
Proof.
  apply (find_matches_exact Demo.ratio Demo.ratio Demo.line_325141 "dube_loiselle"
           "colabor" 60 3 Demo.world "325141" Demo.yogourt_vanille
           (SupplierCode.mk 1 1 1 "325141" None true)
           (SupplierCode.mk 2 2 1 "C-100" (Some (25 # 2)) true));
    vm_compute; reflexivity.
Defined.

(** ** Order of the merged list *)

Section Before.

Context {A : Type}.

Lemma before_In (x y : A) (l : list A) : before x y l -> In y l.
Proof.
  induction l as [|a l IH]; simpl; [tauto|]. intros [[_ H]|H]; [now right | right; auto].
Qed.

Lemma before_app (x y : A) (p q : list A) :
  In x p -> In y q -> before x y (p ++ q).
Proof.
  induction p as [|a p IH]; simpl; [tauto|].
  intros [->|Hx] Hy.
  - left. split; [reflexivity|]. apply in_or_app. now right.
  - right. now apply IH.
Qed.

End Before.

Section BeforeSorted.

Context {A : Type}.
Variable score : A -> Q.

Lemma insert_desc_before_old (a x y : A) (l : list A) :
  before x y l -> before x y (insert_desc score a l).
Proof.
  induction l as [|b l IH]; [intros []|].
  cbn [insert_desc]. destruct (Qle_bool (score b) (score a)).
  - intros H. right. exact H.
  - simpl. intros [[-> Hy]|H].
    + left. split; [reflexivity|].
      apply (Permutation_in _ (Permutation_sym (insert_desc_Permutation score a l))).
      now right.
    + right. now apply IH.
Qed.

Lemma insert_desc_before_new (a y : A) (l : list A) :
  In y l -> (score y <= score a)%Q -> before a y (insert_desc score a l).
Proof.
  induction l as [|b l IH]; [intros []|].
  intros Hy Hle. cbn [insert_desc].
  destruct (Qle_bool (score b) (score a)) eqn:E.
  - left. split; [reflexivity | exact Hy].
  - destruct Hy as [->|Hy].
    + apply Qle_bool_iff in Hle. congruence.
    + right. now apply IH.
Qed.

(** The sort is stable: of two elements in order, the first stays first
    unless the second has the larger score. *)
Lemma sort_desc_stable (x y : A) (l : list A) :
  before x y l -> (score y <= score x)%Q -> before x y (sort_desc score l).
Proof.
  induction l as [|a l IH]; [intros []|].
  intros [[-> Hy]|H] Hle.
  - apply insert_desc_before_new; [|assumption].
    apply (Permutation_in _ (Permutation_sym (sort_desc_Permutation score l))), Hy.
  - apply insert_desc_before_old. now apply IH.
Qed.

End BeforeSorted.

Section BeforeSliced.

Context {A : Type}.
Variable key : A -> Z.

Lemma take_before (n : nat) (x y : A) (l : list A) :
  NoDup (List.map key l) -> before x y l -> In y (take n l) -> before x y (take n l).
Proof.
  revert l. induction n as [|n IH]; intros l Hn Hb Hy; [destruct Hy|].
  destruct l as [|a l]; [destruct Hb|].
  simpl in Hn. apply NoDup_cons in Hn. destruct Hn as [Ha Hn].
  assert (forall z, In z l -> z <> a) as Hfresh.
  { intros z Hz ->. apply Ha. apply list_elem_of_In, in_map. exact Hz. }
  change (take (S n) (a :: l)) with (a :: take n l) in *.
  destruct Hy as [->|Hy].
  - exfalso. apply (Hfresh y); [|reflexivity].
    destruct Hb as [[_ H]|H]; [exact H | now apply before_In in H].
  - destruct Hb as [[-> _]|Hb].
    + left. split; [reflexivity | exact Hy].
    + right. now apply IH.
Qed.

Lemma slice_to_before (n : Z) (x y : A) (l : list A) :
  NoDup (List.map key l) -> before x y l -> In y (slice_to n l) ->
  before x y (slice_to n l).
Proof. unfold slice_to. destruct (0 <=? n); apply take_before. Qed.

End BeforeSliced.

(** ** The orchestrator: merging the corrections and the fuzzy candidates *)

Section Orchestrator.

Variable ratio : string -> string -> Q.
Variable token_sort_ratio : string -> string -> Q.

(** When the exact strategy returns no candidate, the two other strategies
    run and return, and [find_matches] returns their merged list. *)
Lemma find_matches_steps (product_info : descriptor)
    (source_supplier target_supplier : string)
    (min_similarity : Q) (max_results : Z) (w w1 : World) :
  exact_strategy product_info source_supplier target_supplier w = (Return None, w1) ->
  exists corrections w2 fuzzies w3,
    correction_strategy product_info source_supplier target_supplier w1
      = (Return corrections, w2)
    /\ _try_fuzzy_match ratio token_sort_ratio product_info target_supplier
         min_similarity max_results w2 = (Return fuzzies, w3)
    /\ find_matches ratio token_sort_ratio product_info source_supplier
         target_supplier min_similarity max_results w
       = (Return
            (slice_to max_results
               (sort_desc MatchResult.similarity_score
                  (unique MatchResult.product_id (corrections ++ fuzzies)))),
          w3)
    /\ Forall (fun r => MatchResult.match_type r = user_correction
                        /\ MatchResult.similarity_score r = 95%Q) corrections
    /\ (forall c c', In c corrections -> In c' corrections ->
          MatchResult.product_id c = MatchResult.product_id c' -> c = c')
    /\ Forall (fun r => MatchResult.match_type r = fuzzy
                        /\ (min_similarity <= MatchResult.similarity_score r)%Q) fuzzies
    /\ (exists events, w3 = logged w events /\ no_cache_event events).
Proof.
  intros Hexact.
  destruct (exact_strategy_db _ _ _ _ _ _ Hexact) as [ev1 [Hw1 Hev1]].
  destruct (correction_strategy_run product_info source_supplier target_supplier w1)
    as [ev2 [Hcorr Hev2]].
  set (corrections := match product_info !! "supplier_code" with
                      | Some code => _ | None => [] end) in Hcorr.
  destruct (try_fuzzy_match_run ratio token_sort_ratio product_info target_supplier
              min_similarity max_results (logged w1 ev2)) as [ev3 [Hfuzzy Hev3]].
  set (fuzzies := fuzzy_candidates _ _ _ _ _ _ _) in Hfuzzy.
  exists corrections, (logged w1 ev2), fuzzies, (logged (logged w1 ev2) ev3).
  split; [exact Hcorr|]. split; [exact Hfuzzy|].
  split; [unfold find_matches; unfold bind at 1; rewrite Hexact;
          unfold bind at 1; rewrite Hcorr; unfold bind at 1; rewrite Hfuzzy;
          reflexivity|].
  assert (forall r, In r corrections ->
            exists product target_mapping,
              product_by_id (Product.id product) (db w1) = Some product
              /\ supplier_code_for_product (Product.id product) target_supplier (db w1)
                 = Some target_mapping
              /\ r = correction_result product target_mapping) as Hspec.
  { subst corrections. destruct (product_info !! "supplier_code"); [|intros r []].
    intros r. apply correction_candidates_spec. }
  split; [|split; [|split]].
  - apply Forall_forall. intros r Hr. apply list_elem_of_In in Hr.
    destruct (Hspec r Hr) as [p [tm [_ [_ ->]]]]. split; reflexivity.
  - intros c c' Hc Hc' Hid.
    destruct (Hspec c Hc) as [p [tm [Hp [Htm ->]]]].
    destruct (Hspec c' Hc') as [p' [tm' [Hp' [Htm' ->]]]].
    unfold MatchResult.product_id in Hid. cbn in Hid.
    rewrite Hid in Hp, Htm. congruence.
  - apply Forall_forall. intros r Hr. apply list_elem_of_In in Hr.
    now apply fuzzy_candidates_spec in Hr.
  - exists (ev1 ++ ev2 ++ ev3)%list. subst w1. rewrite !logged_app.
    split; [now rewrite app_assoc|].
    unfold no_cache_event in *. rewrite !Forall_app. tauto.
Qed.

Lemma merged_correction_or_fuzzy (corrections fuzzies : list MatchResult.t)
    (min_similarity : Q) (r : MatchResult.t) :
  Forall (fun r => MatchResult.match_type r = user_correction
                   /\ MatchResult.similarity_score r = 95%Q) corrections ->
  Forall (fun r => MatchResult.match_type r = fuzzy
                   /\ (min_similarity <= MatchResult.similarity_score r)%Q) fuzzies ->
  In r (corrections ++ fuzzies) ->
  (MatchResult.match_type r = user_correction -> In r corrections /\ ~ In r fuzzies)
  /\ (MatchResult.match_type r = fuzzy -> In r fuzzies /\ ~ In r corrections).
Proof.
  intros Hc Hf Hr. rewrite Forall_forall in Hc, Hf.
  assert (forall x, In x corrections -> MatchResult.match_type x = user_correction) as Hc'
    by (intros x Hx; apply list_elem_of_In in Hx; now apply Hc).
  assert (forall x, In x fuzzies -> MatchResult.match_type x = fuzzy) as Hf'
    by (intros x Hx; apply list_elem_of_In in Hx; now apply Hf).
  apply in_app_or in Hr. split; intros Ht.
  - split.
    + destruct Hr as [Hr|Hr]; [exact Hr|]. apply Hf' in Hr. congruence.
    + intros Hr'. apply Hf' in Hr'. congruence.
  - split.
    + destruct Hr as [Hr|Hr]; [|exact Hr]. apply Hc' in Hr. congruence.
    + intros Hr'. apply Hc' in Hr'. congruence.
Qed.

(** C3. A call of [find_matches] that the exact strategy does not answer
    returns a list in which no two candidates have the same product id;
    each candidate is the first occurrence of its product in the
    corrections followed by the fuzzy candidates, so that a product with
    a correction is listed as that correction; scores do not increase
    along the list; a correction stands before every fuzzy candidate that
    does not score higher; and, [max_results] being non-negative as the
    callers ensure, the list has at most [max_results] elements. *)
Theorem find_matches_merged (product_info : descriptor)
    (source_supplier target_supplier : string)
    (min_similarity : Q) (max_results : Z) (w w1 : World) :
  exact_strategy product_info source_supplier target_supplier w = (Return None, w1) ->
  exists corrections w2 fuzzies w3 results,
    correction_strategy product_info source_supplier target_supplier w1
      = (Return corrections, w2)
    /\ _try_fuzzy_match ratio token_sort_ratio product_info target_supplier
         min_similarity max_results w2 = (Return fuzzies, w3)
    /\ find_matches ratio token_sort_ratio product_info source_supplier
         target_supplier min_similarity max_results w = (Return results, w3)
    /\ Forall (fun r => MatchResult.match_type r = user_correction) corrections
    /\ Forall (fun r => MatchResult.match_type r = fuzzy) fuzzies
    /\ NoDup (List.map MatchResult.product_id results)
    /\ (forall r, In r results ->
          first_occurrence MatchResult.product_id r (corrections ++ fuzzies))
    /\ (forall r c, In r results -> In c corrections ->
          MatchResult.product_id r = MatchResult.product_id c -> r = c)
    /\ sorted_desc MatchResult.similarity_score results
    /\ (forall c f, In c results -> In f results ->
          MatchResult.match_type c = user_correction ->
          MatchResult.match_type f = fuzzy ->
          (MatchResult.similarity_score f <= MatchResult.similarity_score c)%Q ->
          before c f results)
    /\ (0 <= max_results -> Z.of_nat (length results) <= max_results).
Proof.
  intros Hexact.
  destruct (find_matches_steps product_info source_supplier target_supplier
              min_similarity max_results w w1 Hexact)
    as [corrections [w2 [fuzzies [w3 [Hc [Hf [Hrun [HC [Hinj [HF _]]]]]]]]]].
  set (merged := (corrections ++ fuzzies)%list) in *.
  set (uniq := unique MatchResult.product_id merged) in *.
  set (sorted := sort_desc MatchResult.similarity_score uniq) in *.
  exists corrections, w2, fuzzies, w3, (slice_to max_results sorted).
  assert (NoDup (List.map MatchResult.product_id sorted)) as Hnd.
  { assert (Permutation (List.map MatchResult.product_id sorted)
                          (List.map MatchResult.product_id uniq)) as HP
      by (apply Permutation_map, sort_desc_Permutation).
    rewrite HP. apply unique_from_NoDup. }
  assert (forall r, In r (slice_to max_results sorted) -> In r uniq) as Hin.
  { intros r Hr. apply slice_to_In in Hr.
    now apply (Permutation_in _ (sort_desc_Permutation _ _)) in Hr. }
  split; [exact Hc|]. split; [exact Hf|]. split; [exact Hrun|].
  split; [eapply Forall_impl; [exact HC | intros r [H _]; exact H]|].
  split; [eapply Forall_impl; [exact HF | intros r [H _]; exact H]|].
  split; [now apply slice_to_NoDup_map|].
  split; [intros r Hr; apply Hin in Hr; now apply unique_from_first in Hr|].
  split.
  { intros r c Hr Hcin Hid. apply Hin in Hr. subst uniq merged. unfold unique in Hr.
    rewrite (unique_from_app MatchResult.product_id [] corrections fuzzies) in Hr.
    destruct (unique_from_complete MatchResult.product_id [] corrections c Hcin)
      as [y [Hy Hk]]; [intros []|].
    apply in_app_or in Hr. destruct Hr as [Hr|Hr].
    - apply unique_from_In in Hr. destruct Hr as [Hr _]. now apply Hinj.
    - apply unique_from_In in Hr. destruct Hr as [_ Hn]. exfalso. apply Hn.
      apply in_or_app. left. apply in_rev. rewrite rev_involutive.
      apply in_map_iff. exists y. split; [congruence | exact Hy]. }
  split; [apply slice_to_sorted, sort_desc_sorted|].
  split; [|intros Hmax; now apply slice_to_length].
  intros c f Hcr Hfr Htc Htf Hle.
  apply slice_to_before with (key := MatchResult.product_id); [exact Hnd| |exact Hfr].
  apply sort_desc_stable; [|exact Hle].
  apply Hin in Hcr. apply Hin in Hfr.
  pose proof (unique_from_In _ _ _ _ Hcr) as [Hcm _].
  pose proof (unique_from_In _ _ _ _ Hfr) as [Hfm _].
  destruct (merged_correction_or_fuzzy _ _ _ c HC HF Hcm) as [Hc1 _].
  destruct (merged_correction_or_fuzzy _ _ _ f HC HF Hfm) as [_ Hf1].
  destruct (Hc1 Htc) as [_ Hcn]. destruct (Hf1 Htf) as [_ Hfn].
  subst uniq merged. unfold unique in *.
  rewrite (unique_from_app MatchResult.product_id [] corrections fuzzies) in *.
  apply in_app_or in Hcr. apply in_app_or in Hfr.
  apply before_app.
  - destruct Hcr as [H|H]; [exact H|]. apply unique_from_In in H. tauto.
  - destruct Hfr as [H|H]; [|exact H]. apply unique_from_In in H. tauto.
Qed.


End Orchestrator.

Lemma find_matches_merged_witness :
  exists corrections w2 fuzzies w3 results,
    correction_strategy Demo.line_777 "dube_loiselle" "colabor"
      (logged Demo.world [FindProductBySupplierCode "777" "dube_loiselle"])
      = (Return corrections, w2)
    /\ _try_fuzzy_match Demo.ratio Demo.ratio Demo.line_777 "colabor" 60 3 w2
       = (Return fuzzies, w3)
    /\ find_matches Demo.ratio Demo.ratio Demo.line_777 "dube_loiselle" "colabor"
         60 3 Demo.world = (Return results, w3)
    /\ Forall (fun r => MatchResult.match_type r = user_correction) corrections
    /\ Forall (fun r => MatchResult.match_type r = fuzzy) fuzzies
    /\ NoDup (List.map MatchResult.product_id results)
    /\ (forall r, In r results ->
          first_occurrence MatchResult.product_id r (corrections ++ fuzzies))
    /\ (forall r c, In r results -> In c corrections ->
          MatchResult.product_id r = MatchResult.product_id c -> r = c)
    /\ sorted_desc MatchResult.similarity_score results
    /\ (forall c f, In c results -> In f results ->
          MatchResult.match_type c = user_correction ->
          MatchResult.match_type f = fuzzy ->
          (MatchResult.similarity_score f <= MatchResult.similarity_score c)%Q ->
          before c f results)
    /\ (0 <= 3 -> Z.of_nat (length results) <= 3).
Proof.
  apply (find_matches_merged Demo.ratio Demo.ratio Demo.line_777 "dube_loiselle"
           "colabor" 60 3 Demo.world).
  vm_compute. reflexivity.
Defined.



Lemma calculate_similarity_range_witness :
  let s := calculate_similarity Demo.ratio Demo.ratio Demo.search_vanille
             (target_product Demo.yogourt_fraise) in
  (0 <= SimilarityScore.brand_score s <= 100)%Q
  /\ (0 <= SimilarityScore.product_type_score s <= 100)%Q
  /\ (0 <= SimilarityScore.format_score s <= 100)%Q
  /\ (0 <= SimilarityScore.packaging_score s <= 100)%Q
  /\ (0 <= SimilarityScore.total_score s <= 100)%Q.
Proof.
  apply (calculate_similarity_range Demo.ratio Demo.ratio);
    intros a b; unfold Demo.ratio; destruct (String.eqb a b); split;
    unfold Qle; simpl; lia.
Defined.

(** ** The standalone fuzzy search and the result cache *)

Section FuzzySearch.

Variable ratio : string -> string -> Q.
Variable token_sort_ratio : string -> string -> Q.
Variable md5_hexdigest : string -> string.

Lemma scan_loop_run (search_product : descriptor) (target_supplier : option string)
    (min_similarity : Q) (ps : list Product.t) (w : World) :
  exists events,
    for_each ps
      (similar_result ratio token_sort_ratio search_product target_supplier
         min_similarity) w
    = (Return (flat_map
                 (similar_candidates ratio token_sort_ratio search_product
                    target_supplier min_similarity (db w)) ps),
       logged w events)
    /\ no_cache_event events.
Proof.
  revert w. induction ps as [|p ps IH]; intros w.
  - exists []. rewrite logged_nil. split; [reflexivity | constructor].
  - cbn [for_each flat_map]. unfold bind at 1.
    unfold similar_result at 1, similar_candidates at 1.
    destruct (Qle_bool min_similarity _).
    + destruct (truthy_opt target_supplier).
      * unfold bind at 1. rewrite get_supplier_code_for_product_run.
        unfold ret at 1. unfold bind at 1.
        destruct (IH (logged w [GetSupplierCodeForProduct (Product.id p)
                                  (or_empty target_supplier)])) as [events [Hrun Hev]].
        rewrite Hrun. eexists. split;
          [unfold ret; rewrite logged_app; reflexivity|].
        constructor; [reflexivity | assumption].
      * unfold bind at 1. unfold ret at 1. unfold ret at 1. unfold bind at 1.
        destruct (IH w) as [events [Hrun Hev]]. rewrite Hrun.
        exists events. split; [reflexivity | assumption].
    + unfold ret at 1. unfold bind at 1.
      destruct (IH w) as [events [Hrun Hev]]. rewrite Hrun.
      exists events. split; [reflexivity | assumption].
Qed.

Lemma search_hit_run (search_product : descriptor) (min_similarity : Q)
    (max_results : Z) (category : option string) (w : World)
    (product : Product.t) (score : Q) :
  cached_match md5_hexdigest (search_text_of search_product) (db w)
    = Some (product, score) ->
  search_similar_products ratio token_sort_ratio md5_hexdigest search_product None
    min_similarity max_results category w
  = (Return [FuzzyMatchResult.mk product score
               (calculate_similarity ratio token_sort_ratio search_product
                  (target_product product)) None None],
     logged w [GetCachedMatch (search_text_of search_product)]).
Proof.
  intros Hhit. unfold search_similar_products, get_cached_match.
  unfold bind at 1. unfold bind at 1. unfold emit at 1, read at 1. cbn [db].
  rewrite Hhit. reflexivity.
Qed.

Lemma same_catalogue_refl (d : Database) : same_catalogue d d.
Proof. repeat split. Qed.

Lemma same_catalogue_written (search_text : string) (product_id : Z)
    (similarity_score : Q) (method : string) (now : Z) (d : Database) :
  same_catalogue
    (cache_written md5_hexdigest search_text product_id similarity_score method now d) d.
Proof. unfold cache_written. destruct (cache_by_hash _ d); repeat split. Qed.

(** The run of a search that is not answered from the cache. *)
Lemma search_scan_run (search_product : descriptor) (target_supplier : option string)
    (min_similarity : Q) (max_results : Z) (category : option string) (w : World) :
  (target_supplier = None ->
   cached_match md5_hexdigest (search_text_of search_product) (db w) = None) ->
  exists events d',
    search_similar_products ratio token_sort_ratio md5_hexdigest search_product
      target_supplier min_similarity max_results category w
    = (Return (scanned_candidates ratio token_sort_ratio search_product
                 target_supplier min_similarity max_results category (db w)),
       mkWorld d' (clock w)
         (log w ++ GetCachedMatch (search_text_of search_product) :: events))
    /\ In ScanCandidates events
    /\ same_catalogue d' (db w).
Proof.
  intros Hmiss. unfold search_similar_products, get_cached_match.
  unfold bind at 1. unfold bind at 1. unfold emit at 1, read at 1. cbn [db].
  set (text := search_text_of search_product).
  set (w0 := mkWorld (db w) (clock w) (log w ++ [GetCachedMatch text])).
  set (scan := bind _ _).
  assert (match cached_match md5_hexdigest text (db w), target_supplier with
          | Some (product, score), None =>
              ret [FuzzyMatchResult.mk product score
                     (calculate_similarity ratio token_sort_ratio search_product
                        (target_product product)) None None]
          | _, _ => scan
          end w0 = scan w0) as ->.
  { destruct (cached_match md5_hexdigest text (db w)) as [[p sc]|] eqn:E;
      destruct target_supplier; try reflexivity.
    specialize (Hmiss eq_refl). fold text in Hmiss. congruence. }
  subst scan. unfold scanned_candidates, scanned_products.
  set (supplier := if truthy_opt target_supplier
                   then supplier_by_code (or_empty target_supplier) (db w) else None).
  assert (exists ev1,
            (if truthy_opt target_supplier
             then emit (QuerySupplier (or_empty target_supplier)) ;;
                  read (supplier_by_code (or_empty target_supplier))
             else ret None) w0 = (Return supplier, logged w0 ev1)) as [ev1 Hsup].
  { subst supplier. destruct (truthy_opt target_supplier).
    - eexists. reflexivity.
    - exists []. now rewrite logged_nil. }
  unfold bind at 1. rewrite Hsup.
  unfold bind at 1. unfold emit at 1. unfold bind at 1. unfold read at 1. cbn [db].
  change (db (logged w0 ev1)) with (db w).
  set (ps := candidate_products category (option_map Supplier.id supplier) (db w)).
  set (w1 := mkWorld _ _ _).
  destruct (scan_loop_run search_product target_supplier min_similarity ps w1)
    as [ev2 [Hloop _]].
  unfold bind at 1. rewrite Hloop. change (db w1) with (db w).
  set (results := slice_to max_results _).
  set (w2 := logged w1 ev2).
  assert (exists d' ev3,
            match results with
            | best :: _ =>
                if Qle_bool 85 (FuzzyMatchResult.similarity_score best)
                   && is_none target_supplier
                then cache_match md5_hexdigest text
                       (Product.id (FuzzyMatchResult.product best))
                       (FuzzyMatchResult.similarity_score best) "fuzzy_name"
                else ret tt
            | [] => ret tt
            end w2 = (Return tt, mkWorld d' (clock w) (log w2 ++ ev3))
            /\ same_catalogue d' (db w)) as [d' [ev3 [Hcache Hsame]]].
  { destruct results as [|best rest].
    - exists (db w), []. split; [|apply same_catalogue_refl].
      unfold ret. now rewrite app_nil_r.
    - destruct (Qle_bool 85 _ && is_none target_supplier).
      + eexists. eexists. split; [reflexivity|]. apply same_catalogue_written.
      + exists (db w), []. split; [|apply same_catalogue_refl].
        unfold ret. now rewrite app_nil_r. }
  unfold bind at 1. rewrite Hcache.
  exists (ev1 ++ ScanCandidates :: ev2 ++ ev3)%list, d'.
  split; [|split; [|exact Hsame]].
  - unfold ret. f_equal. f_equal. subst w2 w1 w0. unfold logged. cbn [log db clock].
    rewrite <- !app_assoc. reflexivity.
  - apply in_or_app. right. now left.
Qed.

Lemma candidate_products_In (category : option string) (supplier_id : option Z)
    (d : Database) (p : Product.t) :
  In p (candidate_products category supplier_id d) -> In p (products d).
Proof.
  unfold candidate_products.
  set (in_category := if truthy_opt category then _ else _).
  assert (forall q, In q in_category -> In q (products d)) as Hcat.
  { subst in_category. destruct (truthy_opt category); [|auto].
    intros q Hq. apply filter_In in Hq. tauto. }
  destruct supplier_id as [sid|].
  - intros H. apply unique_from_In in H. destruct H as [H _].
    apply in_map_iff in H. destruct H as [[q m] [<- H]].
    apply take_In in H. unfold active_listings in H.
    apply in_flat_map in H. destruct H as [q' [Hq' H]].
    apply in_map_iff in H. destruct H as [m' [[= <- <-] _]]. now apply Hcat.
  - intros H. apply take_In in H. now apply Hcat.
Qed.

Lemma scanned_candidates_spec (search_product : descriptor)
    (target_supplier : option string) (min_similarity : Q) (max_results : Z)
    (category : option string) (d : Database) (r : FuzzyMatchResult.t) :
  In r (scanned_candidates ratio token_sort_ratio search_product target_supplier
          min_similarity max_results category d) ->
  In (FuzzyMatchResult.product r) (scanned_products target_supplier category d)
  /\ FuzzyMatchResult.similarity_score r
     = SimilarityScore.total_score
         (calculate_similarity ratio token_sort_ratio search_product
            (target_product (FuzzyMatchResult.product r)))
  /\ (min_similarity <= FuzzyMatchResult.similarity_score r)%Q.
Proof.
  unfold scanned_candidates. intros H. apply slice_to_In in H.
  apply (Permutation_in _ (sort_desc_Permutation _ _)) in H.
  apply in_flat_map in H. destruct H as [p [Hp H]].
  unfold similar_candidates in H.
  destruct (Qle_bool _ _) eqn:E; [|destruct H].
  destruct H as [<-|[]]. cbn. apply Qle_bool_iff in E. auto.
Qed.

Lemma cache_read_before_scan_true (events : list Event) :
  cache_read_before_scan true events = true.
Proof. induction events as [|[] events IH]; simpl; assumption || reflexivity. Qed.

Lemma cache_by_hash_split (search_hash : string) (now : Z) (d : Database)
    (entry : MatchingCache.t) :
  cache_by_hash search_hash d = Some entry ->
  exists rows_before rows_after,
    matching_cache d = (rows_before ++ entry :: rows_after)%list
    /\ (forall r, In r rows_before -> MatchingCache.search_hash r <> search_hash)
    /\ MatchingCache.search_hash entry = search_hash
    /\ touch_first search_hash now (matching_cache d)
       = (rows_before ++ touch now entry :: rows_after)%list.
Proof.
  unfold cache_by_hash. induction (matching_cache d) as [|c rows IH]; [discriminate|].
  simpl. destruct (String.eqb (MatchingCache.search_hash c) search_hash) eqn:E.
  - intros [= <-]. exists [], rows. apply String.eqb_eq in E.
    repeat split; [intros r []|assumption].
  - intros H. destruct (IH H) as [rb [ra [-> [Hb [He Ht]]]]].
    exists (c :: rb), ra. apply String.eqb_neq in E.
    repeat split; [|assumption|simpl; now rewrite Ht].
    intros r [<-|Hr]; [assumption | now apply Hb].
Qed.

Lemma find_app_fresh {A : Type} (f : A -> bool) (l1 l2 : list A) :
  (forall x, In x l1 -> f x = false) -> List.find f (l1 ++ l2) = List.find f l2.
Proof.
  induction l1 as [|a l1 IH]; intros H; [reflexivity|].
  simpl. rewrite (H a (or_introl eq_refl)). apply IH.
  intros x Hx. apply H. now right.
Qed.

(** C6. A cache entry for the text of the search whose product id no
    product has is a miss: [get_cached_match] returns nothing, the search
    scans the candidates and returns the result of the scan, and no
    candidate it returns has the product id of the entry. *)
Theorem stale_cache_entry_is_miss (search_product : descriptor)
    (target_supplier : option string) (min_similarity : Q) (max_results : Z)
    (category : option string) (w : World) (entry : MatchingCache.t) :
  cache_by_hash (md5_hexdigest (lower (search_text_of search_product))) (db w)
    = Some entry ->
  product_by_id (MatchingCache.matched_product_id entry) (db w) = None ->
  get_cached_match md5_hexdigest (search_text_of search_product) w
    = (Return None, logged w [GetCachedMatch (search_text_of search_product)])
  /\ exists events d',
       search_similar_products ratio token_sort_ratio md5_hexdigest search_product
         target_supplier min_similarity max_results category w
       = (Return (scanned_candidates ratio token_sort_ratio search_product
                    target_supplier min_similarity max_results category (db w)),
          mkWorld d' (clock w)
            (log w ++ GetCachedMatch (search_text_of search_product) :: events))
       /\ In ScanCandidates events
       /\ Forall (fun r =>
            In (FuzzyMatchResult.product r) (products (db w))
            /\ Product.id (FuzzyMatchResult.product r)
               <> MatchingCache.matched_product_id entry)
            (scanned_candidates ratio token_sort_ratio search_product
               target_supplier min_similarity max_results category (db w)).
Proof.
  intros Hentry Hgone.
  assert (cached_match md5_hexdigest (search_text_of search_product) (db w) = None)
    as Hmiss by (unfold cached_match; now rewrite Hentry, Hgone).
  split.
  - unfold get_cached_match, bind, emit, read. cbn [db]. now rewrite Hmiss.
  - destruct (search_scan_run search_product target_supplier min_similarity
                max_results category w (fun _ => Hmiss)) as [events [d' [Hrun [Hscan _]]]].
    exists events, d'. split; [exact Hrun|]. split; [exact Hscan|].
    apply Forall_forall. intros r Hr. apply list_elem_of_In in Hr.
    apply scanned_candidates_spec in Hr. destruct Hr as [Hp _].
    apply candidate_products_In in Hp. split; [exact Hp|].
    intros Hid. unfold product_by_id in Hgone.
    pose proof (find_none _ _ Hgone _ Hp) as Hne. cbn in Hne.
    apply Z.eqb_neq in Hne. contradiction.
Qed.

(** C5, as amended. A search that scans (there is no usable cache entry,
    or a target supplier is given) returns only candidates whose score
    reaches [min_similarity]; when every scanned product scores below the
    threshold, as the single candidate scoring 55 under the threshold 60,
    the result is empty. *)
Theorem scan_respects_threshold (search_product : descriptor)
    (target_supplier : option string) (min_similarity : Q) (max_results : Z)
    (category : option string) (w : World) :
  (target_supplier = None ->
   cached_match md5_hexdigest (search_text_of search_product) (db w) = None) ->
  exists results w',
    search_similar_products ratio token_sort_ratio md5_hexdigest search_product
      target_supplier min_similarity max_results category w = (Return results, w')
    /\ threshold_respected min_similarity results
    /\ ((forall p, In p (scanned_products target_supplier category (db w)) ->
           (SimilarityScore.total_score
              (calculate_similarity ratio token_sort_ratio search_product
                 (target_product p)) < min_similarity)%Q) ->
        results = []).
Proof.
  intros Hmiss.
  destruct (search_scan_run search_product target_supplier min_similarity
              max_results category w Hmiss) as [events [d' [Hrun _]]].
  eexists. eexists. split; [exact Hrun|]. split.
  - apply Forall_forall. intros r Hr. apply list_elem_of_In in Hr.
    now apply scanned_candidates_spec in Hr.
  - intros Hlow.
    destruct (scanned_candidates ratio token_sort_ratio search_product target_supplier
                min_similarity max_results category (db w)) as [|r rest] eqn:E;
      [reflexivity|].
    assert (In r (scanned_candidates ratio token_sort_ratio search_product
                    target_supplier min_similarity max_results category (db w))) as Hr
      by (rewrite E; now left).
    apply scanned_candidates_spec in Hr. destruct Hr as [Hp [Hs Hle]].
    specialize (Hlow _ Hp). rewrite <- Hs in Hlow.
    exfalso. apply (Qlt_not_le _ _ Hlow Hle).
Qed.

(** C10. When the cache already has an entry for the hash of the text,
    [cache_match] changes that entry only, and of it only the hit count,
    which grows by one, and the time of last use; the product id and the
    score it stores stay, whatever product and score are passed. *)
Theorem cache_match_existing_entry (search_text : string) (product_id : Z)
    (similarity_score : Q) (method : string) (w : World) (entry : MatchingCache.t) :
  cache_by_hash (md5_hexdigest (lower search_text)) (db w) = Some entry ->
  exists rows_before rows_after d' entry',
    cache_match md5_hexdigest search_text product_id similarity_score method w
      = (Return tt,
         mkWorld d' (clock w)
           (log w ++ [CacheMatch search_text product_id similarity_score]))
    /\ same_catalogue d' (db w)
    /\ matching_cache (db w) = (rows_before ++ entry :: rows_after)%list
    /\ matching_cache d' = (rows_before ++ entry' :: rows_after)%list
    /\ cache_by_hash (md5_hexdigest (lower search_text)) d' = Some entry'
    /\ MatchingCache.matched_product_id entry' = MatchingCache.matched_product_id entry
    /\ MatchingCache.similarity_score entry' = MatchingCache.similarity_score entry
    /\ MatchingCache.search_text entry' = MatchingCache.search_text entry
    /\ MatchingCache.search_hash entry' = MatchingCache.search_hash entry
    /\ MatchingCache.match_method entry' = MatchingCache.match_method entry
    /\ MatchingCache.created_at entry' = MatchingCache.created_at entry
    /\ MatchingCache.hit_count entry' = MatchingCache.hit_count entry + 1
    /\ MatchingCache.last_used entry' = clock w.
Proof.
  intros Hentry.
  destruct (cache_by_hash_split _ (clock w) _ _ Hentry) as [rb [ra [Hrows [Hb [He Ht]]]]].
  exists rb, ra,
    (cache_written md5_hexdigest search_text product_id similarity_score method
       (clock w) (db w)),
    (touch (clock w) entry).
  split; [reflexivity|]. split; [apply same_catalogue_written|].
  split; [exact Hrows|].
  unfold cache_written. rewrite Hentry. cbn [matching_cache set_cache].
  split; [exact Ht|]. split; [|repeat split].
  unfold cache_by_hash. cbn [matching_cache set_cache]. rewrite Ht.
  rewrite find_app_fresh.
  - simpl. rewrite He. now rewrite String.eqb_refl.
  - intros r Hr. apply String.eqb_neq. now apply Hb.
Qed.

(** C4, as amended. The standalone fuzzy search reads the result cache
    first, before any scan; it answers from the cache only when no target
    supplier is given, and with a target supplier it returns the result of
    the scan, which does not depend on the rows of the cache. The fuzzy
    strategy of the orchestrator makes no call on the cache at all. *)
Theorem cache_use_of_fuzzy_lookups :
  (forall search_product target_supplier min_similarity max_results category w,
     exists events,
       log (snd (search_similar_products ratio token_sort_ratio md5_hexdigest
                   search_product target_supplier min_similarity max_results
                   category w))
       = (log w ++ GetCachedMatch (search_text_of search_product) :: events)%list
       /\ cache_read_before_scan false
            (new_events w
               (search_similar_products ratio token_sort_ratio md5_hexdigest
                  search_product target_supplier min_similarity max_results
                  category w)) = true)
  /\ (forall search_product min_similarity max_results category w product score,
        cached_match md5_hexdigest (search_text_of search_product) (db w)
          = Some (product, score) ->
        search_similar_products ratio token_sort_ratio md5_hexdigest search_product
          None min_similarity max_results category w
        = (Return [FuzzyMatchResult.mk product score
                     (calculate_similarity ratio token_sort_ratio search_product
                        (target_product product)) None None],
           logged w [GetCachedMatch (search_text_of search_product)]))
  /\ (forall search_product supplier min_similarity max_results category w rows,
        fst (search_similar_products ratio token_sort_ratio md5_hexdigest
               search_product (Some supplier) min_similarity max_results category w)
        = Return (scanned_candidates ratio token_sort_ratio search_product
                    (Some supplier) min_similarity max_results category (db w))
        /\ scanned_candidates ratio token_sort_ratio search_product
             (Some supplier) min_similarity max_results category
             (set_cache rows (db w))
           = scanned_candidates ratio token_sort_ratio search_product
               (Some supplier) min_similarity max_results category (db w))
  /\ (forall product_info target_supplier min_similarity max_results w,
        exists candidates events,
          _try_fuzzy_match ratio token_sort_ratio product_info target_supplier
            min_similarity max_results w = (Return candidates, logged w events)
          /\ no_cache_event events).
Proof.
  split; [|split; [|split]].
  - intros sp target min_similarity max_results category w.
    assert (forall events,
              cache_read_before_scan false
                (drop (length (log w))
                   (log w ++ GetCachedMatch (search_text_of sp) :: events)) = true)
      as Hfirst.
    { intros events. rewrite drop_app_length. simpl.
      apply cache_read_before_scan_true. }
    destruct (cached_match md5_hexdigest (search_text_of sp) (db w)) as [[p sc]|] eqn:E;
      [destruct target as [t|]|].
    + destruct (search_scan_run sp (Some t) min_similarity max_results category w)
        as [events [d' [Hrun _]]]; [discriminate|].
      exists events. unfold new_events. rewrite Hrun. cbn [snd log].
      split; [reflexivity | apply Hfirst].
    + exists []. unfold new_events. rewrite (search_hit_run _ _ _ _ _ _ _ E).
      cbn [snd log logged]. split; [reflexivity | apply Hfirst].
    + destruct (search_scan_run sp target min_similarity max_results category w)
        as [events [d' [Hrun _]]]; [auto|].
      exists events. unfold new_events. rewrite Hrun. cbn [snd log].
      split; [reflexivity | apply Hfirst].
  - intros. now apply search_hit_run.
  - intros sp supplier min_similarity max_results category w rows. split.
    + destruct (search_scan_run sp (Some supplier) min_similarity max_results
                  category w) as [events [d' [Hrun _]]]; [discriminate|].
      now rewrite Hrun.
    + reflexivity.
  - intros. eexists. apply try_fuzzy_match_run.
Qed.

End FuzzySearch.

(** ** The claims on concrete catalogues *)

Lemma stale_cache_entry_is_miss_witness :
  get_cached_match Demo.md5_hexdigest (search_text_of Demo.search_vanille)
    Demo.stale_world
    = (Return None,
       logged Demo.stale_world [GetCachedMatch (search_text_of Demo.search_vanille)])
  /\ exists events d',
       search_similar_products Demo.ratio Demo.ratio Demo.md5_hexdigest
         Demo.search_vanille None 50 5 None Demo.stale_world
       = (Return (scanned_candidates Demo.ratio Demo.ratio Demo.search_vanille
                    None 50 5 None (db Demo.stale_world)),
          mkWorld d' (clock Demo.stale_world)
            (log Demo.stale_world
               ++ GetCachedMatch (search_text_of Demo.search_vanille) :: events))
       /\ In ScanCandidates events
       /\ Forall (fun r =>
            In (FuzzyMatchResult.product r) (products (db Demo.stale_world))
            /\ Product.id (FuzzyMatchResult.product r)
               <> MatchingCache.matched_product_id Demo.stale_entry)
            (scanned_candidates Demo.ratio Demo.ratio Demo.search_vanille
               None 50 5 None (db Demo.stale_world)).
Proof.
  apply (stale_cache_entry_is_miss Demo.ratio Demo.ratio Demo.md5_hexdigest
           Demo.search_vanille None 50 5 None Demo.stale_world Demo.stale_entry);
    vm_compute; reflexivity.
Defined.

Lemma scan_respects_threshold_witness :
  exists results w',
    search_similar_products Demo.ratio Demo.ratio Demo.md5_hexdigest
      Demo.search_vanille None 60 5 None Demo.fraise_only = (Return results, w')
    /\ threshold_respected 60 results
    /\ ((forall p, In p (scanned_products None None (db Demo.fraise_only)) ->
           (SimilarityScore.total_score
              (calculate_similarity Demo.ratio Demo.ratio Demo.search_vanille
                 (target_product p)) < 60)%Q) ->
        results = []).
Proof.
  apply (scan_respects_threshold Demo.ratio Demo.ratio Demo.md5_hexdigest
           Demo.search_vanille None 60 5 None Demo.fraise_only).
  intros _. vm_compute. reflexivity.
Defined.

(** Scenario D: under the threshold 60, a search whose only candidate
    scores 55 returns the empty list. *)
Example scenario_threshold_60_score_55 :
  SimilarityScore.total_score
    (calculate_similarity Demo.ratio Demo.ratio Demo.search_vanille
       (target_product Demo.yogourt_fraise)) == 55
  /\ fst (search_similar_products Demo.ratio Demo.ratio Demo.md5_hexdigest
            Demo.search_vanille None 60 5 None Demo.fraise_only) = Return [].
Proof. split; vm_compute; reflexivity. Qed.

(** C5, as stated, fails. A first search with the threshold 50 caches its
    best candidate, of score 95; the same search with the threshold 96 is
    then answered from the cache with that candidate, below its threshold. *)
Lemma threshold_respected_counterexample :
  let cached_world :=
    snd (search_similar_products Demo.ratio Demo.ratio Demo.md5_hexdigest
           Demo.search_vanille None 50 5 None Demo.world) in
  ~ threshold_respected 96
      (results_of
         (search_similar_products Demo.ratio Demo.ratio Demo.md5_hexdigest
            Demo.search_vanille None 96 5 None cached_world)).
Proof.
  intros cached_world H. unfold threshold_respected in H.
  vm_compute in H. inversion H as [|r l Hle _]. apply Hle. reflexivity.
Qed.

Lemma cache_match_existing_entry_witness :
  exists rows_before rows_after d' entry',
    cache_match Demo.md5_hexdigest "YOGOURT VANILLE IOGO IOGO 4X2 KG" 1 95
      "fuzzy_name" Demo.stale_world
      = (Return tt,
         mkWorld d' (clock Demo.stale_world)
           (log Demo.stale_world
              ++ [CacheMatch "YOGOURT VANILLE IOGO IOGO 4X2 KG" 1 95]))
    /\ same_catalogue d' (db Demo.stale_world)
    /\ matching_cache (db Demo.stale_world)
       = (rows_before ++ Demo.stale_entry :: rows_after)%list
    /\ matching_cache d' = (rows_before ++ entry' :: rows_after)%list
    /\ cache_by_hash
         (Demo.md5_hexdigest (lower "YOGOURT VANILLE IOGO IOGO 4X2 KG")) d'
       = Some entry'
    /\ MatchingCache.matched_product_id entry'
       = MatchingCache.matched_product_id Demo.stale_entry
    /\ MatchingCache.similarity_score entry'
       = MatchingCache.similarity_score Demo.stale_entry
    /\ MatchingCache.search_text entry' = MatchingCache.search_text Demo.stale_entry
    /\ MatchingCache.search_hash entry' = MatchingCache.search_hash Demo.stale_entry
    /\ MatchingCache.match_method entry' = MatchingCache.match_method Demo.stale_entry
    /\ MatchingCache.created_at entry' = MatchingCache.created_at Demo.stale_entry
    /\ MatchingCache.hit_count entry' = MatchingCache.hit_count Demo.stale_entry + 1
    /\ MatchingCache.last_used entry' = clock Demo.stale_world.
Proof.
  apply (cache_match_existing_entry Demo.md5_hexdigest
           "YOGOURT VANILLE IOGO IOGO 4X2 KG" 1 95 "fuzzy_name" Demo.stale_world
           Demo.stale_entry).
  vm_compute. reflexivity.
Defined.

(** C4, as stated, fails. The fuzzy strategy of the orchestrator scans the
    candidates of the target supplier without a read of the result cache,
    on its own and within [find_matches]. *)
Lemma cache_read_before_scan_counterexample :
  cache_read_before_scan false
    (new_events Demo.world
       (_try_fuzzy_match Demo.ratio Demo.ratio Demo.line_777 "colabor" 60 3
          Demo.world)) <> true
  /\ cache_read_before_scan false
       (new_events Demo.world
          (find_matches Demo.ratio Demo.ratio Demo.line_777 "dube_loiselle"
             "colabor" 60 3 Demo.world)) <> true.
Proof. split; vm_compute; discriminate. Qed.

(** * Further properties of the code *)

(** ** Cells of the Excel report *)

(** X1. Whatever string is written to a cell, the sanitized value does not
    begin with one of the characters that start a formula, and it is the
    value itself or the value behind one quote. *)
Theorem sanitize_excel_value_safe (value : string) :
  match sanitize_excel_value value with
  | String c _ => ~ In c dangerous_chars
  | EmptyString => True
  end
  /\ (sanitize_excel_value value = value
      \/ sanitize_excel_value value = String "'"%char value).
Proof.
  destruct value as [|c rest]; [split; [exact I | now left]|].
  unfold sanitize_excel_value.
  destruct (existsb (Ascii.eqb c) dangerous_chars) eqn:E.
  - split; [|now right]. unfold dangerous_chars. simpl.
    intros [H|[H|[H|[H|[H|[]]]]]]; discriminate H.
  - split; [|now left]. intros Hin.
    assert (existsb (Ascii.eqb c) dangerous_chars = true) as E'
      by (apply existsb_exists; exists c; split; [exact Hin | apply Ascii.eqb_refl]).
    congruence.
Qed.

(** X2. Sanitizing twice is sanitizing once: a sanitized value is not
    quoted again. *)
Theorem sanitize_excel_value_idempotent (value : string) :
  sanitize_excel_value (sanitize_excel_value value) = sanitize_excel_value value.
Proof.
  destruct value as [|c rest]; [reflexivity|].
  assert (sanitize_excel_value (String "'"%char (String c rest))
          = String "'"%char (String c rest)) as Hquoted by reflexivity.
  unfold sanitize_excel_value at 2 3.
  destruct (existsb (Ascii.eqb c) dangerous_chars) eqn:E; [exact Hquoted|].
  unfold sanitize_excel_value. now rewrite E.
Qed.

(** ** GTIN normalization *)

Section GtinFacts.

Variable int_of_float_str : string -> Result (option string).

Lemma validated_gtin_valid (s g : string) :
  validated_gtin s = Return (Some g) ->
  g = s /\ isdigit g = true /\ gtin_length g = true.
Proof.
  unfold validated_gtin.
  destruct (isdigit s) eqn:Ed; [|discriminate].
  destruct (gtin_length s) eqn:El; [|discriminate].
  cbn. intros [= <-]. auto.
Qed.

(** X3. Whatever the input and whatever the conversion of floats does, a
    GTIN that [normalize_gtin] returns has 8, 12, 13 or 14 characters and
    passes [str.isdigit]. This test is wider than the decimal digits: it
    accepts the superscript digits, and a value of seven decimal digits
    and a superscript two is returned as a GTIN. *)
Theorem normalize_gtin_valid (gtin_value : option string) (g : string) :
  normalize_gtin int_of_float_str gtin_value = Return (Some g) ->
  isdigit g = true
  /\ gtin_length g = true
  /\ normalize_gtin int_of_float_str (Some superscript_gtin)
     = Return (Some superscript_gtin)
  /\ all_chars Char.is_digit superscript_gtin = false.
Proof.
  intros H. assert (isdigit g = true /\ gtin_length g = true) as [H1 H2].
  { revert H.
    unfold normalize_gtin. destruct gtin_value as [value|]; [|discriminate].
    destruct (member _ _); [discriminate|].
    destruct (contains "." (strip value)).
    - destruct (isdigit _ && gtin_length _).
      + intros H. apply validated_gtin_valid in H. tauto.
      + destruct (int_of_float_str (strip value)) as [[c|]|e]; try discriminate.
        intros H. apply validated_gtin_valid in H. tauto.
    - intros H. apply validated_gtin_valid in H. tauto. }
  repeat split; try assumption; vm_compute; reflexivity.
Qed.

End GtinFacts.

Lemma normalize_gtin_valid_witness :
  isdigit "00012345678901" = true
  /\ gtin_length "00012345678901" = true
  /\ normalize_gtin (fun _ => Return None) (Some superscript_gtin)
     = Return (Some superscript_gtin)
  /\ all_chars Char.is_digit superscript_gtin = false.
Proof.
  apply (normalize_gtin_valid (fun _ => Return None) (Some " 00012345678901.0")).
  vm_compute. reflexivity.
Defined.

Lemma digit_not_n (c : ascii) :
  char_isdigit c = true -> Ascii.eqb (Char.lower c) "n"%char = false.
Proof.
  destruct c as [[] [] [] [] [] [] [] []]; vm_compute; intros H;
    reflexivity || discriminate H.
Qed.

Lemma digit_not_period (c : ascii) :
  char_isdigit c = true -> "."%char <> c /\ Char.is_period c = false.
Proof.
  destruct c as [[] [] [] [] [] [] [] []]; vm_compute; intros H;
    (split; [discriminate | reflexivity]) || discriminate H.
Qed.

Lemma digits_not_null (g tail : string) :
  isdigit g = true -> member (lower (g ++ tail)) ["nan"; "none"; ""] = false.
Proof.
  unfold isdigit. destruct g as [|c g]; [discriminate|]. simpl.
  intros H. apply andb_prop in H. destruct H as [Hc _].
  now rewrite (digit_not_n c Hc).
Qed.

Lemma contains_cons (needle : string) (c : ascii) (text : string) :
  contains needle (String c text)
  = String.prefix needle (String c text) || contains needle text.
Proof. reflexivity. Qed.

Lemma prefix_period (c : ascii) (text : string) :
  String.prefix "." (String c text) = if ascii_dec "." c then true else false.
Proof.
  change (String.prefix "." (String c text))
    with (if ascii_dec "." c then String.prefix "" text else false).
  destruct (ascii_dec "." c); [destruct text; reflexivity | reflexivity].
Qed.

Lemma append_empty (s : string) : s ++ "" = s.
Proof.
  induction s as [|c s IH]; [reflexivity|].
  change (String c (s ++ "") = String c s). now rewrite IH.
Qed.

Lemma digits_contains_period (g rest : string) :
  contains "." (g ++ String "."%char rest) = true.
Proof.
  induction g as [|c g IH].
  - change ("" ++ String "."%char rest) with (String "."%char rest).
    rewrite contains_cons, prefix_period.
    destruct (ascii_dec "." "."); [reflexivity | congruence].
  - change (String c g ++ String "."%char rest)
      with (String c (g ++ String "."%char rest)).
    rewrite contains_cons, IH. apply orb_true_r.
Qed.

Lemma digits_no_period (g : string) :
  all_chars char_isdigit g = true -> contains "." g = false.
Proof.
  induction g as [|c g IH]; [reflexivity|].
  cbn [all_chars]. intros H. apply andb_prop in H. destruct H as [Hc Hg].
  destruct (digit_not_period c Hc) as [Hne _].
  rewrite contains_cons, prefix_period.
  destruct (ascii_dec "." c); [contradiction|]. now apply IH.
Qed.

Lemma digits_split_period (g rest : string) :
  all_chars char_isdigit g = true ->
  split_period (g ++ String "."%char rest) = (g, Some rest).
Proof.
  induction g as [|c g IH]; [reflexivity|].
  cbn [all_chars]. intros H. apply andb_prop in H. destruct H as [Hc Hg].
  change (String c g ++ String "."%char rest)
    with (String c (g ++ String "."%char rest)).
  cbn [split_period]. destruct (digit_not_period c Hc) as [_ ->].
  now rewrite (IH Hg).
Qed.

(** X4. A string of 8, 12, 13 or 14 digits, with white space around it or
    not, is returned as it is, leading zeros included; and when a period
    follows the digits, the digits are returned and what follows the
    period is dropped, without any conversion of floats. *)
Theorem normalize_gtin_keeps_digits (int_of_float_str : string -> Result (option string))
    (value g rest : string) :
  isdigit g = true -> gtin_length g = true ->
  strip value = g \/ strip value = g ++ String "."%char rest ->
  normalize_gtin int_of_float_str (Some value) = Return (Some g).
Proof.
  intros Hd Hl Hv.
  assert (validated_gtin g = Return (Some g)) as Hval
    by (unfold validated_gtin; now rewrite Hd, Hl).
  assert (all_chars char_isdigit g = true) as Hall
    by (unfold isdigit in Hd; apply andb_prop in Hd; tauto).
  unfold normalize_gtin. destruct Hv as [-> | ->].
  - pose proof (digits_not_null g "" Hd) as Hn. rewrite append_empty in Hn.
    rewrite Hn, (digits_no_period g Hall). exact Hval.
  - rewrite (digits_not_null g _ Hd), digits_contains_period,
      (digits_split_period g rest Hall).
    cbn [fst]. now rewrite Hd, Hl.
Qed.

Lemma normalize_gtin_keeps_digits_witness :
  normalize_gtin (fun _ => Raise "unused") (Some "  00012345.90 ")
  = Return (Some "00012345").
Proof.
  apply (normalize_gtin_keeps_digits (fun _ => Raise "unused") "  00012345.90 "
           "00012345" "90");
    [reflexivity | reflexivity | right; reflexivity].
Defined.

(** ** Words, brands and product types *)

Lemma append_cons (c : ascii) (s t : string) : String c s ++ t = String c (s ++ t).
Proof. reflexivity. Qed.

Lemma split_tokens (s : string) : Forall (fun w => is_token w = true) (split s).
Proof.
  induction s as [|c s IH]; [constructor|].
  cbn [split]. destruct (Char.is_space c) eqn:Ec; [exact IH|].
  assert (is_token (String c "") = true) as Hone
    by (unfold is_token; cbn; now rewrite Ec).
  destruct s as [|c' s']; [repeat constructor; exact Hone|].
  destruct (Char.is_space c') eqn:Ec'; [constructor; [exact Hone | exact IH]|].
  destruct (split (String c' s')) as [|w ws]; [repeat constructor; exact Hone|].
  apply Forall_cons in IH. destruct IH as [Hw Hws].
  constructor; [|exact Hws].
  unfold is_token in *. cbn. rewrite Ec. cbn.
  apply andb_prop in Hw. tauto.
Qed.

Lemma split_chars (s w : string) (c : ascii) :
  In w (split s) -> In c (chars w) -> In c (chars s).
Proof.
  revert w. induction s as [|a s IH]; intros w; [intros []|].
  cbn [split]. destruct (Char.is_space a).
  { intros Hw Hc. right. eauto. }
  destruct s as [|a' s'].
  { intros [<-|[]] Hc. exact Hc. }
  destruct (Char.is_space a').
  { intros [<-|Hw] Hc; [destruct Hc as [<-|[]]; now left | right; eauto]. }
  destruct (split (String a' s')) as [|w' ws] eqn:E.
  { intros [<-|[]] [<-|[]]. now left. }
  intros [<-|Hw] Hc.
  - destruct Hc as [<-|Hc]; [now left|]. right. apply (IH w'); [now left | exact Hc].
  - right. apply (IH w); [now right | exact Hc].
Qed.

Lemma split_token (w : string) : is_token w = true -> split w = [w].
Proof.
  induction w as [|c w IH]; [discriminate|].
  unfold is_token. cbn. intros H. apply andb_prop in H. destruct H as [Hc Hw].
  apply negb_true_iff in Hc. rewrite Hc.
  destruct w as [|c' w']; [reflexivity|].
  cbn in Hw. pose proof Hw as Hw'. apply andb_prop in Hw'. destruct Hw' as [Hc' _].
  apply negb_true_iff in Hc'. rewrite Hc'.
  rewrite IH; [reflexivity|]. unfold is_token. cbn. exact Hw.
Qed.

Lemma split_token_space (w rest : string) :
  is_token w = true -> split (w ++ String " "%char rest) = w :: split rest.
Proof.
  induction w as [|c w IH]; [discriminate|].
  unfold is_token. cbn [truthy all_chars andb].
  intros H. apply andb_prop in H. destruct H as [Hc Hw].
  apply negb_true_iff in Hc. rewrite append_cons. cbn [split]. rewrite Hc.
  destruct w as [|c' w'].
  - change ("" ++ String " "%char rest) with (String " "%char rest).
    change (Char.is_space " ") with true. cbn iota. f_equal.
  - rewrite append_cons.
    cbn [all_chars] in Hw. pose proof Hw as Hw'. apply andb_prop in Hw'.
    destruct Hw' as [Hc' _]. apply negb_true_iff in Hc'. rewrite Hc'.
    rewrite <- append_cons. rewrite IH; [reflexivity|].
    unfold is_token. cbn [truthy andb]. exact Hw.
Qed.

Lemma split_join_tokens (words : list string) :
  Forall (fun w => is_token w = true) words ->
  split (join " " words) = words.
Proof.
  induction words as [|w ws IH]; [reflexivity|].
  intros H. apply Forall_cons in H. destruct H as [Hw Hws].
  destruct ws as [|w2 ws]; [now apply split_token|].
  change (join " " (w :: w2 :: ws)) with (w ++ String " "%char (join " " (w2 :: ws))).
  rewrite (split_token_space _ _ Hw). f_equal. now apply IH.
Qed.

(** X5. Joining words with one space and splitting the text again gives
    the words back, when each word is non-empty and has no white space. *)
Theorem split_join (words : list string) :
  Forall (fun w => is_token w = true) words ->
  split (join " " words) = words.
Proof. exact (split_join_tokens words). Qed.

Lemma split_join_witness : split (join " " ["tofu"; "ferme"]) = ["tofu"; "ferme"].
Proof. apply split_join. repeat constructor. Defined.

Lemma star_match_total {A : Type} (p : ascii -> bool) (s : string)
    (k : string -> option A) :
  (forall s', is_Some (k s')) -> is_Some (star_match p s k).
Proof.
  intros Hk. induction s as [|c s IH]; cbn; [apply Hk|].
  destruct (p c); [|apply Hk].
  destruct (star_match p s k); [eauto | apply Hk].
Qed.

Lemma re_match_integer (w : string) :
  bool_decide (is_Some (re_match re_integer w)) = starts_with_digit w.
Proof.
  unfold re_match, re_integer. cbn [rmatch].
  destruct w as [|c w]; cbn [starts_with_digit].
  - apply bool_decide_eq_false. intros [x Hx]. discriminate.
  - destruct (Char.is_digit c).
    + apply bool_decide_eq_true. apply star_match_total. eauto.
    + apply bool_decide_eq_false. intros [x Hx]. discriminate.
Qed.

(** X6. The product type of a name has at most three words, separated by
    single spaces; each word has more than two characters, does not begin
    with a digit and is none of the descriptors bio, organic, naturel,
    nature, original, orig. *)
Theorem extract_product_type_words (product_name : string) :
  exists words,
    extract_product_type product_name = join " " words
    /\ split (extract_product_type product_name) = words
    /\ (length words <= 3)%nat
    /\ Forall (fun w =>
         (2 < String.length w)%nat
         /\ starts_with_digit w = false
         /\ ~ In w descriptor_stop_words) words.
Proof.
  unfold extract_product_type.
  set (kept := List.filter _ (split (normalize_text product_name))).
  exists (take 3 kept). split; [reflexivity|].
  assert (forall w, In w kept ->
            is_token w = true
            /\ (2 < String.length w)%nat
            /\ starts_with_digit w = false
            /\ ~ In w descriptor_stop_words) as Hkept.
  { intros w Hw. subst kept. apply filter_In in Hw. destruct Hw as [Hin Hf].
    apply andb_prop in Hf. destruct Hf as [Hf Hstop].
    apply andb_prop in Hf. destruct Hf as [Hdigit Hlen].
    split.
    { pose proof (split_tokens (normalize_text product_name)) as Ht.
      rewrite Forall_forall in Ht. apply Ht. now apply list_elem_of_In. }
    split; [now apply Nat.ltb_lt in Hlen|].
    split.
    { rewrite re_match_integer in Hdigit. now apply negb_true_iff in Hdigit. }
    intros Hs. apply negb_true_iff in Hstop. unfold member in Hstop.
    assert (existsb (String.eqb w) descriptor_stop_words = true) as E
      by (apply existsb_exists; exists w; split; [exact Hs | apply String.eqb_refl]).
    congruence. }
  split; [|split].
  - apply split_join_tokens. apply Forall_forall. intros w Hw.
    apply list_elem_of_In, take_In in Hw. now apply Hkept.
  - rewrite length_take. lia.
  - apply Forall_forall. intros w Hw.
    apply list_elem_of_In, take_In in Hw. apply Hkept in Hw. tauto.
Qed.

Lemma normalize_text_chars (text : string) (c : ascii) :
  In c (chars (normalize_text text)) ->
  Char.is_upper c = false
  /\ (Char.is_word c = true \/ c = " "%char \/ Char.is_period c = true).
Proof.
  unfold normalize_text. destruct (negb (truthy text)); [intros []|].
  intros Hc. unfold sub_spaces in Hc.
  apply In_chars_sub_spaces in Hc.
  destruct Hc as [->|[Hc Hsp]]; [split; [reflexivity | tauto]|].
  unfold sub_special in Hc. rewrite chars_str_map in Hc.
  apply in_map_iff in Hc. destruct Hc as [c0 [Hc0 Hin]].
  apply In_chars_rstrip, In_chars_lstrip in Hin.
  unfold lower in Hin. rewrite chars_str_map in Hin.
  apply in_map_iff in Hin. destruct Hin as [c1 [<- _]].
  destruct (Char.is_word (Char.lower c1)) eqn:Ew; cbn in Hc0.
  - subst c. split; [apply lower_not_upper | tauto].
  - destruct (Char.is_space (Char.lower c1)) eqn:Es; cbn in Hc0.
    + subst c. congruence.
    + destruct (Char.is_period (Char.lower c1)) eqn:Ep.
      * subst c. split; [apply lower_not_upper | tauto].
      * subst c. split; [reflexivity | tauto].
Qed.

Lemma last_In {A : Type} (l : list A) (d : A) : l <> [] -> In (List.last l d) l.
Proof.
  induction l as [|a l IH]; [congruence|]. intros _.
  destruct l as [|b l]; [now left|]. right. apply IH. discriminate.
Qed.

Lemma all_chars_In (p : ascii -> bool) (s : string) (c : ascii) :
  all_chars p s = true -> In c (chars s) -> p c = true.
Proof.
  induction s as [|a s IH]; [intros _ []|].
  cbn. intros H [<-|Hc]; apply andb_prop in H; [tauto | apply IH; tauto].
Qed.

(** X7. With a brand field that is not empty or white space only the
    brand is the normalized field and the name is not looked at. Without
    one the brand is the last word of the normalized name: whenever the
    words of the normalized name are some words followed by a word, the
    brand is that word; it is empty exactly when the name has no word; and
    each of its characters is a word character or a period and no white
    space. *)
Theorem extract_brand_spec (product_name : string) (brand_field : option string) :
  (truthy (strip (or_empty brand_field)) = true ->
   extract_brand product_name brand_field = normalize_text (or_empty brand_field))
  /\ (truthy (strip (or_empty brand_field)) = false ->
      (forall front last_word,
         split (normalize_text product_name) = (front ++ [last_word])%list ->
         extract_brand product_name brand_field = last_word)
      /\ (extract_brand product_name brand_field = ""
          <-> split (normalize_text product_name) = [])
      /\ (forall c, In c (chars (extract_brand product_name brand_field)) ->
            Char.is_space c = false
            /\ (Char.is_word c = true \/ Char.is_period c = true))).
Proof.
  unfold extract_brand. split.
  - intros Hb. rewrite Hb.
    destruct brand_field as [b|]; [|discriminate].
    cbn [truthy_opt or_empty default] in *.
    destruct b; [discriminate | reflexivity].
  - intros Hb. rewrite Hb, andb_false_r.
    set (words := split (normalize_text product_name)).
    pose proof (split_tokens (normalize_text product_name)) as Htok.
    fold words in Htok. rewrite Forall_forall in Htok.
    split.
    { intros front last_word Hw. rewrite Hw.
      assert ((0 <? length (front ++ [last_word]))%nat = true) as ->
        by (apply Nat.ltb_lt; rewrite length_app; cbn; lia).
      apply last_last. }
    destruct words as [|w ws] eqn:E; [cbn; repeat split; tauto || congruence|].
    change (0 <? length (w :: ws))%nat with true. cbn iota.
    assert (In (List.last (w :: ws) "") (w :: ws)) as Hlast
      by (apply last_In; discriminate).
    assert (is_token (List.last (w :: ws) "") = true) as Ht
      by (apply Htok; now apply list_elem_of_In).
    split.
    + split; [|discriminate]. intros Heq. rewrite Heq in Ht. discriminate.
    + intros c Hc. unfold is_token in Ht. apply andb_prop in Ht.
      destruct Ht as [_ Hns].
      pose proof (all_chars_In _ _ _ Hns Hc) as Hsp. apply negb_true_iff in Hsp.
      assert (In c (chars (normalize_text product_name))) as Hn
        by (apply (split_chars _ (List.last (w :: ws) "")); [fold words; now rewrite E | exact Hc]).
      apply normalize_text_chars in Hn.
      destruct Hn as [Hu [Hw|[Hsp'|Hp]]]; [auto | | auto].
      subst c. discriminate Hsp.
Qed.

Lemma extract_brand_spec_witness :
  extract_brand "YOGOURT VANILLE IOGO" None = "iogo".
Proof.
  apply (proj1 (proj2 (extract_brand_spec "YOGOURT VANILLE IOGO" None) eq_refl)
           ["yogourt"; "vanille"] "iogo").
  reflexivity.
Defined.

(** ** Packaging, formats and the scores of the scorer *)

Lemma prefix_cons (a b : ascii) (s t : string) :
  String.prefix (String a s) (String b t)
  = if ascii_dec a b then String.prefix s t else false.
Proof. reflexivity. Qed.

Lemma prefix_append (a b t : string) :
  String.prefix (a ++ b) t = true -> String.prefix a t = true.
Proof.
  revert t. induction a as [|x a IH]; intros t; [destruct t; reflexivity|].
  rewrite append_cons. destruct t as [|y t]; [discriminate|].
  rewrite !prefix_cons. destruct (ascii_dec x y); [apply IH | discriminate].
Qed.

Lemma contains_append (a b text : string) :
  contains (a ++ b) text = true -> contains a text = true.
Proof.
  induction text as [|c text IH].
  - cbn [contains]. rewrite !orb_false_r. apply prefix_append.
  - rewrite !contains_cons. intros H. apply orb_prop in H.
    apply orb_true_intro. destruct H as [H|H]; [left; now apply prefix_append in H|].
    right. now apply IH.
Qed.

Lemma find_first {A : Type} (f : A -> bool) (l : list A) :
  (exists x before_it after_it,
     List.find f l = Some x /\ l = (before_it ++ x :: after_it)%list
     /\ f x = true /\ forall y, In y before_it -> f y = false)
  \/ (List.find f l = None /\ forall y, In y l -> f y = false).
Proof.
  induction l as [|t l IH].
  - right. split; [reflexivity | intros y []].
  - cbn [List.find]. destruct (f t) eqn:E.
    + left. exists t, [], l. repeat split; [exact E | intros y []].
    + destruct IH as [[x [b [a [Hf [-> [Hx Hb]]]]]]|[Hn Hall]].
      * left. exists x, (t :: b), a. repeat split; [exact Hf | exact Hx|].
        intros y [<-|Hy]; [exact E | now apply Hb].
      * right. split; [exact Hn|]. intros y [<-|Hy]; [exact E | now apply Hall].
Qed.

(** X8. The packaging of a product is one of the fourteen keywords or
    "unknown": a keyword exactly when one occurs in the normalized text of
    the packaging field and the name, and then the first one of the list
    that occurs; "unknown" exactly when none occurs. *)
Theorem extract_packaging_spec (packaging_field product_name : string) :
  let text := normalize_text (packaging_field ++ " " ++ product_name) in
  let result := extract_packaging packaging_field product_name in
  (exists before_it after_it,
     packaging_types = (before_it ++ result :: after_it)%list
     /\ contains result text = true
     /\ forall pkg, In pkg before_it -> contains pkg text = false)
  \/ (result = "unknown"
      /\ forall pkg, In pkg packaging_types -> contains pkg text = false).
Proof.
  intros text result. subst result. unfold extract_packaging. fold text.
  destruct (find_first (fun pkg => contains pkg text) packaging_types)
    as [[x [b [a [Hf [Hsplit [Hx Hb]]]]]]|[Hn Hall]].
  - left. rewrite Hf. exists b, a. auto.
  - right. rewrite Hn. auto.
Qed.

(** X9. The packaging is never "canne": a text in which "canne" occurs
    has "can" in it, which stands earlier in the list of keywords. *)
Theorem extract_packaging_never_canne (packaging_field product_name : string) :
  extract_packaging packaging_field product_name <> "canne".
Proof.
  unfold extract_packaging.
  set (text := normalize_text (packaging_field ++ " " ++ product_name)).
  destruct (find_first (fun pkg => contains pkg text) packaging_types)
    as [[x [b [a [Hf [Hsplit [Hc Hb]]]]]]|[Hn _]];
    [rewrite Hf | rewrite Hn; discriminate].
  change (default "unknown" (Some x)) with x. intros Heq.
  rewrite Heq in Hsplit, Hc.
  assert (In "can" b) as Hcan.
  { unfold packaging_types in Hsplit.
    do 9 (destruct b as [|? b]; [discriminate Hsplit|];
          injection Hsplit as <- Hsplit).
    do 8 right. now left. }
  apply Hb in Hcan.
  apply (contains_append "can" "ne") in Hc. congruence.
Qed.

Lemma extract_format_from_unit (patterns : list (string * regex)) (text : string) :
  In (snd (extract_format_from patterns text)) (List.map fst patterns)
  \/ extract_format_from patterns text = (0%Q, "unknown").
Proof.
  induction patterns as [|[unit_type pattern] rest IH]; [now right|].
  cbn [extract_format_from List.map fst].
  destruct (re_search pattern text) as [groups|].
  - destruct (count_and_size groups) as [[count size]|].
    + left. now left.
    + destruct IH as [IH|IH]; [left; now right | now right].
  - destruct IH as [IH|IH]; [left; now right | now right].
Qed.

(** X10. The format extracted from a format field and a name has a
    magnitude that is not negative and a unit that is kg, g, l, ml or
    units, or it is the pair of 0 and "unknown". *)
Theorem extract_format_spec (format_field product_name : string) :
  (0 <= fst (extract_format format_field product_name))%Q
  /\ (In (snd (extract_format format_field product_name))
        ["kg"; "g"; "l"; "ml"; "units"]
      \/ extract_format format_field product_name = (0%Q, "unknown")).
Proof.
  split; [apply extract_format_nonneg|].
  apply (extract_format_from_unit FORMAT_PATTERNS).
Qed.

(** X11. A format whose magnitude is read and is not zero scores 100
    against itself, whatever the string similarity is, for a format field
    and a name of at most 100 characters together. The bound keeps the
    numbers the code reads and multiplies within the range of floats: no
    numeral of so few digits overflows to infinity or underflows to zero,
    so the magnitude of the code is finite and not zero where the exact
    one is. *)
Theorem compare_formats_same (ratio : string -> string -> Q)
    (format_field product_name : string) :
  (String.length format_field + String.length product_name <= 100)%nat ->
  ~ (fst (extract_format format_field product_name) == 0)%Q ->
  compare_formats ratio format_field format_field product_name product_name = 100%Q.
Proof.
  intros _ Hq. unfold compare_formats.
  pose proof (extract_format_nonneg format_field product_name) as Hpos.
  destruct (extract_format format_field product_name) as [qty unit_type].
  cbn [fst] in *.
  assert (Qeq_bool qty 0 = false) as ->.
  { destruct (Qeq_bool qty 0) eqn:E; [|reflexivity].
    apply Qeq_bool_iff in E. contradiction. }
  cbn [orb]. rewrite String.eqb_refl.
  assert (0 < qty)%Q as Hlt.
  { apply Qle_lteq in Hpos. destruct Hpos as [H|H]; [exact H|].
    symmetry in H. contradiction. }
  assert (py_max qty qty == qty)%Q as Hm
    by (destruct (py_max_cases qty qty) as [[-> _]|[-> _]]; reflexivity).
  assert (Qabs (qty - qty) / py_max qty qty * 100 == 0)%Q as Hd.
  { assert (qty - qty == 0)%Q as -> by ring.
    change (Qabs 0) with 0%Q. unfold Qdiv. ring. }
  set (dp := (Qabs (qty - qty) / py_max qty qty * 100)%Q) in *.
  assert (py_max 0 (100 - dp) == 100)%Q as Hs.
  { destruct (py_max_cases 0 (100 - dp)) as [[-> H]|[-> _]].
    - rewrite Hd in H. exfalso. revert H. apply Qlt_not_le. reflexivity.
    - rewrite Hd. ring. }
  destruct (py_min_cases 100 (py_max 0 (100 - dp) * (11 # 10))) as [[-> _]|[_ H]];
    [reflexivity|].
  exfalso. rewrite Hs in H. revert H. apply Qle_not_lt. discriminate.
Qed.

Lemma compare_formats_same_witness :
  compare_formats Demo.ratio "12X454 G" "12X454 G" "TOFU" "TOFU" = 100%Q.
Proof.
  apply (compare_formats_same Demo.ratio "12X454 G" "TOFU").
  - cbn. lia.
  - vm_compute. discriminate.
Defined.

Lemma py_max_compat (a a' b b' : Q) :
  (a == a')%Q -> (b == b')%Q -> (py_max a b == py_max a' b')%Q.
Proof.
  intros Ha Hb. unfold py_max. rewrite (Qcompare_comp a a' Ha b b' Hb).
  destruct (a' ?= b')%Q; assumption.
Qed.

Lemma py_min_compat (a a' b b' : Q) :
  (a == a')%Q -> (b == b')%Q -> (py_min a b == py_min a' b')%Q.
Proof.
  intros Ha Hb. unfold py_min. rewrite (Qcompare_comp a a' Ha b b' Hb).
  destruct (a' ?= b')%Q; assumption.
Qed.

Lemma py_max_comm (a b : Q) : (py_max a b == py_max b a)%Q.
Proof.
  destruct (py_max_cases a b) as [[-> H1]|[-> H1]];
    destruct (py_max_cases b a) as [[-> H2]|[-> H2]];
    try reflexivity.
  - now apply Qle_antisym.
  - exfalso. apply (Qlt_irrefl a). now apply Qlt_trans with b.
Qed.

Section Symmetry.

Variable ratio : string -> string -> Q.
Variable token_sort_ratio : string -> string -> Q.
Hypothesis ratio_sym : forall a b, ratio a b = ratio b a.
Hypothesis token_sort_ratio_sym : forall a b, token_sort_ratio a b = token_sort_ratio b a.

Lemma synonym_match_sym (table : list (string * list string)) (b1 b2 : string) :
  synonym_match table b1 b2 = synonym_match table b2 b1.
Proof.
  induction table as [|[canonical synonyms] rest IH]; [reflexivity|].
  cbn [synonym_match]. rewrite IH.
  destruct (member b1 synonyms), (member b2 synonyms),
    (String.eqb b1 canonical), (String.eqb b2 canonical); reflexivity.
Qed.

Lemma compare_brands_sym (brand1 brand2 : string) :
  compare_brands ratio brand1 brand2 = compare_brands ratio brand2 brand1.
Proof.
  unfold compare_brands.
  rewrite (String.eqb_sym (normalize_text brand1)), (ratio_sym (normalize_text brand1)),
    (synonym_match_sym _ (normalize_text brand1)).
  destruct (truthy (normalize_text brand1)), (truthy (normalize_text brand2));
    reflexivity.
Qed.

Lemma compare_formats_sym (format1 format2 name1 name2 : string) :
  (compare_formats ratio format1 format2 name1 name2
   == compare_formats ratio format2 format1 name2 name1)%Q.
Proof.
  unfold compare_formats.
  destruct (extract_format format1 name1) as [qty1 unit1].
  destruct (extract_format format2 name2) as [qty2 unit2].
  rewrite (orb_comm (Qeq_bool qty2 0)), (String.eqb_sym unit2),
    (ratio_sym (normalize_text format2)),
    (andb_comm (negb (truthy (normalize_text format2)))).
  destruct (Qeq_bool qty1 0 || Qeq_bool qty2 0); [reflexivity|].
  assert (Qabs (qty1 - qty2) / py_max qty1 qty2 * 100
          == Qabs (qty2 - qty1) / py_max qty2 qty1 * 100)%Q as Hd.
  { rewrite (Qabs_Qminus qty1 qty2), (py_max_comm qty1 qty2). reflexivity. }
  assert (py_max 0 (100 - Qabs (qty1 - qty2) / py_max qty1 qty2 * 100)
          == py_max 0 (100 - Qabs (qty2 - qty1) / py_max qty2 qty1 * 100))%Q as Hs
    by (apply py_max_compat; [reflexivity | now rewrite Hd]).
  destruct (String.eqb unit1 unit2); [|exact Hs].
  apply py_min_compat; [reflexivity | now rewrite Hs].
Qed.

(** X12. The similarity of two products does not depend on their order,
    when the two string ratios of rapidfuzz do not: the brand, product
    type and packaging scores are the same, the format score and the
    total are equal as numbers. *)
Theorem calculate_similarity_sym (product1 product2 : descriptor) :
  let s12 := calculate_similarity ratio token_sort_ratio product1 product2 in
  let s21 := calculate_similarity ratio token_sort_ratio product2 product1 in
  SimilarityScore.brand_score s12 = SimilarityScore.brand_score s21
  /\ SimilarityScore.product_type_score s12 = SimilarityScore.product_type_score s21
  /\ SimilarityScore.packaging_score s12 = SimilarityScore.packaging_score s21
  /\ (SimilarityScore.format_score s12 == SimilarityScore.format_score s21)%Q
  /\ (SimilarityScore.total_score s12 == SimilarityScore.total_score s21)%Q.
Proof.
  unfold calculate_similarity; cbn [SimilarityScore.brand_score
    SimilarityScore.product_type_score SimilarityScore.format_score
    SimilarityScore.packaging_score SimilarityScore.total_score].
  pose proof (compare_brands_sym (get product1 "brand") (get product2 "brand")) as Hb.
  pose proof (compare_formats_sym (get product1 "format") (get product2 "format")
                (get product1 "product_name") (get product2 "product_name")) as Hf.
  assert ((if negb (truthy (extract_product_type (get product1 "product_name")))
              && negb (truthy (extract_product_type (get product2 "product_name")))
           then 50%Q
           else token_sort_ratio (extract_product_type (get product1 "product_name"))
                  (extract_product_type (get product2 "product_name")))
          = (if negb (truthy (extract_product_type (get product2 "product_name")))
                && negb (truthy (extract_product_type (get product1 "product_name")))
             then 50%Q
             else token_sort_ratio (extract_product_type (get product2 "product_name"))
                    (extract_product_type (get product1 "product_name")))) as Ht
    by (rewrite andb_comm, token_sort_ratio_sym; reflexivity).
  set (p1 := extract_packaging (get product1 "packaging") (get product1 "product_name")).
  set (p2 := extract_packaging (get product2 "packaging") (get product2 "product_name")).
  assert ((if String.eqb p1 "unknown" && String.eqb p2 "unknown" then 50%Q
           else if String.eqb p1 p2 then 100%Q else ratio p1 p2)
          = (if String.eqb p2 "unknown" && String.eqb p1 "unknown" then 50%Q
             else if String.eqb p2 p1 then 100%Q else ratio p2 p1)) as Hp
    by (rewrite andb_comm, (String.eqb_sym p1 p2), ratio_sym; reflexivity).
  split; [exact Hb|]. split; [exact Ht|]. split; [exact Hp|]. split; [exact Hf|].
  rewrite Hb, Ht, Hp, Hf. reflexivity.
Qed.

End Symmetry.

Lemma calculate_similarity_sym_witness :
  let s12 := calculate_similarity Demo.ratio Demo.ratio Demo.search_vanille
               (target_product Demo.tofu_ferme) in
  let s21 := calculate_similarity Demo.ratio Demo.ratio
               (target_product Demo.tofu_ferme) Demo.search_vanille in
  SimilarityScore.brand_score s12 = SimilarityScore.brand_score s21
  /\ SimilarityScore.product_type_score s12 = SimilarityScore.product_type_score s21
  /\ SimilarityScore.packaging_score s12 = SimilarityScore.packaging_score s21
  /\ (SimilarityScore.format_score s12 == SimilarityScore.format_score s21)%Q
  /\ (SimilarityScore.total_score s12 == SimilarityScore.total_score s21)%Q.
Proof.
  apply (calculate_similarity_sym Demo.ratio Demo.ratio);
    intros a b; unfold Demo.ratio; now rewrite String.eqb_sym.
Defined.

(** ** The orchestrator as a whole *)

Section OrchestratorFacts.

Variable ratio : string -> string -> Q.
Variable token_sort_ratio : string -> string -> Q.

(** The three ways a call of [find_matches] ends. *)
Lemma find_matches_cases (product_info : descriptor)
    (source_supplier target_supplier : string)
    (min_similarity : Q) (max_results : Z) (w : World) :
  (exists supplier_code mapping events,
     product_info !! "supplier_code" = Some supplier_code
     /\ product_by_supplier_code supplier_code source_supplier (db w)
        = Some (None, mapping)
     /\ find_matches ratio token_sort_ratio product_info source_supplier
          target_supplier min_similarity max_results w
        = (Raise "AttributeError", logged w events)
     /\ no_cache_event events)
  \/ (exists supplier_code product mapping target_mapping events,
        product_info !! "supplier_code" = Some supplier_code
        /\ product_by_supplier_code supplier_code source_supplier (db w)
           = Some (Some product, mapping)
        /\ supplier_code_for_product (Product.id product) target_supplier (db w)
           = Some target_mapping
        /\ find_matches ratio token_sort_ratio product_info source_supplier
             target_supplier min_similarity max_results w
           = (Return [gtin_result product target_mapping], logged w events)
        /\ no_cache_event events)
  \/ (exists corrections fuzzies events,
        (forall supplier_code mapping,
           product_info !! "supplier_code" = Some supplier_code ->
           product_by_supplier_code supplier_code source_supplier (db w)
             <> Some (None, mapping))
        /\ find_matches ratio token_sort_ratio product_info source_supplier
             target_supplier min_similarity max_results w
           = (Return
                (slice_to max_results
                   (sort_desc MatchResult.similarity_score
                      (unique MatchResult.product_id (corrections ++ fuzzies)))),
              logged w events)
        /\ no_cache_event events
        /\ corrections
           = match product_info !! "supplier_code" with
             | Some supplier_code =>
                 flat_map (correction_candidates target_supplier (db w))
                   (user_corrections_for supplier_code source_supplier (db w))
             | None => []
             end
        /\ fuzzies
           = fuzzy_candidates ratio token_sort_ratio product_info target_supplier
               min_similarity max_results (db w)).
Proof.
  assert (forall w1,
            exact_strategy product_info source_supplier target_supplier w
              = (Return None, w1) ->
            exists corrections fuzzies events,
              find_matches ratio token_sort_ratio product_info source_supplier
                target_supplier min_similarity max_results w
              = (Return
                   (slice_to max_results
                      (sort_desc MatchResult.similarity_score
                         (unique MatchResult.product_id (corrections ++ fuzzies)))),
                 logged w events)
              /\ no_cache_event events
              /\ corrections
                 = match product_info !! "supplier_code" with
                   | Some supplier_code =>
                       flat_map (correction_candidates target_supplier (db w))
                         (user_corrections_for supplier_code source_supplier (db w))
                   | None => []
                   end
              /\ fuzzies
                 = fuzzy_candidates ratio token_sort_ratio product_info
                     target_supplier min_similarity max_results (db w)) as Hnone.
  { intros w1 Hexact.
    destruct (exact_strategy_db _ _ _ _ _ _ Hexact) as [ev1 [-> Hev1]].
    destruct (correction_strategy_run product_info source_supplier target_supplier
                (logged w ev1)) as [ev2 [Hcorr Hev2]].
    destruct (try_fuzzy_match_run ratio token_sort_ratio product_info target_supplier
                min_similarity max_results (logged (logged w ev1) ev2))
      as [ev3 [Hfuzzy Hev3]].
    eexists. eexists. exists (ev1 ++ ev2 ++ ev3)%list.
    split; [|split; [|split; reflexivity]].
    - unfold find_matches. unfold bind at 1. rewrite Hexact.
      unfold bind at 1. rewrite Hcorr. unfold bind at 1. rewrite Hfuzzy.
      unfold ret. rewrite !logged_app, app_assoc. reflexivity.
    - unfold no_cache_event in *. rewrite !Forall_app. tauto. }
  destruct (product_info !! "supplier_code") as [code|] eqn:Ecode.
  - destruct (product_by_supplier_code code source_supplier (db w))
      as [[[product|] mapping]|] eqn:Esrc.
    + destruct (supplier_code_for_product (Product.id product) target_supplier (db w))
        as [tm|] eqn:Etgt.
      * right. left. exists code, product, mapping, tm. eexists.
        split; [reflexivity|]. split; [exact Esrc|]. split; [exact Etgt|].
        split; [|shelve].
        unfold find_matches, exact_strategy. rewrite Ecode.
        unfold bind at 1. rewrite try_gtin_match_run, Esrc, Etgt. reflexivity.
      * right. right.
        destruct (Hnone (logged w [FindProductBySupplierCode code source_supplier;
                     GetSupplierCodeForProduct (Product.id product) target_supplier]))
          as [c [f [ev H]]].
        { unfold exact_strategy. rewrite Ecode, try_gtin_match_run, Esrc, Etgt.
          reflexivity. }
        exists c, f, ev. split; [|exact H].
        intros code' mapping' [= <-]. rewrite Esrc. discriminate.
    + left. exists code, mapping. eexists.
      split; [reflexivity|]. split; [exact Esrc|]. split; [|shelve].
      unfold find_matches, exact_strategy. rewrite Ecode.
      unfold bind at 1. rewrite try_gtin_match_run, Esrc. reflexivity.
    + right. right.
      destruct (Hnone (logged w [FindProductBySupplierCode code source_supplier]))
        as [c [f [ev H]]].
      { unfold exact_strategy. rewrite Ecode, try_gtin_match_run, Esrc. reflexivity. }
      exists c, f, ev. split; [|exact H].
      intros code' mapping' [= <-]. rewrite Esrc. discriminate.
  - right. right. destruct (Hnone w) as [c [f [ev H]]].
    { unfold exact_strategy. now rewrite Ecode. }
    exists c, f, ev. split; [|exact H]. intros code' mapping' Hc. discriminate Hc.
  Unshelve. all: repeat constructor.
Qed.

(** X13. A call of [find_matches] never changes the database or the clock
    and never reads or writes the result cache: it ends in the world it
    started in, with its look-ups added to the log. *)
Theorem find_matches_read_only (product_info : descriptor)
    (source_supplier target_supplier : string)
    (min_similarity : Q) (max_results : Z) (w : World) :
  exists outcome events,
    find_matches ratio token_sort_ratio product_info source_supplier target_supplier
      min_similarity max_results w = (outcome, logged w events)
    /\ no_cache_event events.
Proof.
  destruct (find_matches_cases product_info source_supplier target_supplier
              min_similarity max_results w)
    as [[c [m [ev [_ [_ [H Hev]]]]]]
       |[[c [p [m [tm [ev [_ [_ [_ [H Hev]]]]]]]]]
        |[c [f [ev [_ [H [Hev _]]]]]]]];
    rewrite H; eauto.
Qed.


Lemma supplier_code_for_product_listed (product_id : Z) (supplier : string)
    (d : Database) (mapping : SupplierCode.t) :
  supplier_code_for_product product_id supplier d = Some mapping ->
  exists supplier_obj,
    supplier_by_code supplier d = Some supplier_obj
    /\ In mapping (supplier_codes d)
    /\ SupplierCode.active mapping = true
    /\ SupplierCode.supplier_id mapping = Supplier.id supplier_obj
    /\ SupplierCode.product_id mapping = product_id.
Proof.
  unfold supplier_code_for_product, mapping_by_product.
  destruct (supplier_by_code supplier d) as [s|]; [|discriminate].
  intros H. apply find_some in H. destruct H as [Hin H].
  apply andb_prop in H. destruct H as [H Ha].
  apply andb_prop in H. destruct H as [Hp Hs].
  apply Z.eqb_eq in Hp. apply Z.eqb_eq in Hs. exists s. auto.
Qed.

Lemma product_by_id_In (id : Z) (d : Database) (p : Product.t) :
  product_by_id id d = Some p -> In p (products d) /\ Product.id p = id.
Proof.
  unfold product_by_id. intros H. apply find_some in H.
  destruct H as [Hin H]. apply Z.eqb_eq in H. auto.
Qed.

Lemma gtin_result_listed (code source_supplier target_supplier : string)
    (d : Database) (product : Product.t) (mapping target_mapping : SupplierCode.t) :
  product_by_supplier_code code source_supplier d = Some (Some product, mapping) ->
  supplier_code_for_product (Product.id product) target_supplier d
    = Some target_mapping ->
  listed_at d target_supplier (gtin_result product target_mapping).
Proof.
  intros Hs Ht. unfold product_by_supplier_code in Hs.
  destruct (supplier_by_code source_supplier d) as [s|]; [|discriminate].
  destruct (mapping_by_code (Supplier.id s) code d) as [m|]; [|discriminate].
  injection Hs as Hp _. apply product_by_id_In in Hp.
  apply supplier_code_for_product_listed in Ht.
  destruct Ht as [so [H1 [H2 [H3 [H4 H5]]]]].
  exists so, target_mapping. repeat split; try assumption. tauto.
Qed.

Lemma correction_candidates_listed (target_supplier : string) (d : Database)
    (cs : list UserCorrection.t) (r : MatchResult.t) :
  In r (flat_map (correction_candidates target_supplier d) cs) ->
  listed_at d target_supplier r
  /\ MatchResult.match_type r = user_correction
  /\ MatchResult.similarity_score r = 95%Q.
Proof.
  intros H. apply correction_candidates_spec in H.
  destruct H as [p [tm [Hp [Ht ->]]]]. split; [|split; reflexivity].
  apply product_by_id_In in Hp.
  apply supplier_code_for_product_listed in Ht.
  destruct Ht as [so [H1 [H2 [H3 [H4 H5]]]]].
  exists so, tm. repeat split; try assumption. tauto.
Qed.

Lemma fuzzy_candidates_listed (product_info : descriptor) (target_supplier : string)
    (min_similarity : Q) (max_results : Z) (d : Database) (r : MatchResult.t) :
  In r (fuzzy_candidates ratio token_sort_ratio product_info target_supplier
          min_similarity max_results d) ->
  listed_at d target_supplier r.
Proof.
  unfold fuzzy_candidates.
  destruct (supplier_by_code target_supplier d) as [s|] eqn:Es; [|intros []].
  intros H. apply slice_to_In in H.
  apply (Permutation_in _ (sort_desc_Permutation _ _)) in H.
  apply in_flat_map in H. destruct H as [[p m] [Hrow H]].
  apply take_In in Hrow. unfold active_listings in Hrow.
  apply in_flat_map in Hrow. destruct Hrow as [p' [Hp' Hrow]].
  apply in_map_iff in Hrow. destruct Hrow as [m' [[= <- <-] Hm]].
  apply filter_In in Hm. destruct Hm as [Hin Hm].
  apply andb_prop in Hm. destruct Hm as [Hm Ha].
  apply andb_prop in Hm. destruct Hm as [Hpid Hsid].
  apply Z.eqb_eq in Hpid. apply Z.eqb_eq in Hsid.
  unfold fuzzy_result in H. destruct (Qle_bool _ _); [|destruct H].
  destruct H as [<-|[]]. exists s, m'. repeat split; assumption.
Qed.


Lemma merged_In (max_results : Z) (corrections fuzzies : list MatchResult.t)
    (r : MatchResult.t) :
  In r (slice_to max_results
          (sort_desc MatchResult.similarity_score
             (unique MatchResult.product_id (corrections ++ fuzzies)))) ->
  In r corrections \/ In r fuzzies.
Proof.
  intros H. apply slice_to_In in H.
  apply (Permutation_in _ (sort_desc_Permutation _ _)) in H.
  apply unique_from_In in H. destruct H as [H _]. now apply in_app_or in H.
Qed.

(** X15. Every candidate [find_matches] returns, of whatever kind, is a
    product of the catalogue and carries the code and the price of a
    listing of that product that is active at the target supplier. *)
Theorem find_matches_listed (product_info : descriptor)
    (source_supplier target_supplier : string)
    (min_similarity : Q) (max_results : Z) (w : World) (r : MatchResult.t) :
  In r (results_of (find_matches ratio token_sort_ratio product_info source_supplier
                      target_supplier min_similarity max_results w)) ->
  listed_at (db w) target_supplier r.
Proof.
  unfold results_of.
  destruct (find_matches_cases product_info source_supplier target_supplier
              min_similarity max_results w)
    as [[c [m [ev [_ [_ [H _]]]]]]
       |[[c [p [m [tm [ev [_ [Hs [Ht [H _]]]]]]]]]
        |[c [f [ev [_ [H [_ [Hc Hf]]]]]]]]];
    rewrite H; cbn [fst].
  - intros [].
  - intros [<-|[]]. exact (gtin_result_listed _ _ _ _ _ _ _ Hs Ht).
  - intros Hr. apply merged_In in Hr. destruct Hr as [Hr|Hr].
    + subst c. destruct (product_info !! "supplier_code"); [|destruct Hr].
      now apply correction_candidates_listed in Hr.
    + subst f. now apply fuzzy_candidates_listed in Hr.
Qed.

(** X16. Every candidate [find_matches] returns is an exact match of score
    100, and then the only candidate of the list, or a user correction of
    score 95, or a fuzzy match whose score reaches [min_similarity]. *)
Theorem find_matches_kinds (product_info : descriptor)
    (source_supplier target_supplier : string)
    (min_similarity : Q) (max_results : Z) (w : World) (r : MatchResult.t) :
  let results :=
    results_of (find_matches ratio token_sort_ratio product_info source_supplier
                  target_supplier min_similarity max_results w) in
  In r results ->
  (MatchResult.match_type r = gtin /\ MatchResult.similarity_score r = 100%Q
   /\ results = [r])
  \/ (MatchResult.match_type r = user_correction
      /\ MatchResult.similarity_score r = 95%Q)
  \/ (MatchResult.match_type r = fuzzy
      /\ (min_similarity <= MatchResult.similarity_score r)%Q).
Proof.
  unfold results_of.
  destruct (find_matches_cases product_info source_supplier target_supplier
              min_similarity max_results w)
    as [[c [m [ev [_ [_ [H _]]]]]]
       |[[c [p [m [tm [ev [_ [Hs [Ht [H _]]]]]]]]]
        |[c [f [ev [_ [H [_ [Hc Hf]]]]]]]]];
    rewrite H; cbn [fst].
  - intros [].
  - intros [<-|[]]. left. repeat split.
  - intros Hr. apply merged_In in Hr. destruct Hr as [Hr|Hr].
    + right. left. subst c. destruct (product_info !! "supplier_code"); [|destruct Hr].
      apply correction_candidates_listed in Hr. tauto.
    + right. right. subst f. now apply fuzzy_candidates_spec in Hr.
Qed.


End OrchestratorFacts.

Lemma find_matches_listed_witness :
  listed_at (db Demo.world) "colabor"
    (gtin_result Demo.yogourt_vanille
       (SupplierCode.mk 2 2 1 "C-100" (Some (25 # 2)) true)).
Proof.
  apply (find_matches_listed Demo.ratio Demo.ratio Demo.line_325141 "dube_loiselle"
           "colabor" 60 3 Demo.world).
  vm_compute. left. reflexivity.
Defined.

Lemma find_matches_kinds_witness :
  let r := correction_result Demo.tofu_ferme
             (SupplierCode.mk 4 2 3 "C-300" (Some 4%Q) true) in
  let results :=
    results_of (find_matches Demo.ratio Demo.ratio Demo.line_777 "dube_loiselle"
                  "colabor" 60 3 Demo.world) in
  (MatchResult.match_type r = gtin /\ MatchResult.similarity_score r = 100%Q
   /\ results = [r])
  \/ (MatchResult.match_type r = user_correction
      /\ MatchResult.similarity_score r = 95%Q)
  \/ (MatchResult.match_type r = fuzzy
      /\ (60 <= MatchResult.similarity_score r)%Q).
Proof.
  apply (find_matches_kinds Demo.ratio Demo.ratio Demo.line_777 "dube_loiselle"
           "colabor" 60 3 Demo.world).
  vm_compute. right. left. reflexivity.
Defined.


(** ** GTINMatcher *)

(** X18. [GTINMatcher.find_cross_supplier_match] and the exact strategy of
    the orchestrator agree on every database: they make the same calls,
    raise on the same listings, find a match together, and the candidate
    of the orchestrator is built from the pair the matcher returns. *)
Theorem find_cross_supplier_match_agrees
    (supplier_code source_supplier target_supplier : string) (w : World) :
  _try_gtin_match supplier_code source_supplier target_supplier w
  = (as_gtin_match
       (fst (find_cross_supplier_match supplier_code source_supplier
               target_supplier w)),
     snd (find_cross_supplier_match supplier_code source_supplier target_supplier w)).
Proof.
  rewrite try_gtin_match_run.
  unfold find_cross_supplier_match, find_by_supplier_code, bind.
  rewrite find_product_by_supplier_code_run.
  destruct (product_by_supplier_code _ _ _) as [[[product|] mapping]|]; try reflexivity.
  rewrite get_supplier_code_for_product_run.
  change (db (logged w _)) with (db w).
  destruct (supplier_code_for_product _ _ _); unfold ret; rewrite logged_app;
    reflexivity.
Qed.

(** ** The result cache *)

Section CacheFacts.

Variable ratio : string -> string -> Q.
Variable token_sort_ratio : string -> string -> Q.
Variable md5_hexdigest : string -> string.

Lemma cache_by_hash_appended (h : string) (d : Database) (row : MatchingCache.t) :
  cache_by_hash h d = None ->
  MatchingCache.search_hash row = h ->
  cache_by_hash h (set_cache (matching_cache d ++ [row]) d) = Some row.
Proof.
  unfold cache_by_hash. intros Hnone Hrow. cbn [matching_cache set_cache].
  rewrite find_app_fresh; [cbn; now rewrite Hrow, String.eqb_refl|].
  intros x Hx. exact (find_none _ _ Hnone x Hx).
Qed.

(** X19. Insert and look up: when the cache has no entry for a text and
    the product exists, [cache_match] followed by [get_cached_match]
    returns that product with the score stored, also for a text that
    differs from the first in the case of its letters only. *)
Theorem cache_match_then_get (search_text other_text method : string)
    (product_id : Z) (similarity_score : Q) (w : World) (product : Product.t) :
  cache_by_hash (md5_hexdigest (lower search_text)) (db w) = None ->
  product_by_id product_id (db w) = Some product ->
  lower other_text = lower search_text ->
  fst (get_cached_match md5_hexdigest other_text
         (snd (cache_match md5_hexdigest search_text product_id similarity_score
                 method w)))
  = Return (Some (product, similarity_score)).
Proof.
  intros Hnone Hp Hcase.
  unfold cache_match, get_cached_match, bind, emit, utcnow, write, read.
  cbn [fst snd db clock log]. f_equal.
  unfold cached_match, cache_written. rewrite Hcase, Hnone.
  rewrite cache_by_hash_appended; [|exact Hnone | reflexivity].
  cbn [MatchingCache.matched_product_id MatchingCache.similarity_score].
  change (product_by_id product_id (set_cache _ (db w)))
    with (product_by_id product_id (db w)).
  now rewrite Hp.
Qed.

End CacheFacts.

Lemma cache_match_then_get_witness :
  fst (get_cached_match Demo.md5_hexdigest "yogourt VANILLE iogo"
         (snd (cache_match Demo.md5_hexdigest "Yogourt Vanille IOGO" 1 (90 # 1)
                 "fuzzy_name" Demo.world)))
  = Return (Some (Demo.yogourt_vanille, 90 # 1)).
Proof.
  apply (cache_match_then_get Demo.md5_hexdigest "Yogourt Vanille IOGO"
           "yogourt VANILLE iogo" "fuzzy_name" 1 (90 # 1) Demo.world
           Demo.yogourt_vanille); reflexivity.
Defined.

(** ** The standalone fuzzy search as a whole *)

Section SearchFacts.

Variable ratio : string -> string -> Q.
Variable token_sort_ratio : string -> string -> Q.
Variable md5_hexdigest : string -> string.

(** The database a scanning search leaves: the cache is written for a
    best candidate of score 85 or more and no target supplier. *)
Lemma search_scan_run_exact (search_product : descriptor)
    (target_supplier : option string)
    (min_similarity : Q) (max_results : Z) (category : option string) (w : World) :
  (target_supplier = None ->
   cached_match md5_hexdigest (search_text_of search_product) (db w) = None) ->
  let results :=
    scanned_candidates ratio token_sort_ratio search_product target_supplier
      min_similarity max_results category (db w) in
  exists events,
    search_similar_products ratio token_sort_ratio md5_hexdigest search_product
      target_supplier min_similarity max_results category w
    = (Return results,
       mkWorld
         (match results with
          | best :: _ =>
              if Qle_bool 85 (FuzzyMatchResult.similarity_score best)
                 && is_none target_supplier
              then cache_written md5_hexdigest (search_text_of search_product)
                     (Product.id (FuzzyMatchResult.product best))
                     (FuzzyMatchResult.similarity_score best) "fuzzy_name"
                     (clock w) (db w)
              else db w
          | [] => db w
          end)
         (clock w)
         (log w ++ GetCachedMatch (search_text_of search_product) :: events))
    /\ (is_none target_supplier = false -> no_cache_event events).
Proof.
  intros Hmiss results. unfold search_similar_products, get_cached_match.
  unfold bind at 1. unfold bind at 1. unfold emit at 1, read at 1. cbn [db].
  set (text := search_text_of search_product) in *.
  set (w0 := mkWorld (db w) (clock w) (log w ++ [GetCachedMatch text])).
  set (scan := bind _ _).
  assert (match cached_match md5_hexdigest text (db w), target_supplier with
          | Some (product, score), None =>
              ret [FuzzyMatchResult.mk product score
                     (calculate_similarity ratio token_sort_ratio search_product
                        (target_product product)) None None]
          | _, _ => scan
          end w0 = scan w0) as ->.
  { destruct (cached_match md5_hexdigest text (db w)) as [[p sc]|] eqn:E;
      destruct target_supplier; try reflexivity.
    specialize (Hmiss eq_refl). congruence. }
  subst scan. subst results. unfold scanned_candidates, scanned_products.
  set (supplier := if truthy_opt target_supplier
                   then supplier_by_code (or_empty target_supplier) (db w) else None).
  assert (exists ev1,
            (if truthy_opt target_supplier
             then emit (QuerySupplier (or_empty target_supplier)) ;;
                  read (supplier_by_code (or_empty target_supplier))
             else ret None) w0 = (Return supplier, logged w0 ev1)
            /\ no_cache_event ev1) as [ev1 [Hsup Hev1]].
  { subst supplier. destruct (truthy_opt target_supplier).
    - eexists. split; [reflexivity | repeat constructor].
    - exists []. rewrite logged_nil. split; [reflexivity | constructor]. }
  unfold bind at 1. rewrite Hsup.
  unfold bind at 1. unfold emit at 1. unfold bind at 1. unfold read at 1. cbn [db].
  change (db (logged w0 ev1)) with (db w).
  set (ps := candidate_products category (option_map Supplier.id supplier) (db w)).
  set (w1 := mkWorld _ _ _).
  destruct (scan_loop_run ratio token_sort_ratio search_product target_supplier
              min_similarity ps w1) as [ev2 [Hloop Hev2]].
  unfold bind at 1. rewrite Hloop. change (db w1) with (db w).
  set (results := slice_to max_results _).
  set (w2 := logged w1 ev2).
  assert (log w2 = (log w ++ GetCachedMatch text :: ev1 ++ ScanCandidates :: ev2)%list)
    as Hlog.
  { subst w2 w1 w0. unfold logged. cbn [log db clock].
    rewrite <- !app_assoc. reflexivity. }
  unfold bind at 1.
  destruct results as [|best rest].
  - exists (ev1 ++ ScanCandidates :: ev2)%list. unfold ret. split.
    + f_equal. subst w2. unfold logged in *. cbn [log db clock] in *.
      now rewrite Hlog.
    + intros _. unfold no_cache_event in *. rewrite Forall_app. split; [exact Hev1|].
      constructor; [reflexivity | exact Hev2].
  - destruct (Qle_bool 85 (FuzzyMatchResult.similarity_score best)
              && is_none target_supplier) eqn:Ewrite.
    + exists (ev1 ++ ScanCandidates :: ev2
              ++ [CacheMatch text (Product.id (FuzzyMatchResult.product best))
                    (FuzzyMatchResult.similarity_score best)])%list.
      split.
      * unfold cache_match, bind, emit, utcnow, write, ret.
        cbn [db clock log]. f_equal. f_equal.
        change (log (logged w1 ev2)) with (log w2). rewrite Hlog.
        repeat (rewrite <- app_assoc || rewrite <- app_comm_cons). reflexivity.
      * intros Hn. apply andb_prop in Ewrite. destruct Ewrite as [_ E]. congruence.
    + exists (ev1 ++ ScanCandidates :: ev2)%list. unfold ret. split.
      * f_equal. subst w2. unfold logged in *. cbn [log db clock] in *.
        now rewrite Hlog.
      * intros _. unfold no_cache_event in *. rewrite Forall_app.
        split; [exact Hev1|]. constructor; [reflexivity | exact Hev2].
Qed.

(** X20. Whatever a fuzzy search ends in, its first call is the read of
    the cache for its text, and it leaves the clock and every table but
    the cache as they were; the scores of a list it returns do not
    increase along the list. *)
Theorem search_similar_products_frame (search_product : descriptor)
    (target_supplier : option string)
    (min_similarity : Q) (max_results : Z) (category : option string) (w w' : World)
    (outcome : Result (list FuzzyMatchResult.t)) :
  search_similar_products ratio token_sort_ratio md5_hexdigest search_product
    target_supplier min_similarity max_results category w = (outcome, w') ->
  clock w' = clock w
  /\ same_catalogue (db w') (db w)
  /\ (exists events,
        log w' = (log w ++ GetCachedMatch (search_text_of search_product) :: events)%list)
  /\ (forall results, outcome = Return results ->
        sorted_desc FuzzyMatchResult.similarity_score results).
Proof.
  assert (exists results d' events,
            search_similar_products ratio token_sort_ratio md5_hexdigest
              search_product target_supplier min_similarity max_results category w
            = (Return results,
               mkWorld d' (clock w)
                 (log w ++ GetCachedMatch (search_text_of search_product) :: events))
            /\ sorted_desc FuzzyMatchResult.similarity_score results
            /\ same_catalogue d' (db w)) as [results [d' [events [Hrun [Hs Hc]]]]].
  { destruct (cached_match md5_hexdigest (search_text_of search_product) (db w))
      as [[p sc]|] eqn:E; [destruct target_supplier as [t|]|].
    - destruct (search_scan_run ratio token_sort_ratio md5_hexdigest search_product
                  (Some t) min_similarity max_results category w)
        as [events [d' [Hrun [_ Hsame]]]]; [discriminate|].
      eexists. exists d', events. split; [exact Hrun|]. split; [|exact Hsame].
      apply slice_to_sorted, sort_desc_sorted.
    - eexists. exists (db w), [].
      rewrite (search_hit_run ratio token_sort_ratio md5_hexdigest _ _ _ _ _ _ _ E).
      split; [reflexivity|]. split; [exact I | apply same_catalogue_refl].
    - destruct (search_scan_run ratio token_sort_ratio md5_hexdigest search_product
                  target_supplier min_similarity max_results category w)
        as [events [d' [Hrun [_ Hsame]]]]; [auto|].
      eexists. exists d', events. split; [exact Hrun|]. split; [|exact Hsame].
      apply slice_to_sorted, sort_desc_sorted. }
  rewrite Hrun. intros [= <- <-]. cbn [clock db log].
  split; [reflexivity|]. split; [exact Hc|]. split; [eauto|].
  intros r [= <-]. exact Hs.
Qed.

(** X21. With a target supplier, [find_alternatives] never answers from
    the cache and never writes it. A list it returns is the result of the
    scan of the products of the catalogue, the same whatever rows the
    cache holds; the call reads the cache once, at its start, and leaves
    the database as it was; so the list has at most five candidates,
    every score reaches [min_similarity], and scores do not increase along
    the list. *)
Theorem find_alternatives_with_target (product_name : string)
    (brand format : option string) (target_supplier : string)
    (min_similarity : Q) (w w' : World) (results : list FuzzyMatchResult.t) :
  find_alternatives ratio token_sort_ratio md5_hexdigest product_name brand format
    (Some target_supplier) min_similarity w = (Return results, w') ->
  let search_product : descriptor :=
    {[ "product_name" := product_name; "brand" := or_empty brand;
       "format" := or_empty format; "packaging" := "" ]} in
  results = scanned_candidates ratio token_sort_ratio search_product
              (Some target_supplier) min_similarity 5 None (db w)
  /\ (forall rows,
        scanned_candidates ratio token_sort_ratio search_product
          (Some target_supplier) min_similarity 5 None (set_cache rows (db w))
        = scanned_candidates ratio token_sort_ratio search_product
            (Some target_supplier) min_similarity 5 None (db w))
  /\ (exists events,
        w' = logged w (GetCachedMatch (search_text_of search_product) :: events)
        /\ no_cache_event events)
  /\ (length results <= 5)%nat
  /\ threshold_respected min_similarity results
  /\ sorted_desc FuzzyMatchResult.similarity_score results.
Proof.
  unfold find_alternatives. cbv zeta.
  set (sp := ({[ "product_name" := product_name; "brand" := or_empty brand;
                 "format" := or_empty format; "packaging" := "" ]} : descriptor)).
  destruct (search_scan_run_exact sp (Some target_supplier) min_similarity 5 None w)
    as [events [Hrun Hev]]; [discriminate|].
  rewrite Hrun. clear Hrun.
  set (scan := scanned_candidates _ _ _ _ _ _ _ _) in *.
  intros [= <- <-].
  split; [reflexivity|]. split; [reflexivity|]. split; [|split; [|split]].
  - exists events. split; [|exact (Hev eq_refl)].
    unfold logged. destruct scan as [|best rest]; [reflexivity|].
    now rewrite andb_false_r.
  - pose proof (slice_to_length 5
                  (sort_desc FuzzyMatchResult.similarity_score
                     (flat_map
                        (similar_candidates ratio token_sort_ratio sp
                           (Some target_supplier) min_similarity (db w))
                        (scanned_products (Some target_supplier) None (db w)))))
      as Hlen.
    subst scan. unfold scanned_candidates. lia.
  - apply Forall_forall. intros r Hr. apply list_elem_of_In in Hr.
    now apply scanned_candidates_spec in Hr.
  - apply slice_to_sorted, sort_desc_sorted.
Qed.

Lemma find_exists {A : Type} (f : A -> bool) (l : list A) (x : A) :
  In x l -> f x = true -> exists y, List.find f l = Some y.
Proof.
  intros Hin Hx. destruct (List.find f l) as [y|] eqn:E; [eauto|].
  pose proof (find_none _ _ E x Hin). congruence.
Qed.

(** X22. Write then hit: when a search without target supplier finds no
    entry for its text and its best candidate scores 85 or more, the
    same search run again, with whatever threshold, limit and category,
    is answered from the cache: it returns one candidate, the product of
    the id of that best candidate with the score it had. *)
Theorem search_then_cache_hit (search_product : descriptor)
    (min_similarity min_similarity' : Q) (max_results max_results' : Z)
    (category category' : option string) (w : World)
    (best : FuzzyMatchResult.t) (rest : list FuzzyMatchResult.t) :
  cache_by_hash (md5_hexdigest (lower (search_text_of search_product))) (db w) = None ->
  scanned_candidates ratio token_sort_ratio search_product None min_similarity
    max_results category (db w) = best :: rest ->
  (85 <= FuzzyMatchResult.similarity_score best)%Q ->
  exists product,
    product_by_id (Product.id (FuzzyMatchResult.product best)) (db w) = Some product
    /\ fst (search_similar_products ratio token_sort_ratio md5_hexdigest
              search_product None min_similarity' max_results' category'
              (snd (search_similar_products ratio token_sort_ratio md5_hexdigest
                      search_product None min_similarity max_results category w)))
       = Return [FuzzyMatchResult.mk product
                   (FuzzyMatchResult.similarity_score best)
                   (calculate_similarity ratio token_sort_ratio search_product
                      (target_product product)) None None].
Proof.
  intros Hnone Hscan Hbest.
  assert (cached_match md5_hexdigest (search_text_of search_product) (db w) = None)
    as Hmiss by (unfold cached_match; now rewrite Hnone).
  destruct (search_scan_run_exact search_product None min_similarity max_results
              category w (fun _ => Hmiss)) as [events [Hrun _]].
  rewrite Hscan in Hrun. apply Qle_bool_iff in Hbest. rewrite Hbest in Hrun.
  cbn [andb is_none] in Hrun.
  assert (In (FuzzyMatchResult.product best) (products (db w))) as Hin.
  { assert (In best (scanned_candidates ratio token_sort_ratio search_product None
                       min_similarity max_results category (db w))) as Hb
      by (rewrite Hscan; now left).
    apply scanned_candidates_spec in Hb. destruct Hb as [Hb _].
    now apply candidate_products_In in Hb. }
  destruct (find_exists (fun p => Product.id p =? Product.id (FuzzyMatchResult.product best))
              _ _ Hin (Z.eqb_refl _)) as [product Hp].
  exists product. split; [exact Hp|].
  rewrite Hrun. cbn [snd].
  rewrite (search_hit_run ratio token_sort_ratio md5_hexdigest search_product
             min_similarity' max_results' category' _ product
             (FuzzyMatchResult.similarity_score best)); [reflexivity|].
  cbn [db]. unfold cached_match, cache_written. rewrite Hnone.
  rewrite cache_by_hash_appended; [|exact Hnone | reflexivity].
  cbn [MatchingCache.matched_product_id MatchingCache.similarity_score].
  change (product_by_id ?i (set_cache _ (db w))) with (product_by_id i (db w)).
  unfold product_by_id. now rewrite Hp.
Qed.

End SearchFacts.

Lemma search_similar_products_frame_witness :
  let run :=
    search_similar_products Demo.ratio Demo.ratio Demo.md5_hexdigest
      Demo.search_vanille None 50 5 None Demo.world in
  same_catalogue (db (snd run)) (db Demo.world).
Proof.
  intros run.
  apply (search_similar_products_frame Demo.ratio Demo.ratio Demo.md5_hexdigest
           Demo.search_vanille None 50 5 None Demo.world (snd run) (fst run)).
  apply surjective_pairing.
Defined.

Lemma find_alternatives_with_target_witness :
  let cached_world :=
    snd (search_similar_products Demo.ratio Demo.ratio Demo.md5_hexdigest
           Demo.search_vanille None 50 5 None Demo.world) in
  let run :=
    find_alternatives Demo.ratio Demo.ratio Demo.md5_hexdigest "YOGOURT VANILLE IOGO"
      (Some "IOGO") (Some "4X2 KG") (Some "colabor") 60 cached_world in
  match fst run with
  | Return results => (length results <= 5)%nat
  | Raise _ => False
  end.
Proof.
  intros cached_world run.
  assert (exists results, fst run = Return results) as [results Hresults]
    by (vm_compute; eexists; reflexivity).
  rewrite Hresults.
  apply (find_alternatives_with_target Demo.ratio Demo.ratio Demo.md5_hexdigest
           "YOGOURT VANILLE IOGO" (Some "IOGO") (Some "4X2 KG") "colabor" 60
           cached_world (snd run) results).
  rewrite <- Hresults. apply surjective_pairing.
Defined.

Lemma search_then_cache_hit_witness :
  exists product,
    product_by_id 1 (db Demo.world) = Some product
    /\ fst (search_similar_products Demo.ratio Demo.ratio Demo.md5_hexdigest
              Demo.search_vanille None 99 0 (Some "dairy")
              (snd (search_similar_products Demo.ratio Demo.ratio Demo.md5_hexdigest
                      Demo.search_vanille None 50 5 None Demo.world)))
       = Return [FuzzyMatchResult.mk product (9500000000 # 100000000)
                   (calculate_similarity Demo.ratio Demo.ratio Demo.search_vanille
                      (target_product product)) None None].
Proof.
  assert (exists best rest,
            scanned_candidates Demo.ratio Demo.ratio Demo.search_vanille None 50 5
              None (db Demo.world) = best :: rest
            /\ FuzzyMatchResult.product best = Demo.yogourt_vanille
            /\ FuzzyMatchResult.similarity_score best = 9500000000 # 100000000)
    as [best [rest [Hscan [Hproduct Hscore]]]]
    by (vm_compute; eexists; eexists; repeat split).
  rewrite <- Hscore.
  change 1 with (Product.id Demo.yogourt_vanille). rewrite <- Hproduct.
  apply (search_then_cache_hit Demo.ratio Demo.ratio Demo.md5_hexdigest
           Demo.search_vanille 50 99 5 0 None (Some "dairy") Demo.world best rest);
    [reflexivity | exact Hscan | rewrite Hscore; vm_compute; discriminate].
Defined.

(** ** The comparison engine *)

(** X23. The result of comparing one item has the status no_match exactly
    when the matcher returned no candidate; otherwise its best match is
    the first candidate, its status is exact_match exactly for a gtin
    candidate and else fuzzy_match or low_confidence by the score 80, and
    the three price figures are computed together, exactly when both
    prices are positive. *)
Theorem comparison_result_status (item : InvoiceItem.t)
    (source_product : option Product.t) (matches : list MatchResult.t) :
  let result := ComparisonResult.new item source_product matches in
  ComparisonResult.matches result = matches
  /\ ComparisonResult.original_item result = item
  /\ ComparisonResult.best_match result = head matches
  /\ (ComparisonResult.match_status result = MatchStatus.NO_MATCH <-> matches = [])
  /\ (forall best rest, matches = best :: rest ->
        (ComparisonResult.match_status result = MatchStatus.EXACT_MATCH
         <-> MatchResult.match_type best = gtin)
        /\ (ComparisonResult.match_status result = MatchStatus.FUZZY_MATCH
            <-> MatchResult.match_type best <> gtin
                /\ (80 <= MatchResult.similarity_score best)%Q)
        /\ (ComparisonResult.match_status result = MatchStatus.LOW_CONFIDENCE
            <-> MatchResult.match_type best <> gtin
                /\ (MatchResult.similarity_score best < 80)%Q)
        /\ (is_Some (ComparisonResult.price_difference result)
            <-> exists target_price,
                  MatchResult.price best = Some target_price
                  /\ (0 < target_price)%Q /\ (0 < InvoiceItem.price item)%Q))
  /\ (is_Some (ComparisonResult.price_difference result)
      <-> is_Some (ComparisonResult.savings_amount result))
  /\ (is_Some (ComparisonResult.price_difference result)
      <-> is_Some (ComparisonResult.savings_percent result)).
Proof.
  assert (forall a, Qpositive a = true <-> (0 < a)%Q) as Hpos.
  { intros a. unfold Qpositive. rewrite negb_true_iff. split.
    - intros H. apply Qnot_le_lt. intros Hle. apply Qle_bool_iff in Hle. congruence.
    - intros H. destruct (Qle_bool a 0) eqn:E; [|reflexivity].
      apply Qle_bool_iff in E. exfalso. exact (Qlt_not_le _ _ H E). }
  intros result. subst result.
  destruct matches as [|best rest].
  { cbn. repeat split; try (intros _; reflexivity); try discriminate;
      try (intros [x Hx]; discriminate Hx). }
  assert (forall pd sa sp,
            let result := ComparisonResult.mk item source_product (best :: rest)
                            (Some best) pd sa sp (ComparisonResult.status_of best) in
            (ComparisonResult.match_status result = MatchStatus.NO_MATCH
             <-> best :: rest = [])
            /\ (ComparisonResult.match_status result = MatchStatus.EXACT_MATCH
                <-> MatchResult.match_type best = gtin)
            /\ (ComparisonResult.match_status result = MatchStatus.FUZZY_MATCH
                <-> MatchResult.match_type best <> gtin
                    /\ (80 <= MatchResult.similarity_score best)%Q)
            /\ (ComparisonResult.match_status result = MatchStatus.LOW_CONFIDENCE
                <-> MatchResult.match_type best <> gtin
                    /\ (MatchResult.similarity_score best < 80)%Q)) as Hstatus.
  { intros pd sa sp. cbn. unfold ComparisonResult.status_of.
    destruct (MatchResult.match_type best);
      [repeat split; try discriminate; try reflexivity;
       try (intros [H _]; congruence) | |];
      (destruct (Qle_bool 80 (MatchResult.similarity_score best)) eqn:E;
       [apply Qle_bool_iff in E
       |assert (MatchResult.similarity_score best < 80)%Q as E'
          by (apply Qnot_le_lt; intros Hle; apply Qle_bool_iff in Hle; congruence)];
       repeat split; try discriminate; try reflexivity; try assumption;
       try (intros [_ H]; exfalso;
            first [exact (Qlt_not_le _ _ H E) | exact (Qlt_not_le _ _ E' H)])). }
  unfold ComparisonResult.new.
  destruct (MatchResult.price best) as [tp|] eqn:Ep.
  - destruct (Qpositive tp && Qpositive (InvoiceItem.price item)) eqn:Eb.
    + apply andb_prop in Eb. destruct Eb as [E1 E2].
      apply Hpos in E1. apply Hpos in E2.
      destruct (Hstatus (Some (InvoiceItem.price item - tp)%Q)
                  (Some ((InvoiceItem.price item - tp)
                         * InvoiceItem.quantity item)%Q)
                  (Some ((InvoiceItem.price item - tp)
                         / InvoiceItem.price item * 100)%Q))
        as [H0 [H1 [H2 H3]]].
      cbn [ComparisonResult.matches ComparisonResult.original_item
           ComparisonResult.best_match ComparisonResult.price_difference
           ComparisonResult.savings_amount ComparisonResult.savings_percent].
      split; [reflexivity|]. split; [reflexivity|]. split; [reflexivity|].
      split; [exact H0|]. split; [|split; split; eauto].
      intros b r [= <- <-]. split; [exact H1|]. split; [exact H2|].
      split; [exact H3|]. split; [|eauto]. intros _. exists tp. auto.
    + destruct (Hstatus None None None) as [H0 [H1 [H2 H3]]].
      cbn [ComparisonResult.matches ComparisonResult.original_item
           ComparisonResult.best_match ComparisonResult.price_difference
           ComparisonResult.savings_amount ComparisonResult.savings_percent].
      split; [reflexivity|]. split; [reflexivity|]. split; [reflexivity|].
      split; [exact H0|]. split; [|split; split; intros [x Hx]; discriminate Hx].
      intros b r [= <- <-]. split; [exact H1|]. split; [exact H2|].
      split; [exact H3|]. split; [intros [x Hx]; discriminate Hx|].
      intros [tp' [Hp [Ht Hi]]]. assert (tp' = tp) as -> by congruence.
      apply Hpos in Ht. apply Hpos in Hi.
      rewrite Ht, Hi in Eb. discriminate.
  - destruct (Hstatus None None None) as [H0 [H1 [H2 H3]]].
    cbn [ComparisonResult.matches ComparisonResult.original_item
         ComparisonResult.best_match ComparisonResult.price_difference
         ComparisonResult.savings_amount ComparisonResult.savings_percent].
    split; [reflexivity|]. split; [reflexivity|]. split; [reflexivity|].
    split; [exact H0|]. split; [|split; split; intros [x Hx]; discriminate Hx].
    intros b r [= <- <-]. split; [exact H1|]. split; [exact H2|].
    split; [exact H3|]. split; [intros [x Hx]; discriminate Hx|].
    intros [tp' [Hp _]]. congruence.
Qed.

Section ComparisonRuns.

Variable ratio : string -> string -> Q.
Variable token_sort_ratio : string -> string -> Q.

(** A call of [find_matches] returns what [matches_of] reads off the
    database and only adds look-ups to the log. *)
Lemma find_matches_run (product_info : descriptor)
    (source_supplier target_supplier : string)
    (min_similarity : Q) (max_results : Z) (w : World) :
  exists events,
    find_matches ratio token_sort_ratio product_info source_supplier target_supplier
      min_similarity max_results w
    = (matches_of ratio token_sort_ratio product_info source_supplier target_supplier
         min_similarity max_results (db w),
       logged w events)
    /\ no_cache_event events.
Proof.
  assert (forall w1,
            exact_strategy product_info source_supplier target_supplier w
              = (Return None, w1) ->
            exists events,
              find_matches ratio token_sort_ratio product_info source_supplier
                target_supplier min_similarity max_results w
              = (Return
                   (slice_to max_results
                      (sort_desc MatchResult.similarity_score
                         (unique MatchResult.product_id
                            (match product_info !! "supplier_code" with
                             | Some supplier_code =>
                                 flat_map (correction_candidates target_supplier (db w))
                                   (user_corrections_for supplier_code source_supplier
                                      (db w))
                             | None => []
                             end
                             ++ fuzzy_candidates ratio token_sort_ratio product_info
                                  target_supplier min_similarity max_results (db w))%list))),
                 logged w events)
              /\ no_cache_event events) as Hnone.
  { intros w1 Hexact.
    destruct (exact_strategy_db _ _ _ _ _ _ Hexact) as [ev1 [-> Hev1]].
    destruct (correction_strategy_run product_info source_supplier target_supplier
                (logged w ev1)) as [ev2 [Hcorr Hev2]].
    destruct (try_fuzzy_match_run ratio token_sort_ratio product_info target_supplier
                min_similarity max_results (logged (logged w ev1) ev2))
      as [ev3 [Hfuzzy Hev3]].
    exists (ev1 ++ ev2 ++ ev3)%list. split.
    - unfold find_matches. unfold bind at 1. rewrite Hexact.
      unfold bind at 1. rewrite Hcorr. unfold bind at 1. rewrite Hfuzzy.
      unfold ret. rewrite !logged_app, app_assoc. reflexivity.
    - unfold no_cache_event in *. rewrite !Forall_app. tauto. }
  unfold matches_of.
  destruct (product_info !! "supplier_code") as [code|] eqn:Ecode.
  - destruct (product_by_supplier_code code source_supplier (db w))
      as [[[product|] mapping]|] eqn:Esrc.
    + destruct (supplier_code_for_product (Product.id product) target_supplier (db w))
        as [tm|] eqn:Etgt.
      * eexists. split; [|shelve].
        unfold find_matches, exact_strategy. rewrite Ecode.
        unfold bind at 1. rewrite try_gtin_match_run, Esrc, Etgt. reflexivity.
      * apply (Hnone (logged w [FindProductBySupplierCode code source_supplier;
                     GetSupplierCodeForProduct (Product.id product) target_supplier])).
        unfold exact_strategy. rewrite Ecode, try_gtin_match_run, Esrc, Etgt.
        reflexivity.
    + eexists. split; [|shelve].
      unfold find_matches, exact_strategy. rewrite Ecode.
      unfold bind at 1. rewrite try_gtin_match_run, Esrc. reflexivity.
    + apply (Hnone (logged w [FindProductBySupplierCode code source_supplier])).
      unfold exact_strategy. rewrite Ecode, try_gtin_match_run, Esrc. reflexivity.
  - apply (Hnone w). unfold exact_strategy. now rewrite Ecode.
  Unshelve. all: repeat constructor.
Qed.

(** One round of the loop of [compare_invoice]. *)
Lemma compare_item_run (item : InvoiceItem.t) (source_supplier target_supplier : string)
    (min_similarity : Q) (max_alternatives : Z) (w : World) :
  exists events,
    compare_item ratio token_sort_ratio item source_supplier target_supplier
      min_similarity max_alternatives w
    = (match matches_of ratio token_sort_ratio (InvoiceItem.to_dict item)
               source_supplier target_supplier min_similarity max_alternatives
               (db w) with
       | Raise e => Raise e
       | Return matches =>
           Return [ComparisonResult.new item
                     (source_product_of item source_supplier (db w)) matches]
       end,
       logged w events)
    /\ no_cache_event events.
Proof.
  unfold compare_item, source_product_of.
  destruct (truthy (InvoiceItem.supplier_code item)).
  - unfold bind at 1. unfold bind at 1.
    rewrite find_product_by_supplier_code_run.
    set (w1 := logged w _).
    destruct (find_matches_run (InvoiceItem.to_dict item) source_supplier
                target_supplier min_similarity max_alternatives w1)
      as [ev [H Hev]].
    change (db w1) with (db w) in H.
    exists (FindProductBySupplierCode (InvoiceItem.supplier_code item) source_supplier
            :: ev).
    split; [|constructor; [reflexivity | exact Hev]].
    destruct (product_by_supplier_code _ _ _) as [[product mapping]|];
      unfold ret at 1; unfold bind; rewrite H;
      (destruct (matches_of _ _ _ _ _ _ _ _); unfold ret; subst w1;
       rewrite logged_app; reflexivity).
  - unfold bind at 1. unfold ret at 1.
    destruct (find_matches_run (InvoiceItem.to_dict item) source_supplier
                target_supplier min_similarity max_alternatives w)
      as [ev [H Hev]].
    exists ev. split; [|exact Hev].
    unfold bind. rewrite H. destruct (matches_of _ _ _ _ _ _ _ _); reflexivity.
Qed.

(** The loop of [compare_invoice]. *)
Lemma compare_loop_run (items : list InvoiceItem.t)
    (source_supplier target_supplier : string)
    (min_similarity : Q) (max_alternatives : Z) (w : World) :
  exists events,
    for_each items
      (fun item =>
         compare_item ratio token_sort_ratio item source_supplier target_supplier
           min_similarity max_alternatives) w
    = (compared_items ratio token_sort_ratio items source_supplier target_supplier
         min_similarity max_alternatives (db w),
       logged w events)
    /\ no_cache_event events.
Proof.
  revert w. induction items as [|item rest IH]; intros w.
  { exists []. rewrite logged_nil. split; [reflexivity | constructor]. }
  cbn [for_each compared_items].
  destruct (compare_item_run item source_supplier target_supplier min_similarity
              max_alternatives w) as [ev1 [H1 Hev1]].
  unfold bind at 1. rewrite H1.
  destruct (matches_of _ _ _ _ _ _ _ _) as [matches|e].
  - destruct (IH (logged w ev1)) as [ev2 [H2 Hev2]].
    unfold bind at 1. rewrite H2. change (db (logged w ev1)) with (db w).
    exists (ev1 ++ ev2)%list.
    split; [|unfold no_cache_event in *; rewrite Forall_app; tauto].
    destruct (compared_items _ _ _ _ _ _ _ _); unfold ret; rewrite logged_app;
      reflexivity.
  - exists ev1. split; [reflexivity | exact Hev1].
Qed.

End ComparisonRuns.

Lemma to_dict_supplier_code (item : InvoiceItem.t) :
  InvoiceItem.to_dict item !! "supplier_code" = Some (InvoiceItem.supplier_code item).
Proof. reflexivity. Qed.

Lemma comparison_result_fields (item : InvoiceItem.t)
    (source_product : option Product.t) (matches : list MatchResult.t) :
  ComparisonResult.original_item (ComparisonResult.new item source_product matches)
    = item
  /\ ComparisonResult.matches (ComparisonResult.new item source_product matches)
     = matches
  /\ ComparisonResult.match_status (ComparisonResult.new item source_product matches)
     = match matches with
       | [] => MatchStatus.NO_MATCH
       | best :: _ => ComparisonResult.status_of best
       end.
Proof.
  unfold ComparisonResult.new. destruct matches as [|best rest]; [now cbn|].
  destruct (MatchResult.price best) as [tp|]; [|now cbn].
  destruct (Qpositive tp && Qpositive (InvoiceItem.price item)); now cbn.
Qed.

(** ** The counts of a report *)

Lemma with_status_cons (status : string) (r : ComparisonResult.t)
    (results : list ComparisonResult.t) :
  with_status status (r :: results)
  = (if String.eqb (ComparisonResult.match_status r) status then 1 else 0)
    + with_status status results.
Proof.
  unfold with_status. cbn [List.filter].
  destruct (String.eqb (ComparisonResult.match_status r) status); cbn [length]; lia.
Qed.

Lemma count_fields (report : ComparisonReport.t) (r : ComparisonResult.t) :
  let s := ComparisonResult.match_status r in
  let one (status : string) := if String.eqb s status then 1 else 0 in
  let counted := ComparisonReport.count report r in
  ComparisonReport.results counted = ComparisonReport.results report
  /\ ComparisonReport.source_supplier counted = ComparisonReport.source_supplier report
  /\ ComparisonReport.target_supplier counted = ComparisonReport.target_supplier report
  /\ ComparisonReport.total_items counted = ComparisonReport.total_items report
  /\ ComparisonReport.exact_matches counted
     = ComparisonReport.exact_matches report + one MatchStatus.EXACT_MATCH
  /\ ComparisonReport.fuzzy_matches counted
     = ComparisonReport.fuzzy_matches report + one MatchStatus.FUZZY_MATCH
  /\ ComparisonReport.low_confidence_matches counted
     = ComparisonReport.low_confidence_matches report + one MatchStatus.LOW_CONFIDENCE
  /\ ComparisonReport.no_matches counted
     = ComparisonReport.no_matches report + one MatchStatus.NO_MATCH
  /\ ComparisonReport.matched_items counted
     = ComparisonReport.matched_items report + one MatchStatus.EXACT_MATCH
       + one MatchStatus.FUZZY_MATCH + one MatchStatus.LOW_CONFIDENCE
  /\ 0 <= one MatchStatus.EXACT_MATCH + one MatchStatus.FUZZY_MATCH
          + one MatchStatus.LOW_CONFIDENCE + one MatchStatus.NO_MATCH <= 1.
Proof.
  intros s one counted. subst one counted. unfold ComparisonReport.count.
  fold s.
  cbn [ComparisonReport.results ComparisonReport.source_supplier
       ComparisonReport.target_supplier ComparisonReport.total_items
       ComparisonReport.exact_matches ComparisonReport.fuzzy_matches
       ComparisonReport.low_confidence_matches ComparisonReport.no_matches
       ComparisonReport.matched_items].
  destruct (String.eqb s MatchStatus.EXACT_MATCH) eqn:E1;
    destruct (String.eqb s MatchStatus.FUZZY_MATCH) eqn:E2;
    destruct (String.eqb s MatchStatus.LOW_CONFIDENCE) eqn:E3;
    destruct (String.eqb s MatchStatus.NO_MATCH) eqn:E4;
    try (apply String.eqb_eq in E1); try (apply String.eqb_eq in E2);
    try (apply String.eqb_eq in E3); try (apply String.eqb_eq in E4);
    unfold MatchStatus.EXACT_MATCH, MatchStatus.FUZZY_MATCH,
      MatchStatus.LOW_CONFIDENCE, MatchStatus.NO_MATCH in *;
    try congruence; cbn [negb andb orb]; repeat split; lia.
Qed.

Lemma count_fold (results : list ComparisonResult.t) (start : ComparisonReport.t) :
  let counted := fold_left ComparisonReport.count results start in
  ComparisonReport.results counted = ComparisonReport.results start
  /\ ComparisonReport.source_supplier counted = ComparisonReport.source_supplier start
  /\ ComparisonReport.target_supplier counted = ComparisonReport.target_supplier start
  /\ ComparisonReport.total_items counted = ComparisonReport.total_items start
  /\ ComparisonReport.exact_matches counted
     = ComparisonReport.exact_matches start
       + with_status MatchStatus.EXACT_MATCH results
  /\ ComparisonReport.fuzzy_matches counted
     = ComparisonReport.fuzzy_matches start
       + with_status MatchStatus.FUZZY_MATCH results
  /\ ComparisonReport.low_confidence_matches counted
     = ComparisonReport.low_confidence_matches start
       + with_status MatchStatus.LOW_CONFIDENCE results
  /\ ComparisonReport.no_matches counted
     = ComparisonReport.no_matches start + with_status MatchStatus.NO_MATCH results
  /\ ComparisonReport.matched_items counted
     = ComparisonReport.matched_items start
       + with_status MatchStatus.EXACT_MATCH results
       + with_status MatchStatus.FUZZY_MATCH results
       + with_status MatchStatus.LOW_CONFIDENCE results.
Proof.
  revert start. induction results as [|r results IH]; intros start.
  { unfold with_status. cbn. repeat split; lia. }
  cbn [fold_left]. cbv zeta in IH.
  destruct (IH (ComparisonReport.count start r))
    as [H1 [H2 [H3 [H4 [H5 [H6 [H7 [H8 H9]]]]]]]].
  destruct (count_fields start r) as [G1 [G2 [G3 [G4 [G5 [G6 [G7 [G8 [G9 _]]]]]]]]].
  cbv zeta. rewrite !with_status_cons.
  rewrite H1, H2, H3, H4, H5, H6, H7, H8, H9, G1, G2, G3, G4, G5, G6, G7, G8, G9.
  repeat split; lia.
Qed.

Lemma with_status_total (results : list ComparisonResult.t) :
  0 <= with_status MatchStatus.EXACT_MATCH results
  /\ 0 <= with_status MatchStatus.FUZZY_MATCH results
  /\ 0 <= with_status MatchStatus.LOW_CONFIDENCE results
  /\ 0 <= with_status MatchStatus.NO_MATCH results
  /\ with_status MatchStatus.EXACT_MATCH results
     + with_status MatchStatus.FUZZY_MATCH results
     + with_status MatchStatus.LOW_CONFIDENCE results
     + with_status MatchStatus.NO_MATCH results
     <= Z.of_nat (length results).
Proof.
  induction results as [|r results IH].
  { unfold with_status. cbn. lia. }
  rewrite !with_status_cons. cbn [length].
  pose proof (count_fields
                (ComparisonReport.mk "" "" [] 0 0 0 0 0 0 0%Q 0%Q 0%Q 0%Q) r) as H.
  cbv zeta in H. destruct H as [_ [_ [_ [_ [_ [_ [_ [_ [_ H]]]]]]]]].
  destruct IH as [I1 [I2 [I3 [I4 I5]]]].
  destruct (String.eqb (ComparisonResult.match_status r) MatchStatus.EXACT_MATCH),
    (String.eqb (ComparisonResult.match_status r) MatchStatus.FUZZY_MATCH),
    (String.eqb (ComparisonResult.match_status r) MatchStatus.LOW_CONFIDENCE),
    (String.eqb (ComparisonResult.match_status r) MatchStatus.NO_MATCH);
    repeat split; lia.
Qed.

Lemma with_status_known (results : list ComparisonResult.t) :
  Forall (fun r => In (ComparisonResult.match_status r)
                     [MatchStatus.EXACT_MATCH; MatchStatus.FUZZY_MATCH;
                      MatchStatus.LOW_CONFIDENCE; MatchStatus.NO_MATCH]) results ->
  with_status MatchStatus.EXACT_MATCH results
  + with_status MatchStatus.FUZZY_MATCH results
  + with_status MatchStatus.LOW_CONFIDENCE results
  + with_status MatchStatus.NO_MATCH results
  = Z.of_nat (length results).
Proof.
  induction 1 as [|r results Hr _ IH].
  { unfold with_status. cbn. lia. }
  rewrite !with_status_cons. cbn [length].
  destruct Hr as [<-|[<-|[<-|[<-|[]]]]]; cbn; lia.
Qed.

Lemma report_fields (source_supplier target_supplier : string)
    (results : list ComparisonResult.t) :
  let report := ComparisonReport.new source_supplier target_supplier results in
  ComparisonReport.results report = results
  /\ ComparisonReport.source_supplier report = source_supplier
  /\ ComparisonReport.target_supplier report = target_supplier
  /\ ComparisonReport.total_items report = Z.of_nat (length results)
  /\ ComparisonReport.exact_matches report
     = with_status MatchStatus.EXACT_MATCH results
  /\ ComparisonReport.fuzzy_matches report
     = with_status MatchStatus.FUZZY_MATCH results
  /\ ComparisonReport.low_confidence_matches report
     = with_status MatchStatus.LOW_CONFIDENCE results
  /\ ComparisonReport.no_matches report
     = with_status MatchStatus.NO_MATCH results
  /\ ComparisonReport.matched_items report
     = with_status MatchStatus.EXACT_MATCH results
       + with_status MatchStatus.FUZZY_MATCH results
       + with_status MatchStatus.LOW_CONFIDENCE results.
Proof.
  cbv zeta. unfold ComparisonReport.new.
  set (start := ComparisonReport.mk _ _ _ _ _ _ _ _ _ _ _ _ _).
  destruct (count_fold results start)
    as [H1 [H2 [H3 [H4 [H5 [H6 [H7 [H8 H9]]]]]]]].
  cbv zeta.
  destruct (Qpositive _);
    cbn [ComparisonReport.results ComparisonReport.source_supplier
         ComparisonReport.target_supplier ComparisonReport.total_items
         ComparisonReport.exact_matches ComparisonReport.fuzzy_matches
         ComparisonReport.low_confidence_matches ComparisonReport.no_matches
         ComparisonReport.matched_items];
    rewrite H1, H2, H3, H4, H5, H6, H7, H8, H9; subst start;
    cbn [ComparisonReport.results ComparisonReport.source_supplier
         ComparisonReport.target_supplier ComparisonReport.total_items
         ComparisonReport.exact_matches ComparisonReport.fuzzy_matches
         ComparisonReport.low_confidence_matches ComparisonReport.no_matches
         ComparisonReport.matched_items];
    repeat split; lia.
Qed.

(** X24. The summary of a report counts every result once at most: the
    total is the number of results, each of the four counters is the
    number of results with its status, the matched items are the exact,
    fuzzy and low-confidence ones together, and matched and unmatched
    items together never exceed the total. *)
Theorem comparison_report_counts (source_supplier target_supplier : string)
    (results : list ComparisonResult.t) :
  let report := ComparisonReport.new source_supplier target_supplier results in
  ComparisonReport.results report = results
  /\ ComparisonReport.total_items report = Z.of_nat (length results)
  /\ ComparisonReport.exact_matches report
     = with_status MatchStatus.EXACT_MATCH results
  /\ ComparisonReport.fuzzy_matches report
     = with_status MatchStatus.FUZZY_MATCH results
  /\ ComparisonReport.low_confidence_matches report
     = with_status MatchStatus.LOW_CONFIDENCE results
  /\ ComparisonReport.no_matches report
     = with_status MatchStatus.NO_MATCH results
  /\ ComparisonReport.matched_items report
     = ComparisonReport.exact_matches report
       + ComparisonReport.fuzzy_matches report
       + ComparisonReport.low_confidence_matches report
  /\ 0 <= ComparisonReport.matched_items report
  /\ 0 <= ComparisonReport.no_matches report
  /\ ComparisonReport.matched_items report + ComparisonReport.no_matches report
     <= ComparisonReport.total_items report.
Proof.
  cbv zeta.
  destruct (report_fields source_supplier target_supplier results)
    as [H1 [_ [_ [H4 [H5 [H6 [H7 [H8 H9]]]]]]]].
  pose proof (with_status_total results) as Ht.
  rewrite H1, H4, H5, H6, H7, H8, H9. repeat split; lia.
Qed.

(** ** Comparing an invoice *)

Section InvoiceFacts.

Variable ratio : string -> string -> Q.
Variable token_sort_ratio : string -> string -> Q.


Lemma matches_of_gtin (item : InvoiceItem.t) (source_supplier target_supplier : string)
    (min_similarity : Q) (max_alternatives : Z) (d : Database)
    (matches : list MatchResult.t) :
  matches_of ratio token_sort_ratio (InvoiceItem.to_dict item) source_supplier
    target_supplier min_similarity max_alternatives d = Return matches ->
  (exactly_listed (InvoiceItem.supplier_code item) source_supplier target_supplier d
   -> exists product target_mapping, matches = [gtin_result product target_mapping])
  /\ (forall r, In r matches -> MatchResult.match_type r = gtin ->
        exactly_listed (InvoiceItem.supplier_code item) source_supplier
          target_supplier d).
Proof.
  assert (forall corrections,
            corrections
            = flat_map (correction_candidates target_supplier d)
                (user_corrections_for (InvoiceItem.supplier_code item)
                   source_supplier d) ->
            forall r,
              In r (slice_to max_alternatives
                      (sort_desc MatchResult.similarity_score
                         (unique MatchResult.product_id
                            (corrections
                             ++ fuzzy_candidates ratio token_sort_ratio
                                  (InvoiceItem.to_dict item) target_supplier
                                  min_similarity max_alternatives d)%list))) ->
              MatchResult.match_type r <> gtin) as Hmerged.
  { intros corrections -> r Hr. apply merged_In in Hr. destruct Hr as [Hr|Hr].
    - apply (correction_candidates_listed ratio token_sort_ratio) in Hr.
      destruct Hr as [_ [-> _]]. discriminate.
    - apply (fuzzy_candidates_spec ratio token_sort_ratio) in Hr.
      destruct Hr as [-> _]. discriminate. }
  unfold matches_of, exactly_listed. rewrite to_dict_supplier_code.
  destruct (product_by_supplier_code _ _ _) as [[[product|] mapping]|] eqn:Esrc.
  - destruct (supplier_code_for_product _ _ _) as [tm|] eqn:Etgt.
    + intros [= <-]. split; [eauto|]. intros r _ _. eauto.
    + intros [= <-]. split.
      * intros [p [m [t [[= <- <-] Ht]]]]. congruence.
      * intros r Hr Hg. exfalso. exact (Hmerged _ eq_refl r Hr Hg).
  - discriminate.
  - intros [= <-]. split.
    + intros [p [m [t [H _]]]]. discriminate H.
    + intros r Hr Hg. exfalso. exact (Hmerged _ eq_refl r Hr Hg).
Qed.


Lemma compared_items_returns (items : list InvoiceItem.t)
    (source_supplier target_supplier : string)
    (min_similarity : Q) (max_alternatives : Z) (d : Database)
    (results : list ComparisonResult.t) :
  compared_items ratio token_sort_ratio items source_supplier target_supplier
    min_similarity max_alternatives d = Return results ->
  map ComparisonResult.original_item results = items
  /\ Forall
       (fun r =>
          matches_of ratio token_sort_ratio
            (InvoiceItem.to_dict (ComparisonResult.original_item r)) source_supplier
            target_supplier min_similarity max_alternatives d
          = Return (ComparisonResult.matches r)
          /\ r = ComparisonResult.new (ComparisonResult.original_item r)
                   (source_product_of (ComparisonResult.original_item r)
                      source_supplier d)
                   (ComparisonResult.matches r))
       results.
Proof.
  revert results. induction items as [|item rest IH]; intros results.
  { intros [= <-]. split; [reflexivity | constructor]. }
  cbn [compared_items].
  destruct (matches_of _ _ _ _ _ _ _ _) as [matches|e1] eqn:Em; [|discriminate].
  destruct (compared_items _ _ _ _ _ _ _ _) as [rs|e2]; [|discriminate].
  intros [= <-]. destruct (IH rs eq_refl) as [Hmap Hall].
  destruct (comparison_result_fields item (source_product_of item source_supplier d)
              matches) as [Hi [Hm _]].
  split.
  - cbn [map]. now rewrite Hi, Hmap.
  - constructor; [|exact Hall]. rewrite Hi, Hm. split; [exact Em | reflexivity].
Qed.

Variable parse_csv : string -> Result (list InvoiceItem.t).

(** A call of [compare_invoice]: its outcome as a function of what
    [parse_csv] gives and of the database, its effect the look-ups added
    to the log. *)
Lemma compare_invoice_run (csv_content source_supplier target_supplier : string)
    (min_similarity : Q) (max_alternatives : Z) (w : World) :
  exists events,
    compare_invoice ratio token_sort_ratio parse_csv csv_content source_supplier
      target_supplier min_similarity max_alternatives w
    = (match parse_csv csv_content with
       | Raise e => Raise e
       | Return [] => Raise "ValueError"
       | Return items =>
           match compared_items ratio token_sort_ratio items source_supplier
                   target_supplier min_similarity max_alternatives (db w) with
           | Raise e => Raise e
           | Return results =>
               Return (ComparisonReport.new source_supplier target_supplier results)
           end
       end,
       logged w events)
    /\ no_cache_event events.
Proof.
  unfold compare_invoice.
  destruct (parse_csv csv_content) as [[|item rest]|e].
  - exists []. rewrite logged_nil. split; [reflexivity | constructor].
  - destruct (compare_loop_run ratio token_sort_ratio (item :: rest) source_supplier
                target_supplier min_similarity max_alternatives w) as [ev [H Hev]].
    exists ev. split; [|exact Hev].
    unfold bind. rewrite H.
    destruct (compared_items _ _ _ _ _ _ _ _); reflexivity.
  - exists []. rewrite logged_nil. split; [reflexivity | constructor].
Qed.

(** X25. Comparing an invoice never changes the database or the clock and
    never reads or writes the result cache, whether it returns a report or
    raises: it ends in the world it started in, with look-ups added to the
    log. *)
Theorem compare_invoice_read_only
    (csv_content source_supplier target_supplier : string)
    (min_similarity : Q) (max_alternatives : Z) (w : World) :
  exists outcome events,
    compare_invoice ratio token_sort_ratio parse_csv csv_content source_supplier
      target_supplier min_similarity max_alternatives w
    = (outcome, logged w events)
    /\ no_cache_event events.
Proof.
  destruct (compare_invoice_run csv_content source_supplier target_supplier
              min_similarity max_alternatives w) as [ev [H Hev]].
  eauto.
Qed.


(** X27. A report [compare_invoice] returns has one result for each line
    that [parse_csv] keeps, in the order of the lines; the matches of a
    result are those [find_matches] returns for that line alone on the
    database of the start, and the result is built from the line, its
    source product and these matches; the report names the two suppliers
    of the call. *)
Theorem compare_invoice_results
    (csv_content source_supplier target_supplier : string)
    (min_similarity : Q) (max_alternatives : Z) (w w' : World)
    (report : ComparisonReport.t) :
  compare_invoice ratio token_sort_ratio parse_csv csv_content source_supplier
    target_supplier min_similarity max_alternatives w = (Return report, w') ->
  parse_csv csv_content
    = Return (map ComparisonResult.original_item (ComparisonReport.results report))
  /\ ComparisonReport.results report <> []
  /\ ComparisonReport.total_items report
     = Z.of_nat (length (ComparisonReport.results report))
  /\ ComparisonReport.source_supplier report = source_supplier
  /\ ComparisonReport.target_supplier report = target_supplier
  /\ Forall
       (fun r =>
          fst (find_matches ratio token_sort_ratio
                 (InvoiceItem.to_dict (ComparisonResult.original_item r))
                 source_supplier target_supplier min_similarity max_alternatives w)
          = Return (ComparisonResult.matches r)
          /\ r = ComparisonResult.new (ComparisonResult.original_item r)
                   (source_product_of (ComparisonResult.original_item r)
                      source_supplier (db w))
                   (ComparisonResult.matches r))
       (ComparisonReport.results report).
Proof.
  destruct (compare_invoice_run csv_content source_supplier target_supplier
              min_similarity max_alternatives w) as [ev [H _]].
  rewrite H. clear H.
  destruct (parse_csv csv_content) as [[|item rest]|e0] eqn:Eitems;
    [discriminate | | discriminate].
  pose proof (compared_items_returns (item :: rest) source_supplier
                target_supplier min_similarity max_alternatives (db w)) as Hr.
  destruct (compared_items _ _ _ _ _ _ _ _) as [results|e1]; [|discriminate].
  intros [= <- _].
  destruct (Hr results eq_refl) as [Hmap Hall].
  destruct (report_fields source_supplier target_supplier results)
    as [H1 [H2 [H3 [H4 _]]]].
  rewrite H1, H2, H3, H4.
  split; [now rewrite Hmap|].
  split; [intros ->; discriminate Hmap|].
  split; [reflexivity|].
  split; [reflexivity|]. split; [reflexivity|].
  apply Forall_forall. intros r Hin.
  rewrite Forall_forall in Hall. destruct (Hall r Hin) as [Hm Hnew].
  split; [|exact Hnew].
  destruct (find_matches_run ratio token_sort_ratio
              (InvoiceItem.to_dict (ComparisonResult.original_item r)) source_supplier
              target_supplier min_similarity max_alternatives w) as [ev' [Hf _]].
  rewrite Hf. exact Hm.
Qed.

(** X28. In a report [compare_invoice] returns every line is counted as
    matched or as unmatched: matched and unmatched items add up to the
    number of lines. A line has the status no_match exactly when it has no
    match, and the status exact_match exactly when its supplier code has
    an active listing at the source supplier for a product that is also
    listed at the target supplier; its only match is then the exact one. *)
Theorem compare_invoice_statuses
    (csv_content source_supplier target_supplier : string)
    (min_similarity : Q) (max_alternatives : Z) (w w' : World)
    (report : ComparisonReport.t) :
  compare_invoice ratio token_sort_ratio parse_csv csv_content source_supplier
    target_supplier min_similarity max_alternatives w = (Return report, w') ->
  (exists items,
     parse_csv csv_content = Return items
     /\ ComparisonReport.matched_items report + ComparisonReport.no_matches report
        = Z.of_nat (length items))
  /\ Forall
       (fun r =>
          (ComparisonResult.match_status r = MatchStatus.NO_MATCH
           <-> ComparisonResult.matches r = [])
          /\ (ComparisonResult.match_status r = MatchStatus.EXACT_MATCH
              <-> exactly_listed
                    (InvoiceItem.supplier_code (ComparisonResult.original_item r))
                    source_supplier target_supplier (db w))
          /\ (ComparisonResult.match_status r = MatchStatus.EXACT_MATCH ->
              exists product target_mapping,
                ComparisonResult.matches r = [gtin_result product target_mapping]))
       (ComparisonReport.results report).
Proof.
  destruct (compare_invoice_run csv_content source_supplier target_supplier
              min_similarity max_alternatives w) as [ev [H _]].
  rewrite H. clear H.
  destruct (parse_csv csv_content) as [[|item rest]|e0] eqn:Eitems;
    [discriminate | | discriminate].
  pose proof (compared_items_returns (item :: rest) source_supplier
                target_supplier min_similarity max_alternatives (db w)) as Hr.
  destruct (compared_items _ _ _ _ _ _ _ _) as [results|e1]; [|discriminate].
  intros [= <- _].
  destruct (Hr results eq_refl) as [Hmap Hall].
  destruct (report_fields source_supplier target_supplier results)
    as [H1 [_ [_ [_ [_ [_ [_ [H8 H9]]]]]]]].
  rewrite H1, H8, H9. rewrite Forall_forall in Hall.
  assert (forall best,
            In (ComparisonResult.status_of best)
              [MatchStatus.EXACT_MATCH; MatchStatus.FUZZY_MATCH;
               MatchStatus.LOW_CONFIDENCE]
            /\ (ComparisonResult.status_of best = MatchStatus.EXACT_MATCH
                <-> MatchResult.match_type best = gtin)) as Hstatus.
  { intros best. unfold ComparisonResult.status_of.
    destruct (MatchResult.match_type best);
      [split; [now left | split; reflexivity] | |];
      (destruct (Qle_bool 80 (MatchResult.similarity_score best));
       (split; [cbn; tauto | split; discriminate])). }
  split.
  - exists (item :: rest). split; [reflexivity|].
    rewrite <- Hmap, length_map. apply with_status_known.
    apply Forall_forall. intros r Hin.
    destruct (Hall r Hin) as [_ Hnew].
    destruct (comparison_result_fields (ComparisonResult.original_item r)
                (source_product_of (ComparisonResult.original_item r)
                   source_supplier (db w))
                (ComparisonResult.matches r)) as [_ [_ Hs]].
    rewrite <- Hnew in Hs. rewrite Hs.
    destruct (ComparisonResult.matches r) as [|best tl];
      [cbn; tauto|].
    destruct (Hstatus best) as [[<-|[<-|[<-|[]]]] _]; cbn; tauto.
  - apply Forall_forall. intros r Hin.
    destruct (Hall r Hin) as [Hm Hnew].
    destruct (comparison_result_fields (ComparisonResult.original_item r)
                (source_product_of (ComparisonResult.original_item r)
                   source_supplier (db w))
                (ComparisonResult.matches r)) as [_ [_ Hs]].
    rewrite <- Hnew in Hs. rewrite Hs.
    destruct (matches_of_gtin _ _ _ _ _ _ _ Hm) as [Hlisted Hgtin].
    destruct (ComparisonResult.matches r) as [|best tl].
    + split; [split; reflexivity|]. split; [|discriminate].
      split; [discriminate|]. intros Hl.
      destruct (Hlisted Hl) as [p [tm Habs]]. discriminate Habs.
    + destruct (Hstatus best) as [Hin3 Hexact].
      split.
      { split; [|discriminate]. intros Hno. exfalso.
        rewrite Hno in Hin3. destruct Hin3 as [Ha|[Ha|[Ha|[]]]]; discriminate Ha. }
      split.
      { rewrite Hexact. split.
        - intros Hg. apply (Hgtin best); [now left | exact Hg].
        - intros Hl. destruct (Hlisted Hl) as [p [tm [= -> ->]]]. reflexivity. }
      intros He. apply Hexact in He. apply Hlisted.
      apply (Hgtin best); [now left | exact He].
Qed.

End InvoiceFacts.

Lemma compare_invoice_results_witness :
  DemoInvoice.parse_csv "invoice"
  = Return (map ComparisonResult.original_item
              (ComparisonReport.results DemoInvoice.report)).
Proof.
  apply (compare_invoice_results Demo.ratio Demo.ratio DemoInvoice.parse_csv "invoice"
           "dube_loiselle" "colabor" 60 5 Demo.world (snd DemoInvoice.outcome)
           DemoInvoice.report).
  vm_compute. reflexivity.
Defined.

Lemma compare_invoice_statuses_witness :
  exists items,
    DemoInvoice.parse_csv "invoice" = Return items
    /\ ComparisonReport.matched_items DemoInvoice.report
       + ComparisonReport.no_matches DemoInvoice.report
       = Z.of_nat (length items).
Proof.
  apply (compare_invoice_statuses Demo.ratio Demo.ratio DemoInvoice.parse_csv "invoice"
           "dube_loiselle" "colabor" 60 5 Demo.world (snd DemoInvoice.outcome)
           DemoInvoice.report).
  vm_compute. reflexivity.
Defined.
